(** * The DNS server browser of avahi-core (browse-dns-server.c)

    A shallow embedding of the DNS server discovery pipeline: the SRV record
    watch handler, the host name resolution handler, construction and
    destruction of an [AvahiDNSServerBrowser], together with the invariants
    the module maintains.

    Heap objects live in finite maps from addresses to structs; a pointer
    that may be NULL is an [option]; reading or releasing an object that is
    not (or no longer) allocated is a [fault].  The public callback is client
    code: it is recorded in a trace and may either return or destroy the
    browser it was handed. *)

From Stdlib Require Import ZArith String List Lia.
From stdpp Require Import base option list gmap strings.

Local Open Scope Z_scope.

(** ** Data model *)

(** Heap addresses. *)
Abbreviation ptr := nat (only parsing).

(** [AvahiIfIndex] and [AvahiProtocol] are C integers. *)
Abbreviation AvahiIfIndex := Z (only parsing).
Abbreviation AvahiProtocol := Z (only parsing).

Inductive AvahiBrowserEvent := AVAHI_BROWSER_NEW | AVAHI_BROWSER_REMOVE.
Inductive AvahiResolverEvent := AVAHI_RESOLVER_FOUND | AVAHI_RESOLVER_TIMEOUT.
Inductive AvahiDNSServerType := AVAHI_DNS_SERVER_RESOLVE | AVAHI_DNS_SERVER_UPDATE.

(** Error codes stored by [avahi_server_set_errno]. *)
Inductive AvahiError :=
  | AVAHI_OK
  | AVAHI_ERR_INVALID_DOMAIN_NAME
  | AVAHI_ERR_NO_MEMORY
  | AVAHI_ERR_OTHER (code : Z).

(** DNS class and type numbers of the query key. *)
Definition AVAHI_DNS_CLASS_IN : Z := 1.
Definition AVAHI_DNS_TYPE_SRV : Z := 33.

#[global] Instance AvahiBrowserEvent_eq_dec : EqDecision AvahiBrowserEvent.
Proof. solve_decision. Defined.
#[global] Instance AvahiResolverEvent_eq_dec : EqDecision AvahiResolverEvent.
Proof. solve_decision. Defined.
#[global] Instance AvahiDNSServerType_eq_dec : EqDecision AvahiDNSServerType.
Proof. solve_decision. Defined.

Record AvahiAddress := mkAddress {
  family : AvahiProtocol;
  addr_data : list Z
}.

Record AvahiKey := mkKey {
  key_name : string;
  key_class : Z;
  key_type : Z
}.

(** [data.srv] of a record. *)
Record AvahiSrvData := mkSrv {
  priority : Z;
  weight : Z;
  port : Z;
  name : string
}.

Record AvahiRecord := mkRecord {
  key : AvahiKey;
  ttl : Z;
  srv : AvahiSrvData
}.

#[global] Instance AvahiAddress_eq_dec : EqDecision AvahiAddress.
Proof. solve_decision. Defined.
#[global] Instance AvahiKey_eq_dec : EqDecision AvahiKey.
Proof. solve_decision. Defined.
#[global] Instance AvahiSrvData_eq_dec : EqDecision AvahiSrvData.
Proof. solve_decision. Defined.
#[global] Instance AvahiRecord_eq_dec : EqDecision AvahiRecord.
Proof. solve_decision. Defined.

(** Modelled from the spec: [avahi_record_equal_no_ttl] lives in rr.c, which
    is not part of the sources at hand.  Record equality ignores the record's
    time-to-live field; only the key and the rdata matter. *)
Definition avahi_record_equal_no_ttl (a b : AvahiRecord) : bool :=
  bool_decide (key a = key b) && bool_decide (srv a = srv b).

(** The arguments of one invocation of the public callback.  [pe_address] is
    the content of the [AvahiAddress] the callback's pointer refers to; [None]
    stands for storage that was never written since its allocation. *)
Record PublicEvent := mkPublicEvent {
  pe_browser : ptr;
  pe_interface : AvahiIfIndex;
  pe_protocol : AvahiProtocol;
  pe_event : AvahiBrowserEvent;
  pe_host_name : string;
  pe_address : option AvahiAddress;
  pe_port : Z;
  pe_userdata : Z
}.

(** What the client does inside its callback, as far as this module can
    observe it: return, or call [avahi_dns_server_browser_free] on the
    browser it was handed. *)
Inductive CallbackAction := CbReturn | CbFreeBrowser.

Abbreviation AvahiDNSServerBrowserCallback := (PublicEvent -> CallbackAction) (only parsing).

(** [struct AvahiDNSServerInfo]; the intrusive list links are kept in the
    owning browser's [info] list. *)
Record AvahiDNSServerInfo := mkInfo {
  browser : ptr;
  interface : AvahiIfIndex;
  protocol : AvahiProtocol;
  srv_record : AvahiRecord;
  host_name_resolver : option ptr;
  address : option AvahiAddress
}.

(** [struct AvahiDNSServerBrowser]; [info] is the linked list headed at
    [b->info], as the list of the addresses of its nodes, and [n_info] the
    [unsigned] counter.  The [server] field is left out: there is one server,
    the state itself. *)
Record AvahiDNSServerBrowser := mkBrowser {
  domain_name : string;
  record_browser : option ptr;
  callback : AvahiDNSServerBrowserCallback;
  userdata : Z;
  aprotocol : AvahiProtocol;
  n_info : Z;
  info : list ptr
}.

(** What the record watch subsystem remembers of a subscription. *)
Record AvahiRecordBrowser := mkRecordBrowser {
  rb_interface : AvahiIfIndex;
  rb_protocol : AvahiProtocol;
  rb_key : AvahiKey;
  rb_userdata : ptr
}.

(** What the resolver subsystem remembers of a host name resolution. *)
Record AvahiHostNameResolver := mkHostNameResolver {
  hr_interface : AvahiIfIndex;
  hr_protocol : AvahiProtocol;
  hr_host_name : string;
  hr_aprotocol : AvahiProtocol;
  hr_userdata : ptr
}.

(** The server: its error code and browser registry, the heap cells of this
    module's structs, the live subscriptions of the two subsystems the module
    consumes, the next unused address, and the trace of public callback
    invocations (most recent first). *)
Record AvahiServer := mkServer {
  error : AvahiError;
  dns_server_browsers : list ptr;
  browsers : gmap nat AvahiDNSServerBrowser;
  infos : gmap nat AvahiDNSServerInfo;
  record_browsers : gmap nat AvahiRecordBrowser;
  host_name_resolvers : gmap nat AvahiHostNameResolver;
  brk : ptr;
  trace : list PublicEvent
}.

(** ** Faults and the state monad *)

Inductive fault :=
  | UseAfterFree (p : ptr)
  | InvalidFree (p : ptr)
  | NullPointer
  | AssertionFailed
  | OutOfFuel.

Inductive result (A : Type) :=
  | Ok (a : A) (s : AvahiServer)
  | Fault (f : fault).
Arguments Ok {A} a s.
Arguments Fault {A} f.

Definition M (A : Type) : Type := AvahiServer -> result A.

Definition ret {A} (a : A) : M A := fun s => Ok a s.
Definition bind {A B} (c : M A) (k : A -> M B) : M B :=
  fun s => match c s with
           | Ok a s' => k a s'
           | Fault f => Fault f
           end.
Definition raise {A} (f : fault) : M A := fun _ => Fault f.
Definition get : M AvahiServer := fun s => Ok s s.
Definition modify (f : AvahiServer -> AvahiServer) : M unit := fun s => Ok tt (f s).

Declare Scope m_scope.
Delimit Scope m_scope with M.
Notation "x <- c ;; k" := (bind c (fun x => k))
  (at level 100, c at next level, right associativity) : m_scope.
Notation "c ;;; k" := (bind c (fun _ => k))
  (at level 100, right associativity) : m_scope.
Local Open Scope m_scope.

(** ** Field updates *)

Definition set_host_name_resolver (r : option ptr) (i : AvahiDNSServerInfo) : AvahiDNSServerInfo :=
  mkInfo (browser i) (interface i) (protocol i) (srv_record i) r (address i).
Definition set_address (a : option AvahiAddress) (i : AvahiDNSServerInfo) : AvahiDNSServerInfo :=
  mkInfo (browser i) (interface i) (protocol i) (srv_record i) (host_name_resolver i) a.
Definition set_info (l : list ptr) (b : AvahiDNSServerBrowser) : AvahiDNSServerBrowser :=
  mkBrowser (domain_name b) (record_browser b) (callback b) (userdata b) (aprotocol b) (n_info b) l.
Definition set_n_info (n : Z) (b : AvahiDNSServerBrowser) : AvahiDNSServerBrowser :=
  mkBrowser (domain_name b) (record_browser b) (callback b) (userdata b) (aprotocol b) n (info b).
Definition set_record_browser (r : option ptr) (b : AvahiDNSServerBrowser) : AvahiDNSServerBrowser :=
  mkBrowser (domain_name b) r (callback b) (userdata b) (aprotocol b) (n_info b) (info b).

Definition upd_error (e : AvahiError) (s : AvahiServer) : AvahiServer :=
  mkServer e (dns_server_browsers s) (browsers s) (infos s) (record_browsers s)
           (host_name_resolvers s) (brk s) (trace s).
Definition upd_dns_server_browsers (f : list ptr -> list ptr) (s : AvahiServer) : AvahiServer :=
  mkServer (error s) (f (dns_server_browsers s)) (browsers s) (infos s) (record_browsers s)
           (host_name_resolvers s) (brk s) (trace s).
Definition upd_browsers (f : gmap nat AvahiDNSServerBrowser -> gmap nat AvahiDNSServerBrowser)
    (s : AvahiServer) : AvahiServer :=
  mkServer (error s) (dns_server_browsers s) (f (browsers s)) (infos s) (record_browsers s)
           (host_name_resolvers s) (brk s) (trace s).
Definition upd_infos (f : gmap nat AvahiDNSServerInfo -> gmap nat AvahiDNSServerInfo)
    (s : AvahiServer) : AvahiServer :=
  mkServer (error s) (dns_server_browsers s) (browsers s) (f (infos s)) (record_browsers s)
           (host_name_resolvers s) (brk s) (trace s).
Definition upd_record_browsers (f : gmap nat AvahiRecordBrowser -> gmap nat AvahiRecordBrowser)
    (s : AvahiServer) : AvahiServer :=
  mkServer (error s) (dns_server_browsers s) (browsers s) (infos s) (f (record_browsers s))
           (host_name_resolvers s) (brk s) (trace s).
Definition upd_host_name_resolvers
    (f : gmap nat AvahiHostNameResolver -> gmap nat AvahiHostNameResolver)
    (s : AvahiServer) : AvahiServer :=
  mkServer (error s) (dns_server_browsers s) (browsers s) (infos s) (record_browsers s)
           (f (host_name_resolvers s)) (brk s) (trace s).
Definition upd_brk (f : ptr -> ptr) (s : AvahiServer) : AvahiServer :=
  mkServer (error s) (dns_server_browsers s) (browsers s) (infos s) (record_browsers s)
           (host_name_resolvers s) (f (brk s)) (trace s).
Definition upd_trace (f : list PublicEvent -> list PublicEvent) (s : AvahiServer) : AvahiServer :=
  mkServer (error s) (dns_server_browsers s) (browsers s) (infos s) (record_browsers s)
           (host_name_resolvers s) (brk s) (f (trace s)).

(** ** Heap primitives *)

Definition load_info (i : ptr) : M AvahiDNSServerInfo :=
  fun s => match infos s !! i with
           | Some v => Ok v s
           | None => Fault (UseAfterFree i)
           end.

Definition store_info (i : ptr) (v : AvahiDNSServerInfo) : M unit :=
  fun s => match infos s !! i with
           | Some _ => Ok tt (upd_infos (insert i v) s)
           | None => Fault (UseAfterFree i)
           end.

Definition load_browser (b : ptr) : M AvahiDNSServerBrowser :=
  fun s => match browsers s !! b with
           | Some v => Ok v s
           | None => Fault (UseAfterFree b)
           end.

Definition store_browser (b : ptr) (v : AvahiDNSServerBrowser) : M unit :=
  fun s => match browsers s !! b with
           | Some _ => Ok tt (upd_browsers (insert b v) s)
           | None => Fault (UseAfterFree b)
           end.

(** [avahi_new(T, 1)]: NULL when the allocator fails ([ok = false]), a fresh
    address otherwise. *)
Definition avahi_new (ok : bool) : M (option ptr) :=
  if ok then (s <- get ;; modify (upd_brk S) ;;; ret (Some (brk s)))
  else ret None.

(** The first writes to a freshly allocated [AvahiDNSServerInfo]. *)
Definition init_info (i : ptr) (v : AvahiDNSServerInfo) : M unit :=
  modify (upd_infos (insert i v)).

Definition init_browser (b : ptr) (v : AvahiDNSServerBrowser) : M unit :=
  modify (upd_browsers (insert b v)).

(** [avahi_free] of an entry and of a browser. *)
Definition avahi_free_info (i : ptr) : M unit :=
  fun s => match infos s !! i with
           | Some _ => Ok tt (upd_infos (delete i) s)
           | None => Fault (InvalidFree i)
           end.

Definition avahi_free_browser (b : ptr) : M unit :=
  fun s => match browsers s !! b with
           | Some _ => Ok tt (upd_browsers (delete b) s)
           | None => Fault (InvalidFree b)
           end.

(** [AVAHI_LLIST_REMOVE]: unlink one node. *)
Fixpoint llist_remove (p : ptr) (l : list ptr) : list ptr :=
  match l with
  | [] => []
  | q :: l' => if decide (q = p) then l' else q :: llist_remove p l'
  end.

(** ** The two subsystems the browser consumes *)

(** Modelled from the spec: the host name resolver (resolve.c is not part of
    the sources at hand).  [start] returns a handle, or none when the
    resolution cannot be started; [stop] is silent and never invokes the
    callback. *)
Definition avahi_host_name_resolver_new (iface : AvahiIfIndex) (proto : AvahiProtocol)
    (host_name : string) (aproto : AvahiProtocol) (udata : ptr) (ok : bool) : M (option ptr) :=
  if ok then
    (s <- get ;;
     modify (upd_brk S) ;;;
     modify (upd_host_name_resolvers
               (insert (brk s) (mkHostNameResolver iface proto host_name aproto udata))) ;;;
     ret (Some (brk s)))
  else ret None.

Definition avahi_host_name_resolver_free (r : option ptr) : M unit :=
  match r with
  | None => raise NullPointer
  | Some r =>
      fun s => match host_name_resolvers s !! r with
               | Some _ => Ok tt (upd_host_name_resolvers (delete r) s)
               | None => Fault (InvalidFree r)
               end
  end.

(** Modelled from the spec: the record watch (browse.c is not part of the
    sources at hand).  [start] returns a handle, or fails with the
    subsystem's own error code; [stop] is silent. *)
Definition avahi_record_browser_new (iface : AvahiIfIndex) (proto : AvahiProtocol)
    (k : AvahiKey) (udata : ptr) (failure : option AvahiError) : M (option ptr) :=
  match failure with
  | Some e => modify (upd_error e) ;;; ret None
  | None =>
      s <- get ;;
      modify (upd_brk S) ;;;
      modify (upd_record_browsers (insert (brk s) (mkRecordBrowser iface proto k udata))) ;;;
      ret (Some (brk s))
  end.

Definition avahi_record_browser_free (r : ptr) : M unit :=
  fun s => match record_browsers s !! r with
           | Some _ => Ok tt (upd_record_browsers (delete r) s)
           | None => Fault (InvalidFree r)
           end.

Definition avahi_server_set_errno (e : AvahiError) : M unit := modify (upd_error e).

(** ** browse-dns-server.c *)

(** The loop of [get_server_info] over the nodes from [b->info] on. *)
Fixpoint get_server_info_from (l : list ptr) (iface : AvahiIfIndex) (proto : AvahiProtocol)
    (r : AvahiRecord) : M (option ptr) :=
  match l with
  | [] => ret None
  | i :: l' =>
      I <- load_info i ;;
      if bool_decide (interface I = iface) && bool_decide (protocol I = proto)
         && avahi_record_equal_no_ttl r (srv_record I)
      then ret (Some i)
      else get_server_info_from l' iface proto r
  end.

Definition get_server_info (b : ptr) (iface : AvahiIfIndex) (proto : AvahiProtocol)
    (r : AvahiRecord) : M (option ptr) :=
  B <- load_browser b ;;
  get_server_info_from (info B) iface proto r.

(** [server_info_free]: the record reference is dropped (a read of the
    entry), a resolver still held is released, the node is unlinked, the
    counter is checked and decremented, and the entry is released. *)
Definition server_info_free (b i : ptr) : M unit :=
  I <- load_info i ;;
  (match host_name_resolver I with
   | Some r => avahi_host_name_resolver_free (Some r)
   | None => ret tt
   end) ;;;
  B <- load_browser b ;;
  store_browser b (set_info (llist_remove i (info B)) B) ;;;
  B <- load_browser b ;;
  (if 1 <=? n_info B then ret tt else raise AssertionFailed) ;;;
  store_browser b (set_n_info ((n_info B - 1) mod 2 ^ 32) B) ;;;
  avahi_free_info i.

(** The loop [while (b->info) server_info_free(b, b->info)]. *)
Fixpoint free_all_infos (fuel : nat) (b : ptr) : M unit :=
  B <- load_browser b ;;
  match info B with
  | [] => ret tt
  | i :: _ =>
      match fuel with
      | O => raise OutOfFuel
      | S fuel' => server_info_free b i ;;; free_all_infos fuel' b
      end
  end.

(** [avahi_dns_server_browser_free]. *)
Definition avahi_dns_server_browser_free (b : ptr) : M unit :=
  B <- load_browser b ;;
  free_all_infos (length (info B)) b ;;;
  B <- load_browser b ;;
  modify (upd_dns_server_browsers (llist_remove b)) ;;;
  (match record_browser B with
   | Some r => avahi_record_browser_free r
   | None => ret tt
   end) ;;;
  avahi_free_browser b.

(** An invocation of [b->callback]: the arguments are recorded, then the
    client acts. *)
Definition invoke_callback (b : ptr) (ev : PublicEvent) : M unit :=
  B <- load_browser b ;;
  modify (upd_trace (cons ev)) ;;;
  match callback B ev with
  | CbReturn => ret tt
  | CbFreeBrowser => avahi_dns_server_browser_free (pe_browser ev)
  end.

(** [host_name_resolver_callback]: [udata] is the entry the resolver was
    started for; the release of the handle and the clearing of the field
    follow the callback. *)
Definition host_name_resolver_callback (r : ptr) (iface : AvahiIfIndex) (proto : AvahiProtocol)
    (event : AvahiResolverEvent) (host_name : string) (a : option AvahiAddress)
    (udata : ptr) : M unit :=
  let i := udata in
  (match event with
   | AVAHI_RESOLVER_FOUND =>
       a' <- (match a with Some x => ret x | None => raise NullPointer end) ;;
       I <- load_info i ;;
       store_info i (set_address (Some a') I) ;;;
       I <- load_info i ;;
       B <- load_browser (browser I) ;;
       invoke_callback (browser I)
         (mkPublicEvent (browser I) (interface I) (protocol I) AVAHI_BROWSER_NEW
            (name (srv (srv_record I))) (address I) (port (srv (srv_record I))) (userdata B))
   | AVAHI_RESOLVER_TIMEOUT => ret tt
   end) ;;;
  I <- load_info i ;;
  avahi_host_name_resolver_free (host_name_resolver I) ;;;
  I <- load_info i ;;
  store_info i (set_host_name_resolver None I).

(** The outcome of the two allocations a SRV NEW event may attempt. *)
Record Allocator := mkAllocator {
  malloc_ok : bool;
  resolver_ok : bool
}.

(** [record_browser_callback]: [udata] is the browser; [env] tells how the
    allocations of a NEW event turn out. *)
Definition record_browser_callback (env : Allocator) (rr : ptr) (iface : AvahiIfIndex)
    (proto : AvahiProtocol) (event : AvahiBrowserEvent) (record : AvahiRecord)
    (udata : ptr) : M unit :=
  let b := udata in
  (if bool_decide (key_type (key record) = AVAHI_DNS_TYPE_SRV) then ret tt
   else raise AssertionFailed) ;;;
  match event with
  | AVAHI_BROWSER_NEW =>
      found <- get_server_info b iface proto record ;;
      match found with
      | Some _ => ret tt
      | None =>
          B <- load_browser b ;;
          if 10 <=? n_info B then ret tt
          else
            mi <- avahi_new (malloc_ok env) ;;
            match mi with
            | None => ret tt
            | Some i =>
                B <- load_browser b ;;
                hr <- avahi_host_name_resolver_new iface proto (name (srv record))
                        (aprotocol B) i (resolver_ok env) ;;
                init_info i (mkInfo b iface proto record hr None) ;;;
                B <- load_browser b ;;
                store_browser b (set_info (i :: info B) B) ;;;
                B <- load_browser b ;;
                store_browser b (set_n_info ((n_info B + 1) mod 2 ^ 32) B)
            end
      end
  | AVAHI_BROWSER_REMOVE =>
      found <- get_server_info b iface proto record ;;
      match found with
      | None => ret tt
      | Some i =>
          I <- load_info i ;;
          (match host_name_resolver I with
           | None =>
               B <- load_browser b ;;
               invoke_callback b
                 (mkPublicEvent b iface proto event (name (srv (srv_record I)))
                    (address I) (port (srv (srv_record I))) (userdata B))
           | Some _ => ret tt
           end) ;;;
          server_info_free b i
      end
  end.

(** ** Construction *)

Definition service_label (type : AvahiDNSServerType) : string :=
  match type with
  | AVAHI_DNS_SERVER_RESOLVE => "_domain._udp"
  | AVAHI_DNS_SERVER_UPDATE => "_dns-update._udp"
  end.

Section Construction.

(** avahi-common/domain.h and rr.h: validation and normalisation of domain
    names and the construction of keys are consumed as they are. *)
Variable avahi_is_valid_domain_name : string -> bool.
Variable avahi_normalize_name : string -> string.
Variable avahi_key_new : string -> Z -> Z -> AvahiKey.

(** The name handed to [avahi_key_new]: [avahi_strdup_printf("%s.%s", ...)]. *)
Definition query_name (type : AvahiDNSServerType) (domain : string) : string :=
  service_label type +:+ "." +:+ domain.

(** [malloc_browser_ok] tells whether the allocation of the browser succeeds,
    [watch_failure] the error the record watch fails with, if it does. *)
Definition avahi_dns_server_browser_new (malloc_browser_ok : bool)
    (watch_failure : option AvahiError)
    (iface : AvahiIfIndex) (proto : AvahiProtocol) (domain : option string)
    (type : AvahiDNSServerType) (aproto : AvahiProtocol)
    (cb : AvahiDNSServerBrowserCallback) (udata : Z) : M (option ptr) :=
  if match domain with
     | Some d => negb (avahi_is_valid_domain_name d)
     | None => false
     end
  then avahi_server_set_errno AVAHI_ERR_INVALID_DOMAIN_NAME ;;; ret None
  else
    mb <- avahi_new malloc_browser_ok ;;
    match mb with
    | None => avahi_server_set_errno AVAHI_ERR_NO_MEMORY ;;; ret None
    | Some b =>
        init_browser b
          (mkBrowser (avahi_normalize_name (match domain with Some d => d | None => "local" end))
                     None cb udata aproto 0 []) ;;;
        modify (upd_dns_server_browsers (cons b)) ;;;
        B <- load_browser b ;;
        let n := query_name type (domain_name B) in
        let k := avahi_key_new n AVAHI_DNS_CLASS_IN AVAHI_DNS_TYPE_SRV in
        rb <- avahi_record_browser_new iface proto k b watch_failure ;;
        B <- load_browser b ;;
        store_browser b (set_record_browser rb B) ;;;
        match rb with
        | None => avahi_dns_server_browser_free b ;;; ret None
        | Some _ => ret (Some b)
        end
    end.

(** The domain name a browser stores. *)
Definition stored_domain (domain : option string) : string :=
  avahi_normalize_name (match domain with Some d => d | None => "local" end).

(** The state after a successful construction. *)
Definition after_browser_new (iface : AvahiIfIndex) (proto : AvahiProtocol)
    (domain : option string) (type : AvahiDNSServerType) (aproto : AvahiProtocol)
    (cb : AvahiDNSServerBrowserCallback) (udata : Z) (s : AvahiServer) : AvahiServer :=
  mkServer (error s) (brk s :: dns_server_browsers s)
    (<[brk s := mkBrowser (stored_domain domain) (Some (S (brk s))) cb udata aproto 0 []]>
       (browsers s))
    (infos s)
    (<[S (brk s) :=
         mkRecordBrowser iface proto
           (avahi_key_new (query_name type (stored_domain domain))
              AVAHI_DNS_CLASS_IN AVAHI_DNS_TYPE_SRV)
           (brk s)]> (record_browsers s))
    (host_name_resolvers s) (S (S (brk s))) (trace s).

End Construction.

(** ** Event delivery *)

(** What the two subsystems may deliver to the module. *)
Inductive Event :=
  | RecordEvent (rr : ptr) (iface : AvahiIfIndex) (proto : AvahiProtocol)
                (ev : AvahiBrowserEvent) (record : AvahiRecord) (env : Allocator)
  | ResolverEvent (r : ptr) (ev : AvahiResolverEvent) (a : option AvahiAddress).

(** Modelled from the spec: a subscription invokes its callback with the user
    data it was started with; a subscription that was stopped (or never
    started) delivers nothing. *)
Definition deliver (e : Event) : M unit :=
  s <- get ;;
  match e with
  | RecordEvent rr iface proto ev record env =>
      match record_browsers s !! rr with
      | Some rb => record_browser_callback env rr iface proto ev record (rb_userdata rb)
      | None => ret tt
      end
  | ResolverEvent r ev a =>
      match host_name_resolvers s !! r with
      | Some hr =>
          host_name_resolver_callback r (hr_interface hr) (hr_protocol hr) ev
            (hr_host_name hr) a (hr_userdata hr)
      | None => ret tt
      end
  end.

Fixpoint run (evs : list Event) : M unit :=
  match evs with
  | [] => ret tt
  | e :: evs' => deliver e ;;; run evs'
  end.

(** The server before anything was created. *)
Definition empty_server : AvahiServer :=
  mkServer AVAHI_OK [] ∅ ∅ ∅ ∅ 0%nat [].

(** The state of a result, if any. *)
Definition state_of {A} (r : result A) : option AvahiServer :=
  match r with
  | Ok _ s => Some s
  | Fault _ => None
  end.

(** ** The lookup as a function of the heap *)

(** The test of the scan in [get_server_info]. *)
Definition matches (iface : AvahiIfIndex) (proto : AvahiProtocol) (r : AvahiRecord)
    (I : AvahiDNSServerInfo) : bool :=
  bool_decide (interface I = iface) && bool_decide (protocol I = proto)
  && avahi_record_equal_no_ttl r (srv_record I).

(** The uniqueness key of an entry: interface, protocol and the record
    without its time-to-live. *)
Definition info_key (I : AvahiDNSServerInfo) : AvahiIfIndex * AvahiProtocol * AvahiKey * AvahiSrvData :=
  (interface I, protocol I, key (srv_record I), srv (srv_record I)).

Definition event_key (iface : AvahiIfIndex) (proto : AvahiProtocol) (r : AvahiRecord)
    : AvahiIfIndex * AvahiProtocol * AvahiKey * AvahiSrvData :=
  (iface, proto, key r, srv r).

(** The scan as a function of the heap. *)
Fixpoint find_info (m : gmap nat AvahiDNSServerInfo) (l : list ptr)
    (iface : AvahiIfIndex) (proto : AvahiProtocol) (r : AvahiRecord) : option ptr :=
  match l with
  | [] => None
  | i :: l' =>
      match m !! i with
      | Some e => if matches iface proto r e then Some i else find_info m l' iface proto r
      | None => None
      end
  end.

(** ** What the operations leave behind *)

(** The state after [server_info_free b i], for the entry [I] and the
    browser [B] found at [i] and [b]. *)
Definition after_server_info_free (b i : ptr) (B : AvahiDNSServerBrowser)
    (I : AvahiDNSServerInfo) (s : AvahiServer) : AvahiServer :=
  mkServer (error s) (dns_server_browsers s)
    (<[b := set_n_info ((n_info B - 1) mod 2 ^ 32) (set_info (llist_remove i (info B)) B)]>
       (browsers s))
    (delete i (infos s))
    (record_browsers s)
    (match host_name_resolver I with
     | Some r => delete r (host_name_resolvers s)
     | None => host_name_resolvers s
     end)
    (brk s) (trace s).

(** The state after a SRV NEW event that leads to a new entry. *)
Definition after_new (env : Allocator) (b : ptr) (B : AvahiDNSServerBrowser)
    (iface : AvahiIfIndex) (proto : AvahiProtocol) (record : AvahiRecord)
    (s : AvahiServer) : AvahiServer :=
  mkServer (error s) (dns_server_browsers s)
    (<[b := set_n_info ((n_info B + 1) mod 2 ^ 32) (set_info (brk s :: info B) B)]>
       (browsers s))
    (<[brk s := mkInfo b iface proto record
                  (if resolver_ok env then Some (S (brk s)) else None) None]> (infos s))
    (record_browsers s)
    (if resolver_ok env
     then <[S (brk s) := mkHostNameResolver iface proto (name (srv record)) (aprotocol B) (brk s)]>
            (host_name_resolvers s)
     else host_name_resolvers s)
    (if resolver_ok env then S (S (brk s)) else S (brk s))
    (trace s).

(** The public event of an entry. *)
Definition public_event (b : ptr) (B : AvahiDNSServerBrowser) (iface : AvahiIfIndex)
    (proto : AvahiProtocol) (ev : AvahiBrowserEvent) (I : AvahiDNSServerInfo) : PublicEvent :=
  mkPublicEvent b iface proto ev (name (srv (srv_record I))) (address I)
    (port (srv (srv_record I))) (userdata B).

(** The state after the terminal event of the resolver [r] of entry [i]. *)
Definition after_resolution (r i : ptr) (I : AvahiDNSServerInfo) (B : AvahiDNSServerBrowser)
    (ev : AvahiResolverEvent) (a : option AvahiAddress) (s : AvahiServer) : AvahiServer :=
  mkServer (error s) (dns_server_browsers s) (browsers s)
    (<[i := set_host_name_resolver None
              (match ev with
               | AVAHI_RESOLVER_FOUND => set_address a I
               | AVAHI_RESOLVER_TIMEOUT => I
               end)]> (infos s))
    (record_browsers s)
    (delete r (host_name_resolvers s))
    (brk s)
    (match ev with
     | AVAHI_RESOLVER_FOUND =>
         public_event (browser I) B (interface I) (protocol I) AVAHI_BROWSER_NEW
           (set_address a I) :: trace s
     | AVAHI_RESOLVER_TIMEOUT => trace s
     end).

(** Whether a SRV NEW event leads to a new entry. *)
Definition accepted (env : Allocator) (s : AvahiServer) (B : AvahiDNSServerBrowser)
    (iface : AvahiIfIndex) (proto : AvahiProtocol) (record : AvahiRecord) : bool :=
  match find_info (infos s) (info B) iface proto record with
  | Some _ => false
  | None => if 10 <=? n_info B then false else malloc_ok env
  end.

Definition entries_live (s : AvahiServer) (B : AvahiDNSServerBrowser) : Prop :=
  forall i, i ∈ info B -> is_Some (infos s !! i).

(** The state in which [server_info_free] runs on a SRV REMOVE event. *)
Definition announce_remove (b : ptr) (B : AvahiDNSServerBrowser) (iface : AvahiIfIndex)
    (proto : AvahiProtocol) (I : AvahiDNSServerInfo) (s : AvahiServer) : AvahiServer :=
  match host_name_resolver I with
  | None => upd_trace (cons (public_event b B iface proto AVAHI_BROWSER_REMOVE I)) s
  | Some _ => s
  end.

(** ** The invariant *)

(** What holds of every browser: its list has no repeated node, every node
    is an allocated entry pointing back to the browser, the counter is the
    length of the list and never more than 10, no two entries have the same
    key, and its record watch is running. *)
Record browser_ok (s : AvahiServer) (b : ptr) (B : AvahiDNSServerBrowser) : Prop :=
  mk_browser_ok {
  bo_nodup : NoDup (info B);
  bo_live : forall i, i ∈ info B -> exists I, infos s !! i = Some I /\ browser I = b;
  bo_count : n_info B = Z.of_nat (length (info B));
  bo_bound : n_info B <= 10;
  bo_dedup : forall i j I J,
    i ∈ info B -> j ∈ info B -> infos s !! i = Some I -> infos s !! j = Some J ->
    info_key I = info_key J -> i = j;
  bo_watch : forall rr, record_browser B = Some rr -> is_Some (record_browsers s !! rr)
}.

(** What holds of the whole state between two events. *)
Record Inv (s : AvahiServer) : Prop := mk_Inv {
  inv_browser : forall b B, browsers s !! b = Some B -> browser_ok s b B;
  inv_info : forall i I, infos s !! i = Some I ->
    exists B, browsers s !! browser I = Some B /\ i ∈ info B;
  inv_resolver : forall i I r, infos s !! i = Some I -> host_name_resolver I = Some r ->
    exists hr, host_name_resolvers s !! r = Some hr /\ hr_userdata hr = i;
  inv_resolved : forall r hr, host_name_resolvers s !! r = Some hr ->
    exists I, infos s !! hr_userdata hr = Some I /\ host_name_resolver I = Some r;
  inv_watch : forall rr rb, record_browsers s !! rr = Some rb ->
    is_Some (browsers s !! rb_userdata rb);
  inv_fresh_browsers : forall p, is_Some (browsers s !! p) -> (p < brk s)%nat;
  inv_fresh_infos : forall p, is_Some (infos s !! p) -> (p < brk s)%nat;
  inv_fresh_record_browsers : forall p, is_Some (record_browsers s !! p) -> (p < brk s)%nat;
  inv_fresh_host_name_resolvers :
    forall p, is_Some (host_name_resolvers s !! p) -> (p < brk s)%nat
}.

(** ** One event at a time *)

(** The transitions of the module on a well-formed state. *)
Inductive step (s : AvahiServer) : Event -> AvahiServer -> Prop :=
  | step_ignored e :
      (forall r ev a, e = ResolverEvent r ev a -> host_name_resolvers s !! r = None) ->
      step s e s
  | step_new rr rb B iface proto record env :
      record_browsers s !! rr = Some rb ->
      browsers s !! rb_userdata rb = Some B ->
      accepted env s B iface proto record = true ->
      step s (RecordEvent rr iface proto AVAHI_BROWSER_NEW record env)
           (after_new env (rb_userdata rb) B iface proto record s)
  | step_remove rr rb B iface proto record env i I :
      record_browsers s !! rr = Some rb ->
      browsers s !! rb_userdata rb = Some B ->
      find_info (infos s) (info B) iface proto record = Some i ->
      infos s !! i = Some I ->
      step s (RecordEvent rr iface proto AVAHI_BROWSER_REMOVE record env)
           (after_server_info_free (rb_userdata rb) i B I
              (announce_remove (rb_userdata rb) B iface proto I s))
  | step_resolution r hr I B ev a :
      host_name_resolvers s !! r = Some hr ->
      infos s !! hr_userdata hr = Some I ->
      host_name_resolver I = Some r ->
      browsers s !! browser I = Some B ->
      (ev = AVAHI_RESOLVER_FOUND -> is_Some a) ->
      step s (ResolverEvent r ev a) (after_resolution r (hr_userdata hr) I B ev a s).

(** ** Conditions on the environment and on a finished resolution *)

(** No client callback of the state destroys its browser. *)
Definition passive (s : AvahiServer) : Prop :=
  forall b B ev, browsers s !! b = Some B -> callback B ev = CbReturn.

(** What the subsystems promise about the events they deliver: the record
    watch was started for SRV records, and a FOUND event carries an address. *)
Definition well_formed_event (e : Event) : Prop :=
  match e with
  | RecordEvent _ _ _ _ record _ => key_type (key record) = AVAHI_DNS_TYPE_SRV
  | ResolverEvent _ ev a => ev = AVAHI_RESOLVER_FOUND -> is_Some a
  end.

(** The resolver [r] is gone and the entry at [i], as long as it exists,
    has no resolver. *)
Definition resolution_over (r i : ptr) (s : AvahiServer) : Prop :=
  (r < brk s)%nat /\ (i < brk s)%nat /\ host_name_resolvers s !! r = None /\
  forall I, infos s !! i = Some I -> host_name_resolver I = None.

(** ** Scenarios *)

Module Scenario.

(** Stand-ins for avahi-common/domain.h on names that are already in
    normal form; the empty label of [".."] makes a name invalid. *)
Definition valid (d : string) : bool := negb (String.eqb d "..").
Definition normalize (d : string) : string := d.

Definition returning : PublicEvent -> CallbackAction := fun _ => CbReturn.
Definition destroying : PublicEvent -> CallbackAction := fun _ => CbFreeBrowser.

Definition host1 : AvahiRecord :=
  mkRecord (mkKey "_domain._udp.local" AVAHI_DNS_CLASS_IN AVAHI_DNS_TYPE_SRV) 120
           (mkSrv 0 0 5353 "host1.local").

(** The same advertisement seen again with another time-to-live. *)
Definition host1_again : AvahiRecord :=
  mkRecord (mkKey "_domain._udp.local" AVAHI_DNS_CLASS_IN AVAHI_DNS_TYPE_SRV) 60
           (mkSrv 0 0 5353 "host1.local").

Definition host (n : Z) : AvahiRecord :=
  mkRecord (mkKey "_domain._udp.local" AVAHI_DNS_CLASS_IN AVAHI_DNS_TYPE_SRV) 120
           (mkSrv 0 0 (5353 + n) "host.local").

Definition addr1 : AvahiAddress := mkAddress 0 [192; 0; 2; 1].

Definition all_ok : Allocator := mkAllocator true true.
Definition no_memory : Allocator := mkAllocator false true.
Definition no_resolver : Allocator := mkAllocator true false.

(** A browser for the domain "local" on a fresh server: the browser is at
    address 0 and its record watch at address 1. *)
Definition created (cb : PublicEvent -> CallbackAction) : AvahiServer :=
  after_browser_new normalize mkKey 1 0 None AVAHI_DNS_SERVER_RESOLVE 0 cb 77 empty_server.

Definition srv_new (r : AvahiRecord) (env : Allocator) : Event :=
  RecordEvent 1%nat 1 0 AVAHI_BROWSER_NEW r env.
Definition srv_remove (r : AvahiRecord) : Event :=
  RecordEvent 1%nat 1 0 AVAHI_BROWSER_REMOVE r all_ok.

(** SRV NEW, then the resolution of the target fails, then SRV REMOVE. *)
Definition scenario_C : list Event :=
  [srv_new host1 all_ok; ResolverEvent 3%nat AVAHI_RESOLVER_TIMEOUT None; srv_remove host1].

(** SRV NEW, then the target is resolved. *)
Definition scenario_A : list Event :=
  [srv_new host1 all_ok; ResolverEvent 3%nat AVAHI_RESOLVER_FOUND (Some addr1)].

(** The state a run ends in. *)
Definition final (r : result unit) : AvahiServer :=
  match r with
  | Ok _ s => s
  | Fault _ => empty_server
  end.

(** host1 was announced and its resolution is pending. *)
Definition pending : AvahiServer :=
  final (run [srv_new host1 all_ok] (created returning)).


(** host1 was announced and resolved. *)
Definition resolved : AvahiServer :=
  final (run scenario_A (created returning)).

(** Ten distinct advertisements. *)
Definition ten_new : list Event :=
  map (fun n => srv_new (host n) all_ok) [0; 1; 2; 3; 4; 5; 6; 7; 8; 9].

(** The browser at capacity. *)
Definition full : AvahiServer :=
  final (run ten_new (created returning)).

(** After the entry of the first advertisement left. *)
Definition one_left : AvahiServer :=
  final (run (ten_new ++ [srv_remove (host 0)]) (created returning)).

End Scenario.

(** ** The module as its clients and the subsystems drive it *)

(** What may happen to the module: a client constructs a browser or destroys
    one it holds, or a subsystem delivers an event. *)
Inductive Call :=
  | CallNew (malloc_browser_ok : bool) (watch_failure : option AvahiError)
            (iface : AvahiIfIndex) (proto : AvahiProtocol) (domain : option string)
            (type : AvahiDNSServerType) (aproto : AvahiProtocol)
            (cb : AvahiDNSServerBrowserCallback) (udata : Z)
  | CallFree (b : ptr)
  | CallDeliver (e : Event).

Section Api.

Variable avahi_is_valid_domain_name : string -> bool.
Variable avahi_normalize_name : string -> string.
Variable avahi_key_new : string -> Z -> Z -> AvahiKey.

Definition api_call (c : Call) : M unit :=
  match c with
  | CallNew m w iface proto domain type aproto cb udata =>
      avahi_dns_server_browser_new avahi_is_valid_domain_name avahi_normalize_name
        avahi_key_new m w iface proto domain type aproto cb udata ;;; ret tt
  | CallFree b => avahi_dns_server_browser_free b
  | CallDeliver e => deliver e
  end.

Fixpoint api_run (cs : list Call) : M unit :=
  match cs with
  | [] => ret tt
  | c :: cs' => api_call c ;;; api_run cs'
  end.

End Api.

(** The invariant, with what construction and destruction keep besides:
    every record watch belongs to the live browser that holds its handle, and
    the registry lists the live browsers, each once. *)
Record Wf (s : AvahiServer) : Prop := mk_Wf {
  wf_inv : Inv s;
  wf_watch_owner : forall rr rb, record_browsers s !! rr = Some rb ->
    exists B, browsers s !! rb_userdata rb = Some B /\ record_browser B = Some rr;
  wf_watch_held : forall b B rr, browsers s !! b = Some B -> record_browser B = Some rr ->
    exists rb, record_browsers s !! rr = Some rb /\ rb_userdata rb = b;
  wf_registry_nodup : NoDup (dns_server_browsers s);
  wf_registry : forall b, b ∈ dns_server_browsers s <-> is_Some (browsers s !! b)
}.

(** The browser an event is delivered to, if its subscription is running. *)
Definition event_browser (s : AvahiServer) (e : Event) : option ptr :=
  match e with
  | RecordEvent rr _ _ _ _ _ => rb_userdata <$> record_browsers s !! rr
  | ResolverEvent r _ _ =>
      match host_name_resolvers s !! r with
      | Some hr => browser <$> infos s !! hr_userdata hr
      | None => None
      end
  end.

(** The state after [avahi_dns_server_browser_free b] on a well-formed state,
    field by field: the browser [B] at [b], its entries, their resolvers and
    its record watch are gone. *)
Record browser_freed (b : ptr) (B : AvahiDNSServerBrowser) (s s' : AvahiServer) : Prop :=
  mk_browser_freed {
  bf_error : error s' = error s;
  bf_registry : dns_server_browsers s' = llist_remove b (dns_server_browsers s);
  bf_browsers : browsers s' = delete b (browsers s);
  bf_infos : forall i, infos s' !! i = if decide (i ∈ info B) then None else infos s !! i;
  bf_resolvers : forall r,
    host_name_resolvers s' !! r =
      match host_name_resolvers s !! r with
      | Some hr => if decide (hr_userdata hr ∈ info B) then None else Some hr
      | None => None
      end;
  bf_record_browsers :
    record_browsers s' =
      match record_browser B with
      | Some rr => delete rr (record_browsers s)
      | None => record_browsers s
      end;
  bf_brk : brk s' = brk s;
  bf_trace : trace s' = trace s
}.

(** Further scenarios. *)
Module Scenario2.

(** Two browsers on one server: the first as in [Scenario.created], the
    second, for update servers of "example.org", at address 2 with its record
    watch at address 3. *)
Definition two_browsers : AvahiServer :=
  after_browser_new Scenario.normalize mkKey 1 0 (Some "example.org") AVAHI_DNS_SERVER_UPDATE 0
    Scenario.returning 78 (Scenario.created Scenario.returning).

(** host1 was announced to a browser whose callback destroys it, and the
    resolution failed. *)
Definition unresolved_destroying : AvahiServer :=
  Scenario.final
    (run [Scenario.srv_new Scenario.host1 Scenario.all_ok;
          ResolverEvent 3%nat AVAHI_RESOLVER_TIMEOUT None]
         (Scenario.created Scenario.destroying)).

(** host1 was announced to a browser whose callback destroys it, and the
    resolution of its target is under way. *)
Definition pending_destroying : AvahiServer :=
  Scenario.final
    (run [Scenario.srv_new Scenario.host1 Scenario.all_ok]
         (Scenario.created Scenario.destroying)).

(** A life of one browser: constructed, two records announced, one resolved,
    one withdrawn. *)
Definition busy : AvahiServer :=
  Scenario.final
    (run [Scenario.srv_new Scenario.host1 Scenario.all_ok;
          Scenario.srv_new (Scenario.host 1) Scenario.all_ok;
          ResolverEvent 3%nat AVAHI_RESOLVER_FOUND (Some Scenario.addr1);
          Scenario.srv_new (Scenario.host 2) Scenario.no_resolver;
          Scenario.srv_remove (Scenario.host 2)]
         (Scenario.created Scenario.returning)).

(** The busy browser destroyed. *)
Definition destroyed : AvahiServer :=
  Scenario.final (avahi_dns_server_browser_free 0%nat busy).

(** What happens after the destruction: events for the handles the browser
    held, and a second browser (at address 7, its record watch at 8) that
    learns of host1 and resolves it. *)
Definition afterwards : list Call :=
  [CallDeliver (Scenario.srv_new (Scenario.host 3) Scenario.all_ok);
   CallDeliver (ResolverEvent 5%nat AVAHI_RESOLVER_FOUND (Some Scenario.addr1));
   CallNew true None 1 0 None AVAHI_DNS_SERVER_RESOLVE 0 Scenario.returning 79;
   CallDeliver (RecordEvent 8%nat 1 0 AVAHI_BROWSER_NEW Scenario.host1 Scenario.all_ok);
   CallDeliver (ResolverEvent 10%nat AVAHI_RESOLVER_FOUND (Some Scenario.addr1))].

Definition after_afterwards : AvahiServer :=
  Scenario.final (api_run Scenario.valid Scenario.normalize mkKey afterwards destroyed).

(** Two browsers come and go on a fresh server. *)
Definition two_lives : list Call :=
  [CallNew true None 1 0 None AVAHI_DNS_SERVER_RESOLVE 0 Scenario.returning 77;
   CallDeliver (Scenario.srv_new Scenario.host1 Scenario.all_ok);
   CallNew true None 1 0 (Some "example.org") AVAHI_DNS_SERVER_UPDATE 0 Scenario.returning 78;
   CallNew true (Some (AVAHI_ERR_OTHER 5)) 1 0 None AVAHI_DNS_SERVER_RESOLVE 0
           Scenario.returning 79;
   CallDeliver (ResolverEvent 3%nat AVAHI_RESOLVER_FOUND (Some Scenario.addr1));
   CallFree 0%nat;
   CallDeliver (RecordEvent 5%nat 1 0 AVAHI_BROWSER_NEW Scenario.host1 Scenario.all_ok)].

Definition after_two_lives : AvahiServer :=
  Scenario.final (api_run Scenario.valid Scenario.normalize mkKey two_lives empty_server).

End Scenario2.

(** ** avahi-glib/glib-watch-test.c *)

Module GlibWatchTest.

(** What the test program does to the outside, in the order it does it. *)
Inductive Action :=
  | Read (fd : Z)
  | PrintReadFailed (error_number : option Z)
  | WatchFree (w : ptr)
  | PrintRead (c : Z)
  | PrintWakeup (i : Z)
  | MainLoopQuit
  | SetWakeup (msec : Z) (jitter : Z).

#[global] Instance Action_eq_dec : EqDecision Action.
Proof. solve_decision. Defined.

(** [callback]: [AVAHI_WATCH_IN] is the bit of watch.h; [read_result], [c]
    and [error_number] are what [read] returns, stores and leaves in [errno].
    A failed read is reported with the text of [errno], an end of file
    ([None] here) with the text EOF. *)
Definition callback (AVAHI_WATCH_IN : Z) (read_result c error_number : Z)
    (w : ptr) (fd : Z) (event : Z) : list Action :=
  if Z.land event AVAHI_WATCH_IN =? 0 then []
  else if read_result <=? 0
       then [Read fd;
             PrintReadFailed (if read_result <? 0 then Some error_number else None);
             WatchFree w]
       else [Read fd; PrintRead (if (32 <=? c) && (c <? 127) then c else 46)].

(** [i++] on the [static int] counter, with the wrap-around of a 32-bit
    signed integer. *)
Definition int_succ (i : Z) : Z := (i + 1 + 2 ^ 31) mod 2 ^ 32 - 2 ^ 31.

(** [wakeup]: from the counter before the call to the counter after it and
    what the call did. *)
Definition wakeup (i : Z) : Z * list Action :=
  let i' := int_succ i in
  (i', [PrintWakeup i] ++ (if 10 <? i' then [MainLoopQuit] else []) ++ [SetWakeup 1000 0]).

(** [n] wakeups in a row. *)
Fixpoint wakeups (n : nat) (i : Z) : Z * list Action :=
  match n with
  | O => (i, [])
  | S n' => let '(i1, out1) := wakeup i in
            let '(i2, out2) := wakeups n' i1 in
            (i2, out1 ++ out2)
  end.

End GlibWatchTest.

(** * Proofs *)

(** ** Reasoning about the list and the lookup *)

Lemma llist_remove_subseteq p l q : q ∈ llist_remove p l -> q ∈ l.
Proof.
  induction l as [|x l IH]; simpl; [done|].
  case_decide; [set_solver|].
  rewrite !elem_of_cons. naive_solver.
Qed.

Lemma llist_remove_other p l q : q ≠ p -> q ∈ l -> q ∈ llist_remove p l.
Proof.
  intros Hne. induction l as [|x l IH]; simpl; [done|].
  rewrite elem_of_cons. case_decide; [naive_solver|].
  rewrite elem_of_cons. naive_solver.
Qed.

Lemma llist_remove_NoDup p l : NoDup l -> NoDup (llist_remove p l).
Proof.
  induction 1 as [|x l Hx Hl IH]; simpl; [constructor|].
  case_decide; [done|].
  constructor; [|done]. intros Hin. by apply Hx, (llist_remove_subseteq p).
Qed.

Lemma llist_remove_gone p l : NoDup l -> p ∉ llist_remove p l.
Proof.
  induction 1 as [|x l Hx Hl IH]; simpl; [set_solver|].
  case_decide; [by subst|].
  rewrite elem_of_cons. naive_solver.
Qed.

Lemma llist_remove_length p l :
  p ∈ l -> S (length (llist_remove p l)) = length l.
Proof.
  induction l as [|x l IH]; simpl; [by intros ?%elem_of_nil|].
  case_decide; [done|].
  rewrite elem_of_cons. intros [->|Hin]; [done|]. simpl. by rewrite IH.
Qed.

Lemma llist_remove_head p l : llist_remove p (p :: l) = l.
Proof. simpl. by rewrite decide_True. Qed.

Lemma matches_key iface proto r I :
  matches iface proto r I = true <-> info_key I = event_key iface proto r.
Proof.
  unfold matches, avahi_record_equal_no_ttl, info_key, event_key.
  rewrite !andb_true_iff, !bool_decide_eq_true.
  split; [intros [[-> ->] [-> ->]]; reflexivity | intros [= -> -> -> ->]; auto].
Qed.

Lemma info_key_equal I J :
  info_key I = info_key J <->
  interface I = interface J /\ protocol I = protocol J /\
  avahi_record_equal_no_ttl (srv_record I) (srv_record J) = true.
Proof.
  unfold avahi_record_equal_no_ttl, info_key.
  rewrite !andb_true_iff, !bool_decide_eq_true.
  split; [intros [= -> -> -> ->]; auto | intros (-> & -> & -> & ->); reflexivity].
Qed.

Lemma get_server_info_from_find s l iface proto r :
  (forall i, i ∈ l -> is_Some (infos s !! i)) ->
  get_server_info_from l iface proto r s = Ok (find_info (infos s) l iface proto r) s.
Proof.
  induction l as [|i l IH]; intros Hl; simpl; [done|].
  destruct (Hl i) as [I HI]; [set_solver|].
  unfold bind, load_info. rewrite HI. fold (matches iface proto r I).
  destruct (matches iface proto r I); [done|].
  apply IH. intros j Hj. apply Hl. set_solver.
Qed.

Lemma find_info_Some m l iface proto r i :
  find_info m l iface proto r = Some i ->
  i ∈ l /\ exists I, m !! i = Some I /\ matches iface proto r I = true.
Proof.
  induction l as [|j l IH]; simpl; [done|].
  destruct (m !! j) as [J|] eqn:HJ; [|done].
  destruct (matches iface proto r J) eqn:HM.
  - intros [= <-]. split; [set_solver|eauto].
  - intros H. destruct (IH H) as [? ?]. split; [set_solver|done].
Qed.

Lemma find_info_None m l iface proto r :
  (forall i, i ∈ l -> is_Some (m !! i)) ->
  find_info m l iface proto r = None ->
  forall i I, i ∈ l -> m !! i = Some I -> matches iface proto r I = false.
Proof.
  induction l as [|j l IH]; simpl; intros Hl Hf i I Hi HI; [by apply elem_of_nil in Hi|].
  destruct (Hl j) as [J HJ]; [set_solver|]. rewrite HJ in Hf.
  destruct (matches iface proto r J) eqn:HM; [done|].
  apply elem_of_cons in Hi as [->|Hi]; [congruence|].
  eapply IH; eauto. intros k Hk. apply Hl. set_solver.
Qed.

Lemma find_info_is_Some m l iface proto r i I :
  (forall i, i ∈ l -> is_Some (m !! i)) ->
  i ∈ l -> m !! i = Some I -> matches iface proto r I = true ->
  is_Some (find_info m l iface proto r).
Proof.
  intros Hl Hi HI HM.
  destruct (find_info m l iface proto r) eqn:Hf; [eauto|].
  by rewrite (find_info_None _ _ _ _ _ Hl Hf i I Hi HI) in HM.
Qed.

Lemma server_eq s1 s2 :
  error s1 = error s2 -> dns_server_browsers s1 = dns_server_browsers s2 ->
  browsers s1 = browsers s2 -> infos s1 = infos s2 ->
  record_browsers s1 = record_browsers s2 ->
  host_name_resolvers s1 = host_name_resolvers s2 ->
  brk s1 = brk s2 -> trace s1 = trace s2 -> s1 = s2.
Proof. destruct s1, s2; simpl; intros; by subst. Qed.

(** *** Stepping through the monad *)

Lemma bind_ret {A B} (a : A) (k : A -> M B) s : bind (ret a) k s = k a s.
Proof. reflexivity. Qed.

Lemma bind_get {B} (k : AvahiServer -> M B) s : bind get k s = k s s.
Proof. reflexivity. Qed.

Lemma bind_modify {B} f (k : unit -> M B) s : bind (modify f) k s = k tt (f s).
Proof. reflexivity. Qed.

Lemma bind_raise {A B} f (k : A -> M B) s : bind (raise f) k s = Fault f.
Proof. reflexivity. Qed.

Lemma bind_bind {A B C} (c : M A) (k1 : A -> M B) (k2 : B -> M C) s :
  bind (bind c k1) k2 s = bind c (fun a => bind (k1 a) k2) s.
Proof. unfold bind. by destruct (c s). Qed.

Lemma bind_Ok {A B} (c : M A) (k : A -> M B) s a s1 :
  c s = Ok a s1 -> bind c k s = k a s1.
Proof. unfold bind. by intros ->. Qed.

Lemma bind_Fault {A B} (c : M A) (k : A -> M B) s f :
  c s = Fault f -> bind c k s = Fault f.
Proof. unfold bind. by intros ->. Qed.

Lemma bind_Ok_inv {A B} (c : M A) (k : A -> M B) s b s' :
  bind c k s = Ok b s' -> exists a s1, c s = Ok a s1 /\ k a s1 = Ok b s'.
Proof. unfold bind. destruct (c s) as [a s1|]; [eauto|done]. Qed.

Lemma load_info_Some i s I : infos s !! i = Some I -> load_info i s = Ok I s.
Proof. unfold load_info. by intros ->. Qed.

Lemma load_info_None i s : infos s !! i = None -> load_info i s = Fault (UseAfterFree i).
Proof. unfold load_info. by intros ->. Qed.

Lemma store_info_Some i v s I :
  infos s !! i = Some I -> store_info i v s = Ok tt (upd_infos (insert i v) s).
Proof. unfold store_info. by intros ->. Qed.

Lemma load_browser_Some b s B : browsers s !! b = Some B -> load_browser b s = Ok B s.
Proof. unfold load_browser. by intros ->. Qed.

Lemma load_browser_None b s :
  browsers s !! b = None -> load_browser b s = Fault (UseAfterFree b).
Proof. unfold load_browser. by intros ->. Qed.

Lemma store_browser_Some b v s B :
  browsers s !! b = Some B -> store_browser b v s = Ok tt (upd_browsers (insert b v) s).
Proof. unfold store_browser. by intros ->. Qed.

Lemma avahi_free_info_Some i s I :
  infos s !! i = Some I -> avahi_free_info i s = Ok tt (upd_infos (delete i) s).
Proof. unfold avahi_free_info. by intros ->. Qed.

Lemma avahi_free_browser_Some b s B :
  browsers s !! b = Some B -> avahi_free_browser b s = Ok tt (upd_browsers (delete b) s).
Proof. unfold avahi_free_browser. by intros ->. Qed.

Lemma avahi_host_name_resolver_free_Some r s hr :
  host_name_resolvers s !! r = Some hr ->
  avahi_host_name_resolver_free (Some r) s = Ok tt (upd_host_name_resolvers (delete r) s).
Proof. unfold avahi_host_name_resolver_free. by intros ->. Qed.

Lemma avahi_host_name_resolver_free_None r s :
  host_name_resolvers s !! r = None ->
  avahi_host_name_resolver_free (Some r) s = Fault (InvalidFree r).
Proof. unfold avahi_host_name_resolver_free. by intros ->. Qed.

Lemma avahi_record_browser_free_Some r s rb :
  record_browsers s !! r = Some rb ->
  avahi_record_browser_free r s = Ok tt (upd_record_browsers (delete r) s).
Proof. unfold avahi_record_browser_free. by intros ->. Qed.

(** Side conditions of a step: a lookup in the state at hand. *)
Ltac mside :=
  simpl; rewrite ?lookup_insert_eq; first [eassumption | reflexivity | eauto].

(** One step of a computation in the goal. *)
Ltac mstep :=
  first
    [ rewrite bind_bind
    | rewrite bind_ret
    | rewrite bind_get
    | rewrite bind_modify
    | rewrite bind_raise
    | erewrite bind_Ok by (first
        [ apply load_info_Some; mside
        | eapply store_info_Some; mside
        | apply load_browser_Some; mside
        | eapply store_browser_Some; mside
        | eapply avahi_free_info_Some; mside
        | eapply avahi_free_browser_Some; mside
        | eapply avahi_host_name_resolver_free_Some; mside
        | eapply avahi_record_browser_free_Some; mside ])
    | erewrite bind_Fault by (first
        [ apply load_info_None; mside
        | apply load_browser_None; mside
        | apply avahi_host_name_resolver_free_None; mside ]) ].

(** One step of a computation in a hypothesis. *)
Ltac mstep_in H :=
  first
    [ rewrite bind_bind in H
    | rewrite bind_ret in H
    | rewrite bind_get in H
    | rewrite bind_modify in H
    | rewrite bind_raise in H
    | erewrite bind_Ok in H by (first
        [ apply load_info_Some; mside
        | eapply store_info_Some; mside
        | apply load_browser_Some; mside
        | eapply store_browser_Some; mside
        | eapply avahi_free_info_Some; mside
        | eapply avahi_free_browser_Some; mside
        | eapply avahi_host_name_resolver_free_Some; mside
        | eapply avahi_record_browser_free_Some; mside ])
    | erewrite bind_Fault in H by (first
        [ apply load_info_None; mside
        | apply load_browser_None; mside
        | apply avahi_host_name_resolver_free_None; mside ]) ].

Lemma server_info_free_ok b i s I B :
  infos s !! i = Some I -> browsers s !! b = Some B -> 1 <= n_info B ->
  (forall r, host_name_resolver I = Some r -> is_Some (host_name_resolvers s !! r)) ->
  server_info_free b i s = Ok tt (after_server_info_free b i B I s).
Proof.
  intros HI HB Hn Hr. unfold server_info_free, after_server_info_free.
  assert (Hle : (1 <=? n_info B) = true) by lia.
  mstep.
  destruct (host_name_resolver I) as [r|] eqn:Hhr.
  - destruct (Hr r eq_refl) as [hr Hhr'].
    repeat mstep. simpl. rewrite Hle. repeat mstep.
    erewrite avahi_free_info_Some by mside.
    f_equal. apply server_eq; simpl; try done. by rewrite insert_insert_eq.
  - repeat mstep. simpl. rewrite Hle. repeat mstep.
    erewrite avahi_free_info_Some by mside.
    f_equal. apply server_eq; simpl; try done. by rewrite insert_insert_eq.
Qed.

Lemma server_info_free_inv b i s s' :
  server_info_free b i s = Ok tt s' ->
  exists I B, infos s !! i = Some I /\ browsers s !! b = Some B /\ 1 <= n_info B /\
    (forall r, host_name_resolver I = Some r -> is_Some (host_name_resolvers s !! r)) /\
    s' = after_server_info_free b i B I s.
Proof.
  intros H.
  destruct (infos s !! i) as [I|] eqn:HI.
  2:{ unfold server_info_free in H. by mstep_in H. }
  assert (Hres : forall r, host_name_resolver I = Some r ->
                           is_Some (host_name_resolvers s !! r)).
  { intros r Hr. destruct (host_name_resolvers s !! r) eqn:Hr'; [eauto|].
    unfold server_info_free in H. mstep_in H. rewrite Hr in H.
    by mstep_in H. }
  destruct (browsers s !! b) as [B|] eqn:HB.
  2:{ unfold server_info_free in H. mstep_in H.
      destruct (host_name_resolver I) as [r|].
      - destruct (Hres r eq_refl) as [hr Hhr]. by repeat mstep_in H.
      - by repeat mstep_in H. }
  destruct (decide (1 <= n_info B)) as [Hn|Hn].
  - rewrite (server_info_free_ok b i s I B) in H by done.
    injection H as <-. eauto 10.
  - unfold server_info_free in H. mstep_in H.
    assert (Hle : (1 <=? n_info B) = false) by lia.
    destruct (host_name_resolver I) as [r|].
    + destruct (Hres r eq_refl) as [hr Hhr].
      repeat mstep_in H. simpl in H. rewrite Hle in H. by mstep_in H.
    + repeat mstep_in H. simpl in H. rewrite Hle in H. by mstep_in H.
Qed.

(** *** The handlers, case by case *)

Lemma invoke_callback_return b ev s B :
  browsers s !! b = Some B -> callback B ev = CbReturn ->
  invoke_callback b ev s = Ok tt (upd_trace (cons ev) s).
Proof.
  intros HB Hcb. unfold invoke_callback. repeat mstep. by rewrite Hcb.
Qed.

Lemma get_server_info_find b s B iface proto r :
  browsers s !! b = Some B -> entries_live s B ->
  get_server_info b iface proto r s = Ok (find_info (infos s) (info B) iface proto r) s.
Proof.
  intros HB Hl. unfold get_server_info. mstep. by apply get_server_info_from_find.
Qed.

Lemma record_browser_callback_new env rr iface proto record b s B :
  browsers s !! b = Some B -> entries_live s B ->
  key_type (key record) = AVAHI_DNS_TYPE_SRV ->
  record_browser_callback env rr iface proto AVAHI_BROWSER_NEW record b s =
  Ok tt (if accepted env s B iface proto record
         then after_new env b B iface proto record s else s).
Proof.
  intros HB Hl Hsrv. unfold record_browser_callback, accepted.
  rewrite bool_decide_eq_true_2 by done. mstep.
  erewrite bind_Ok by (by apply get_server_info_find).
  destruct (find_info (infos s) (info B) iface proto record) as [j|]; [done|].
  mstep. destruct (10 <=? n_info B); [done|].
  unfold avahi_new. destruct (malloc_ok env); [|by mstep].
  repeat mstep.
  unfold avahi_host_name_resolver_new, after_new.
  destruct (resolver_ok env).
  - repeat mstep. unfold init_info. repeat mstep.
    erewrite store_browser_Some by mside.
    f_equal. apply server_eq; simpl; try done. by rewrite insert_insert_eq.
  - repeat mstep. unfold init_info. repeat mstep.
    erewrite store_browser_Some by mside.
    f_equal. apply server_eq; simpl; try done. by rewrite insert_insert_eq.
Qed.

Lemma record_browser_callback_remove_absent env rr iface proto record b s B :
  browsers s !! b = Some B -> entries_live s B ->
  key_type (key record) = AVAHI_DNS_TYPE_SRV ->
  find_info (infos s) (info B) iface proto record = None ->
  record_browser_callback env rr iface proto AVAHI_BROWSER_REMOVE record b s = Ok tt s.
Proof.
  intros HB Hl Hsrv Hf. unfold record_browser_callback.
  rewrite bool_decide_eq_true_2 by done. mstep.
  erewrite bind_Ok by (by apply get_server_info_find).
  by rewrite Hf.
Qed.

Lemma record_browser_callback_remove env rr iface proto record b s B i I :
  browsers s !! b = Some B -> entries_live s B ->
  key_type (key record) = AVAHI_DNS_TYPE_SRV ->
  find_info (infos s) (info B) iface proto record = Some i ->
  infos s !! i = Some I ->
  1 <= n_info B ->
  (forall r, host_name_resolver I = Some r -> is_Some (host_name_resolvers s !! r)) ->
  (host_name_resolver I = None ->
   callback B (public_event b B iface proto AVAHI_BROWSER_REMOVE I) = CbReturn) ->
  record_browser_callback env rr iface proto AVAHI_BROWSER_REMOVE record b s =
  Ok tt (after_server_info_free b i B I (announce_remove b B iface proto I s)).
Proof.
  intros HB Hl Hsrv Hf HI Hn Hr Hcb. unfold record_browser_callback, announce_remove.
  rewrite bool_decide_eq_true_2 by done. mstep.
  erewrite bind_Ok by (by apply get_server_info_find).
  rewrite Hf. mstep.
  destruct (host_name_resolver I) as [r|] eqn:Hhr.
  - mstep. apply server_info_free_ok; try done. by rewrite Hhr.
  - mstep. mstep.
    erewrite bind_Ok by (eapply invoke_callback_return; [done|by apply Hcb]).
    apply server_info_free_ok; try done. by rewrite Hhr.
Qed.

Lemma host_name_resolver_callback_ok r iface proto ev host_name a i s I B hr :
  infos s !! i = Some I -> browsers s !! browser I = Some B ->
  host_name_resolver I = Some r -> host_name_resolvers s !! r = Some hr ->
  (ev = AVAHI_RESOLVER_FOUND ->
   is_Some a /\
   callback B (public_event (browser I) B (interface I) (protocol I) AVAHI_BROWSER_NEW
                 (set_address a I)) = CbReturn) ->
  host_name_resolver_callback r iface proto ev host_name a i s =
  Ok tt (after_resolution r i I B ev a s).
Proof.
  intros HI HB Hhr Hr Hev. unfold host_name_resolver_callback, after_resolution.
  destruct ev.
  - destruct (Hev eq_refl) as [[a' ->] Hcb].
    repeat mstep.
    erewrite bind_Ok by (eapply invoke_callback_return; [mside|exact Hcb]).
    repeat mstep. simpl. rewrite Hhr. repeat mstep.
    erewrite store_info_Some by mside.
    f_equal. apply server_eq; simpl; try done. by rewrite insert_insert_eq.
  - repeat mstep. rewrite Hhr. repeat mstep.
    erewrite store_info_Some by mside. done.
Qed.

Lemma Inv_empty_server : Inv empty_server.
Proof.
  split; simpl; intros *; rewrite ?lookup_empty; try done; by intros [? ?].
Qed.

Lemma Inv_entries_live s b B : Inv s -> browsers s !! b = Some B -> entries_live s B.
Proof.
  intros HInv HB i Hi.
  destruct (bo_live _ _ _ (inv_browser _ HInv _ _ HB) i Hi) as (I & -> & _). eauto.
Qed.

Lemma Inv_entry_browser s b B i I :
  Inv s -> browsers s !! b = Some B -> i ∈ info B -> infos s !! i = Some I -> browser I = b.
Proof.
  intros HInv HB Hi HI.
  destruct (bo_live _ _ _ (inv_browser _ HInv _ _ HB) i Hi) as (I' & HI' & Hb). congruence.
Qed.

Lemma Inv_brk_fresh s : Inv s ->
  browsers s !! brk s = None /\ infos s !! brk s = None /\
  host_name_resolvers s !! brk s = None /\ host_name_resolvers s !! S (brk s) = None /\
  record_browsers s !! brk s = None /\ record_browsers s !! S (brk s) = None.
Proof.
  intros HInv. repeat split; apply eq_None_not_Some; intros H.
  - apply (inv_fresh_browsers _ HInv) in H. lia.
  - apply (inv_fresh_infos _ HInv) in H. lia.
  - apply (inv_fresh_host_name_resolvers _ HInv) in H. lia.
  - apply (inv_fresh_host_name_resolvers _ HInv) in H. lia.
  - apply (inv_fresh_record_browsers _ HInv) in H. lia.
  - apply (inv_fresh_record_browsers _ HInv) in H. lia.
Qed.

(** A browser stays well formed when its entries keep their owner and key
    and its record watch keeps running. *)
Lemma browser_ok_frame s s' b B :
  browser_ok s b B ->
  (forall i I, i ∈ info B -> infos s !! i = Some I ->
     exists I', infos s' !! i = Some I' /\ browser I' = browser I /\ info_key I' = info_key I) ->
  (forall rr, is_Some (record_browsers s !! rr) -> is_Some (record_browsers s' !! rr)) ->
  browser_ok s' b B.
Proof.
  intros [Hnd Hlive Hcnt Hbnd Hdd Hw] Hinfo Hrb. split; try done.
  - intros i Hi. destruct (Hlive i Hi) as (I & HI & Hb).
    destruct (Hinfo i I Hi HI) as (I' & HI' & Hb' & _). exists I'. split; congruence.
  - intros i j I' J' Hi Hj HI' HJ' Hk.
    destruct (Hlive i Hi) as (I & HI & _). destruct (Hlive j Hj) as (J & HJ & _).
    destruct (Hinfo i I Hi HI) as (I2 & HI2 & _ & Hk1).
    destruct (Hinfo j J Hj HJ) as (J2 & HJ2 & _ & Hk2).
    apply (Hdd i j I J); try done. congruence.
  - intros rr Hrr. apply Hrb, Hw, Hrr.
Qed.

Lemma accepted_true env s B iface proto record :
  accepted env s B iface proto record = true ->
  find_info (infos s) (info B) iface proto record = None /\ n_info B < 10 /\
  malloc_ok env = true.
Proof.
  unfold accepted. destruct (find_info _ _ _ _ _); [done|].
  destruct (10 <=? n_info B) eqn:Hle; [done|]. intros ->. split; [done|]. split; [lia|done].
Qed.

Lemma Inv_after_new env s b B iface proto record :
  Inv s -> browsers s !! b = Some B ->
  accepted env s B iface proto record = true ->
  Inv (after_new env b B iface proto record s).
Proof.
  intros HInv HB Hadm.
  destruct (accepted_true _ _ _ _ _ _ Hadm) as (Hfind & Hlt & _).
  destruct (Inv_brk_fresh s HInv) as (Hfb & Hfi & Hfr & Hfr' & _).
  pose proof (inv_browser _ HInv _ _ HB) as HokB.
  pose proof (Inv_entries_live _ _ _ HInv HB) as HliveB.
  assert (Hnotin : brk s ∉ info B).
  { intros Hin. destruct (HliveB _ Hin) as [? ?]. congruence. }
  split; simpl.
  - intros b' B'. destruct (decide (b' = b)) as [->|Hne].
    + rewrite lookup_insert_eq. intros [= <-].
      destruct HokB as [Hnd Hlive Hcnt Hbnd Hdd Hw]. split; simpl.
      * by constructor.
      * intros i. rewrite elem_of_cons. intros [->|Hi].
        -- rewrite lookup_insert_eq. eauto.
        -- rewrite lookup_insert_ne by (intros <-; done). by apply Hlive.
      * rewrite Z.mod_small by lia. lia.
      * rewrite Z.mod_small by lia. lia.
      * intros i j I J. rewrite !elem_of_cons.
        assert (Hnew : forall k K, k ∈ info B -> infos s !! k = Some K ->
                  info_key K <> event_key iface proto record).
        { intros k K Hk HK Heq. apply matches_key in Heq.
          by rewrite (find_info_None _ _ _ _ _ HliveB Hfind k K Hk HK) in Heq. }
        intros [->|Hi] [->|Hj]; [done|..].
        -- rewrite lookup_insert_eq, lookup_insert_ne by (intros <-; done).
           intros [= <-] HJ Hk. exfalso. by apply (Hnew j J Hj HJ).
        -- rewrite lookup_insert_eq, lookup_insert_ne by (intros <-; done).
           intros HI [= <-] Hk. exfalso. by apply (Hnew i I Hi HI).
        -- rewrite !lookup_insert_ne by (intros <-; done). by apply Hdd.
      * done.
    + rewrite lookup_insert_ne by done. intros HB'.
      apply (browser_ok_frame s); [by apply (inv_browser _ HInv)| |done].
      intros i I Hi HI. exists I. simpl. rewrite lookup_insert_ne; [done|].
      intros <-. congruence.
  - intros i I. destruct (decide (i = brk s)) as [->|Hne].
    + rewrite lookup_insert_eq. intros [= <-]. simpl.
      rewrite lookup_insert_eq. eexists. split; [done|]. simpl. set_solver.
    + rewrite lookup_insert_ne by done. intros HI.
      destruct (inv_info _ HInv _ _ HI) as (B0 & HB0 & Hi).
      destruct (decide (browser I = b)) as [Hb|Hb].
      * rewrite Hb in *. rewrite lookup_insert_eq. eexists. split; [done|].
        simpl. assert (B0 = B) as -> by congruence. set_solver.
      * rewrite lookup_insert_ne by done. eauto.
  - intros i I r. destruct (decide (i = brk s)) as [->|Hne].
    + rewrite lookup_insert_eq. intros [= <-]. simpl.
      destruct (resolver_ok env); [|done]. intros [= <-].
      rewrite lookup_insert_eq. eauto.
    + rewrite lookup_insert_ne by done. intros HI Hr.
      destruct (inv_resolver _ HInv _ _ _ HI Hr) as (hr & Hhr & Hud).
      exists hr. split; [|done]. destruct (resolver_ok env); [|done].
      rewrite lookup_insert_ne; [done|]. intros <-. congruence.
  - intros r hr Hr.
    assert (Hcase : (r = S (brk s) /\ resolver_ok env = true /\
                     hr = mkHostNameResolver iface proto (name (srv record)) (aprotocol B) (brk s))
                    \/ host_name_resolvers s !! r = Some hr).
    { destruct (resolver_ok env); [|by right].
      destruct (decide (r = S (brk s))) as [->|Hne].
      - rewrite lookup_insert_eq in Hr. left. naive_solver.
      - rewrite lookup_insert_ne in Hr by done. by right. }
    destruct Hcase as [(-> & Hok & ->)|Hold]; simpl.
    + rewrite lookup_insert_eq. eexists. split; [done|]. simpl. by rewrite Hok.
    + destruct (inv_resolved _ HInv _ _ Hold) as (I & HI & HIr).
      exists I. split; [|done]. rewrite lookup_insert_ne; [done|]. intros Heq.
      rewrite <- Heq in HI. congruence.
  - intros rr rb Hrr. destruct (inv_watch _ HInv _ _ Hrr) as [B' HB'].
    destruct (decide (rb_userdata rb = b)) as [->|Hne].
    + rewrite lookup_insert_eq. eauto.
    + rewrite lookup_insert_ne by done. eauto.
  - intros p. destruct (decide (p = b)) as [->|Hne].
    + intros _. assert (b < brk s)%nat by (apply (inv_fresh_browsers _ HInv); eauto).
      destruct (resolver_ok env); lia.
    + rewrite lookup_insert_ne by done. intros Hp%(inv_fresh_browsers _ HInv).
      destruct (resolver_ok env); lia.
  - intros p. destruct (decide (p = brk s)) as [->|Hne].
    + intros _. destruct (resolver_ok env); lia.
    + rewrite lookup_insert_ne by done. intros Hp%(inv_fresh_infos _ HInv).
      destruct (resolver_ok env); lia.
  - intros p Hp%(inv_fresh_record_browsers _ HInv). destruct (resolver_ok env); lia.
  - intros p. destruct (resolver_ok env).
    + destruct (decide (p = S (brk s))) as [->|Hne]; [lia|].
      rewrite lookup_insert_ne by done. intros Hp%(inv_fresh_host_name_resolvers _ HInv). lia.
    + intros Hp%(inv_fresh_host_name_resolvers _ HInv). lia.
Qed.

Lemma Inv_upd_trace f s : Inv s -> Inv (upd_trace f s).
Proof.
  intros [Hb ? ? ? ? ? ? ? ?]. split; try done.
  intros b B HB. apply (browser_ok_frame s); [by apply Hb|eauto|done].
Qed.

Lemma Inv_announce_remove b B iface proto I s :
  Inv s -> Inv (announce_remove b B iface proto I s).
Proof.
  intros HInv. unfold announce_remove.
  destruct (host_name_resolver I); [done|by apply Inv_upd_trace].
Qed.

Lemma Inv_after_server_info_free s b B i I :
  Inv s -> browsers s !! b = Some B -> i ∈ info B -> infos s !! i = Some I ->
  Inv (after_server_info_free b i B I s).
Proof.
  intros HInv HB Hi HI.
  pose proof (inv_browser _ HInv _ _ HB) as HokB.
  pose proof (Inv_entry_browser _ _ _ _ _ HInv HB Hi HI) as HbI.
  assert (Hres : forall r hr, host_name_resolver I = Some r ->
            host_name_resolvers s !! r = Some hr -> hr_userdata hr = i).
  { intros r hr Hr Hhr. destruct (inv_resolver _ HInv _ _ _ HI Hr) as (hr' & Hhr' & Hud).
    congruence. }
  assert (Hkeep : forall r hr, host_name_resolvers s !! r = Some hr -> hr_userdata hr <> i ->
            match host_name_resolver I with
            | Some r0 => delete r0 (host_name_resolvers s)
            | None => host_name_resolvers s
            end !! r = Some hr).
  { intros r hr Hhr Hud. destruct (host_name_resolver I) as [r0|] eqn:Hr0; [|done].
    rewrite lookup_delete_ne; [done|]. intros <-. by apply Hud, (Hres r0). }
  assert (Hsub : forall r hr,
            match host_name_resolver I with
            | Some r0 => delete r0 (host_name_resolvers s)
            | None => host_name_resolvers s
            end !! r = Some hr ->
            host_name_resolvers s !! r = Some hr /\ host_name_resolver I <> Some r).
  { intros r hr. destruct (host_name_resolver I) as [r0|] eqn:Hr0; [|done].
    destruct (decide (r0 = r)) as [->|Hne].
    - by rewrite lookup_delete_eq.
    - rewrite lookup_delete_ne by done. intros ?. split; [done|congruence]. }
  split; simpl.
  - intros b' B'. destruct (decide (b' = b)) as [->|Hne].
    + rewrite lookup_insert_eq. intros [= <-].
      destruct HokB as [Hnd Hlive Hcnt Hbnd Hdd Hw]. split; simpl.
      * by apply llist_remove_NoDup.
      * intros j Hj. rewrite lookup_delete_ne.
        -- by apply Hlive, (llist_remove_subseteq i).
        -- intros <-. by apply (llist_remove_gone i (info B)).
      * pose proof (llist_remove_length i (info B) Hi).
        rewrite Z.mod_small by lia. lia.
      * pose proof (llist_remove_length i (info B) Hi).
        rewrite Z.mod_small by lia. lia.
      * intros j k J K Hj Hk.
        assert (j <> i) by (intros ->; by apply (llist_remove_gone i (info B))).
        assert (k <> i) by (intros ->; by apply (llist_remove_gone i (info B))).
        rewrite !lookup_delete_ne by done.
        apply Hdd; by eapply llist_remove_subseteq.
      * done.
    + rewrite lookup_insert_ne by done. intros HB'.
      apply (browser_ok_frame s); [by apply (inv_browser _ HInv)| |done].
      intros j J Hj HJ. exists J. simpl. rewrite lookup_delete_ne; [done|].
      intros <-.
      pose proof (Inv_entry_browser _ _ _ _ _ HInv HB' Hj HJ). congruence.
  - intros j J. destruct (decide (j = i)) as [->|Hne].
    + by rewrite lookup_delete_eq.
    + rewrite lookup_delete_ne by done. intros HJ.
      destruct (inv_info _ HInv _ _ HJ) as (B0 & HB0 & Hj).
      destruct (decide (browser J = b)) as [Hb|Hb].
      * rewrite Hb in *. rewrite lookup_insert_eq. eexists. split; [done|].
        simpl. assert (B0 = B) as -> by congruence. by apply llist_remove_other.
      * rewrite lookup_insert_ne by done. eauto.
  - intros j J r. destruct (decide (j = i)) as [->|Hne].
    + by rewrite lookup_delete_eq.
    + rewrite lookup_delete_ne by done. intros HJ Hr.
      destruct (inv_resolver _ HInv _ _ _ HJ Hr) as (hr & Hhr & Hud).
      exists hr. split; [|done]. apply Hkeep; [done|congruence].
  - intros r hr Hr. destruct (Hsub r hr Hr) as [Hold Hnot].
    destruct (inv_resolved _ HInv _ _ Hold) as (J & HJ & HJr).
    exists J. split; [|done]. rewrite lookup_delete_ne; [done|].
    intros Heq. rewrite <- Heq in HJ. congruence.
  - intros rr rb Hrr. destruct (inv_watch _ HInv _ _ Hrr) as [B' HB'].
    destruct (decide (rb_userdata rb = b)) as [->|Hne].
    + rewrite lookup_insert_eq. eauto.
    + rewrite lookup_insert_ne by done. eauto.
  - intros p. destruct (decide (p = b)) as [->|Hne].
    + intros _. apply (inv_fresh_browsers _ HInv); eauto.
    + rewrite lookup_insert_ne by done. apply (inv_fresh_browsers _ HInv).
  - intros p. destruct (decide (p = i)) as [->|Hne].
    + rewrite lookup_delete_eq. by intros [? ?].
    + rewrite lookup_delete_ne by done. apply (inv_fresh_infos _ HInv).
  - apply (inv_fresh_record_browsers _ HInv).
  - intros p [hr Hp]. destruct (Hsub p hr Hp) as [Hold _].
    apply (inv_fresh_host_name_resolvers _ HInv). eauto.
Qed.

Lemma Inv_after_resolution s r i I B ev a :
  Inv s -> infos s !! i = Some I -> host_name_resolver I = Some r ->
  Inv (after_resolution r i I B ev a s).
Proof.
  intros HInv HI Hr.
  destruct (inv_resolver _ HInv _ _ _ HI Hr) as (hr0 & Hhr0 & Hud0).
  set (I' := set_host_name_resolver None
               (match ev with
                | AVAHI_RESOLVER_FOUND => set_address a I
                | AVAHI_RESOLVER_TIMEOUT => I
                end)).
  assert (HbI : browser I' = browser I) by (unfold I'; by destruct ev).
  assert (HkI : info_key I' = info_key I) by (unfold I'; by destruct ev).
  assert (HrI : host_name_resolver I' = None) by done.
  split; simpl; fold I'.
  - intros b B' HB'.
    apply (browser_ok_frame s); [by apply (inv_browser _ HInv)| |done].
    intros j J Hj HJ. simpl. fold I'. destruct (decide (j = i)) as [->|Hne].
    + rewrite lookup_insert_eq. exists I'. assert (J = I) as -> by congruence. done.
    + rewrite lookup_insert_ne by done. eauto.
  - intros j J. destruct (decide (j = i)) as [->|Hne].
    + rewrite lookup_insert_eq. intros [= <-]. rewrite HbI. by apply (inv_info _ HInv).
    + rewrite lookup_insert_ne by done. apply (inv_info _ HInv).
  - intros j J r'. destruct (decide (j = i)) as [->|Hne].
    + rewrite lookup_insert_eq. intros [= <-]. by rewrite HrI.
    + rewrite lookup_insert_ne by done. intros HJ HJr.
      destruct (inv_resolver _ HInv _ _ _ HJ HJr) as (hr & Hhr & Hud).
      exists hr. split; [|done]. rewrite lookup_delete_ne; [done|].
      intros <-. congruence.
  - intros r' hr. destruct (decide (r' = r)) as [->|Hne].
    + by rewrite lookup_delete_eq.
    + rewrite lookup_delete_ne by done. intros Hhr.
      destruct (inv_resolved _ HInv _ _ Hhr) as (J & HJ & HJr).
      exists J. split; [|done]. rewrite lookup_insert_ne; [done|].
      intros Heq. rewrite <- Heq in HJ. congruence.
  - apply (inv_watch _ HInv).
  - apply (inv_fresh_browsers _ HInv).
  - intros p. destruct (decide (p = i)) as [->|Hne].
    + intros _. apply (inv_fresh_infos _ HInv). eauto.
    + rewrite lookup_insert_ne by done. apply (inv_fresh_infos _ HInv).
  - apply (inv_fresh_record_browsers _ HInv).
  - intros p. destruct (decide (p = r)) as [->|Hne].
    + rewrite lookup_delete_eq. by intros [? ?].
    + rewrite lookup_delete_ne by done. apply (inv_fresh_host_name_resolvers _ HInv).
Qed.

(** ** Destruction *)

(** Whatever [free_all_infos] returns, every node of the list is released,
    nothing is allocated and nothing is announced. *)
Lemma free_all_infos_inv fuel b s s' :
  free_all_infos fuel b s = Ok tt s' ->
  (forall B i, browsers s !! b = Some B -> i ∈ info B -> infos s' !! i = None) /\
  (forall i, infos s !! i = None -> infos s' !! i = None) /\
  trace s' = trace s.
Proof.
  revert s. induction fuel as [|fuel IH]; intros s H; simpl in H.
  - destruct (browsers s !! b) as [B|] eqn:HB; [|by mstep_in H].
    mstep_in H. destruct (info B) as [|i l] eqn:Hl; [|done].
    injection H as <-. split; [|done]. intros B' i HB' Hi.
    assert (B' = B) as -> by congruence. rewrite Hl in Hi. by apply elem_of_nil in Hi.
  - destruct (browsers s !! b) as [B|] eqn:HB; [|by mstep_in H].
    mstep_in H. destruct (info B) as [|i l] eqn:Hl.
    { injection H as <-. split; [|done]. intros B' i HB' Hi.
      assert (B' = B) as -> by congruence. rewrite Hl in Hi. by apply elem_of_nil in Hi. }
    apply bind_Ok_inv in H as ([] & s1 & Hfree & Hrest).
    apply server_info_free_inv in Hfree as (I & B1 & HI & HB1 & Hn & Hr & ->).
    assert (B1 = B) as -> by congruence.
    destruct (IH _ Hrest) as (Hgone & Hmono & Htr). simpl in *.
    split; [|split].
    + intros B' j HB' Hj. assert (B' = B) as -> by congruence.
      rewrite Hl in Hj. apply elem_of_cons in Hj as [->|Hj].
      * apply Hmono. by rewrite lookup_delete_eq.
      * eapply Hgone; [by rewrite lookup_insert_eq|].
        simpl. rewrite Hl, llist_remove_head. done.
    + intros j Hj. apply Hmono.
      destruct (decide (j = i)) as [->|Hne]; [by rewrite lookup_delete_eq|].
      by rewrite lookup_delete_ne.
    + done.
Qed.

Lemma avahi_dns_server_browser_free_inv b s s' :
  avahi_dns_server_browser_free b s = Ok tt s' ->
  (forall B i, browsers s !! b = Some B -> i ∈ info B -> infos s' !! i = None) /\
  browsers s' !! b = None /\
  trace s' = trace s.
Proof.
  intros H. unfold avahi_dns_server_browser_free in H.
  destruct (browsers s !! b) as [B|] eqn:HB; [|by mstep_in H].
  rewrite <- HB. mstep_in H.
  apply bind_Ok_inv in H as ([] & s1 & Hloop & H).
  destruct (free_all_infos_inv _ _ _ _ Hloop) as (Hgone & _ & Htr).
  destruct (browsers s1 !! b) as [B1|] eqn:HB1; [|by mstep_in H].
  do 2 mstep_in H.
  assert (Hlast : forall s2, infos s2 = infos s1 -> trace s2 = trace s1 ->
            avahi_free_browser b s2 = Ok tt s' ->
            (forall B i, browsers s !! b = Some B -> i ∈ info B -> infos s' !! i = None) /\
            browsers s' !! b = None /\ trace s' = trace s).
  { intros s2 Hi2 Ht2. unfold avahi_free_browser.
    destruct (browsers s2 !! b); [|done]. intros [= <-]. simpl.
    rewrite lookup_delete_eq, Hi2, Ht2. eauto. }
  destruct (record_browser B1) as [rr|].
  - apply bind_Ok_inv in H as ([] & s2 & Hrb & H).
    unfold avahi_record_browser_free in Hrb. simpl in Hrb.
    destruct (record_browsers s1 !! rr); [|done]. injection Hrb as <-.
    by eapply Hlast; [| |exact H].
  - mstep_in H. by eapply Hlast; [| |exact H].
Qed.

(** On a well-formed state the destruction of a browser runs to its end. *)
Lemma free_all_infos_total fuel b s B :
  Inv s -> browsers s !! b = Some B -> (length (info B) <= fuel)%nat ->
  exists s' B', free_all_infos fuel b s = Ok tt s' /\ Inv s' /\
    browsers s' !! b = Some B' /\ info B' = [] /\ record_browser B' = record_browser B.
Proof.
  revert s B. induction fuel as [|fuel IH]; intros s B HInv HB Hlen; simpl.
  - mstep. destruct (info B) as [|i l] eqn:Hl; [|simpl in Hlen; lia]. exists s, B. eauto.
  - mstep. destruct (info B) as [|i l] eqn:Hl; [exists s, B; eauto|].
    assert (Hi : i ∈ info B) by (rewrite Hl; set_solver).
    destruct (Inv_entries_live _ _ _ HInv HB i Hi) as [I HI].
    pose proof (inv_browser _ HInv _ _ HB) as HokB.
    assert (1 <= n_info B) by (rewrite (bo_count _ _ _ HokB), Hl; simpl; lia).
    assert (Hres : forall r, host_name_resolver I = Some r ->
              is_Some (host_name_resolvers s !! r)).
    { intros r Hr. destruct (inv_resolver _ HInv _ _ _ HI Hr) as (hr & -> & _). eauto. }
    erewrite bind_Ok by (by apply (server_info_free_ok b i s I B)).
    pose proof (Inv_after_server_info_free _ _ _ _ _ HInv HB Hi HI) as HInv1.
    edestruct (IH (after_server_info_free b i B I s)) as (s' & B' & Hrun & HInv' & HB' & Hnil & Hrb);
      [exact HInv1| simpl; by rewrite lookup_insert_eq | |].
    { simpl. rewrite Hl, llist_remove_head. simpl in Hlen. lia. }
    exists s', B'. simpl in Hrb. eauto.
Qed.

Lemma avahi_dns_server_browser_free_total b s B :
  Inv s -> browsers s !! b = Some B ->
  exists s', avahi_dns_server_browser_free b s = Ok tt s'.
Proof.
  intros HInv HB. unfold avahi_dns_server_browser_free. mstep.
  destruct (free_all_infos_total (length (info B)) b s B HInv HB (le_n _))
    as (s1 & B1 & Hrun & HInv1 & HB1 & Hnil & Hrb).
  erewrite bind_Ok by exact Hrun. repeat mstep.
  destruct (record_browser B1) as [rr|] eqn:Hrr.
  - destruct (bo_watch _ _ _ (inv_browser _ HInv1 _ _ HB1) rr Hrr) as [rb Hrb'].
    repeat mstep. erewrite avahi_free_browser_Some by mside. eauto.
  - repeat mstep. erewrite avahi_free_browser_Some by mside. eauto.
Qed.

(** A callback that destroys its browser leaves none of the browser's
    entries allocated. *)
Lemma invoke_callback_free b ev s B :
  Inv s -> browsers s !! b = Some B -> pe_browser ev = b ->
  callback B ev = CbFreeBrowser ->
  exists s', invoke_callback b ev s = Ok tt s' /\
    (forall i, i ∈ info B -> infos s' !! i = None) /\ browsers s' !! b = None.
Proof.
  intros HInv HB Hb Hcb. unfold invoke_callback. repeat mstep. rewrite Hcb, Hb.
  destruct (avahi_dns_server_browser_free_total b (upd_trace (cons ev) s) B)
    as [s' Hs']; [by apply Inv_upd_trace|done|].
  exists s'. split; [done|].
  destruct (avahi_dns_server_browser_free_inv _ _ _ Hs') as (Hgone & Hb' & _).
  split; [|done]. intros i Hi. by apply (Hgone B).
Qed.


Lemma Inv_update_info s i I I' :
  Inv s -> infos s !! i = Some I ->
  browser I' = browser I -> info_key I' = info_key I ->
  host_name_resolver I' = host_name_resolver I ->
  Inv (upd_infos (insert i I') s).
Proof.
  intros HInv HI HbI HkI HrI. split; simpl.
  - intros b B' HB'.
    apply (browser_ok_frame s); [by apply (inv_browser _ HInv)| |done].
    intros j J Hj HJ. simpl. destruct (decide (j = i)) as [->|Hne].
    + rewrite lookup_insert_eq. exists I'. assert (J = I) as -> by congruence. done.
    + rewrite lookup_insert_ne by done. eauto.
  - intros j J. destruct (decide (j = i)) as [->|Hne].
    + rewrite lookup_insert_eq. intros [= <-]. rewrite HbI. by apply (inv_info _ HInv).
    + rewrite lookup_insert_ne by done. apply (inv_info _ HInv).
  - intros j J r'. destruct (decide (j = i)) as [->|Hne].
    + rewrite lookup_insert_eq. intros [= <-]. rewrite HrI. by apply (inv_resolver _ HInv).
    + rewrite lookup_insert_ne by done. by apply (inv_resolver _ HInv).
  - intros r' hr Hhr.
    destruct (inv_resolved _ HInv _ _ Hhr) as (J & HJ & HJr).
    destruct (decide (hr_userdata hr = i)) as [Heq|Hne].
    + rewrite Heq in *. rewrite lookup_insert_eq. exists I'. split; [done|]. congruence.
    + rewrite lookup_insert_ne by done. eauto.
  - apply (inv_watch _ HInv).
  - apply (inv_fresh_browsers _ HInv).
  - intros p. destruct (decide (p = i)) as [->|Hne].
    + intros _. apply (inv_fresh_infos _ HInv). eauto.
    + rewrite lookup_insert_ne by done. apply (inv_fresh_infos _ HInv).
  - apply (inv_fresh_record_browsers _ HInv).
  - apply (inv_fresh_host_name_resolvers _ HInv).
Qed.

(** ** When the client destroys the browser from within its callback *)

Lemma host_name_resolver_callback_destroyed r iface proto host_name a i s I B :
  Inv s -> infos s !! i = Some I -> browsers s !! browser I = Some B ->
  callback B (public_event (browser I) B (interface I) (protocol I) AVAHI_BROWSER_NEW
                (set_address (Some a) I)) = CbFreeBrowser ->
  host_name_resolver_callback r iface proto AVAHI_RESOLVER_FOUND host_name (Some a) i s =
  Fault (UseAfterFree i).
Proof.
  intros HInv HI HB Hcb. unfold host_name_resolver_callback.
  repeat mstep.
  destruct (inv_info _ HInv _ _ HI) as (B' & HB' & Hi).
  assert (B' = B) as -> by congruence.
  edestruct (invoke_callback_free (browser I)
               (public_event (browser I) B (interface I) (protocol I) AVAHI_BROWSER_NEW
                  (set_address (Some a) I))
               (upd_infos (insert i (set_address (Some a) I)) s) B)
    as (s' & Hs' & Hgone & _); [by apply (Inv_update_info s i I)|done|done|done|].
  erewrite bind_Ok by exact Hs'.
  erewrite bind_Fault; [done|]. apply load_info_None. by apply Hgone.
Qed.

Lemma record_browser_callback_remove_destroyed env rr iface proto record b s B i I :
  Inv s -> browsers s !! b = Some B ->
  key_type (key record) = AVAHI_DNS_TYPE_SRV ->
  find_info (infos s) (info B) iface proto record = Some i ->
  infos s !! i = Some I -> host_name_resolver I = None ->
  callback B (public_event b B iface proto AVAHI_BROWSER_REMOVE I) = CbFreeBrowser ->
  record_browser_callback env rr iface proto AVAHI_BROWSER_REMOVE record b s =
  Fault (UseAfterFree i).
Proof.
  intros HInv HB Hsrv Hf HI Hr Hcb. unfold record_browser_callback.
  rewrite bool_decide_eq_true_2 by done. mstep.
  erewrite bind_Ok by (apply get_server_info_find; [done|by eapply Inv_entries_live]).
  rewrite Hf. mstep. rewrite Hr. mstep. mstep.
  destruct (find_info_Some _ _ _ _ _ _ Hf) as (Hi & _).
  edestruct (invoke_callback_free b (public_event b B iface proto AVAHI_BROWSER_REMOVE I) s B)
    as (s' & Hs' & Hgone & _); [done..|].
  erewrite bind_Ok by exact Hs'.
  unfold server_info_free. erewrite bind_Fault; [done|].
  apply load_info_None. by apply Hgone.
Qed.

Lemma record_browser_callback_not_srv env rr iface proto ev record b s :
  key_type (key record) <> AVAHI_DNS_TYPE_SRV ->
  record_browser_callback env rr iface proto ev record b s = Fault AssertionFailed.
Proof.
  intros Hsrv. unfold record_browser_callback.
  rewrite bool_decide_eq_false_2 by done. by mstep.
Qed.

Lemma host_name_resolver_callback_no_address r iface proto host_name i s :
  host_name_resolver_callback r iface proto AVAHI_RESOLVER_FOUND host_name None i s =
  Fault NullPointer.
Proof. unfold host_name_resolver_callback. mstep. by mstep. Qed.

Lemma deliver_step s e s' : Inv s -> deliver e s = Ok tt s' -> step s e s'.
Proof.
  intros HInv H. unfold deliver in H. mstep_in H. destruct e as [rr iface proto ev record env|r ev a].
  - destruct (record_browsers s !! rr) as [rb|] eqn:Hrr.
    2:{ injection H as <-. by constructor. }
    destruct (inv_watch _ HInv _ _ Hrr) as [B HB].
    pose proof (Inv_entries_live _ _ _ HInv HB) as Hlive.
    destruct (decide (key_type (key record) = AVAHI_DNS_TYPE_SRV)) as [Hsrv|Hsrv].
    2:{ by rewrite record_browser_callback_not_srv in H. }
    destruct ev.
    + rewrite (record_browser_callback_new _ _ _ _ _ _ _ B) in H by done.
      injection H as <-.
      destruct (accepted env s B iface proto record) eqn:Hadm; [|by constructor].
      by eapply step_new.
    + destruct (find_info (infos s) (info B) iface proto record) as [i|] eqn:Hf.
      2:{ rewrite (record_browser_callback_remove_absent _ _ _ _ _ _ _ B) in H by done.
          injection H as <-. by constructor. }
      destruct (find_info_Some _ _ _ _ _ _ Hf) as (Hi & I & HI & _).
      pose proof (inv_browser _ HInv _ _ HB) as HokB.
      assert (1 <= n_info B).
      { rewrite (bo_count _ _ _ HokB). destruct (info B); [by apply elem_of_nil in Hi|].
        simpl. lia. }
      assert (Hres : forall r, host_name_resolver I = Some r ->
                is_Some (host_name_resolvers s !! r)).
      { intros r Hr. destruct (inv_resolver _ HInv _ _ _ HI Hr) as (hr & -> & _). eauto. }
      destruct (host_name_resolver I) as [r|] eqn:Hr.
      * rewrite (record_browser_callback_remove _ _ _ _ _ _ _ B i I) in H;
          [|done..|by rewrite Hr|by rewrite Hr].
        injection H as <-. by eapply step_remove.
      * destruct (callback B (public_event (rb_userdata rb) B iface proto
                                AVAHI_BROWSER_REMOVE I)) eqn:Hcb.
        -- rewrite (record_browser_callback_remove _ _ _ _ _ _ _ B i I) in H;
             [|done..|by rewrite Hr|done].
           injection H as <-. by eapply step_remove.
        -- by rewrite (record_browser_callback_remove_destroyed _ _ _ _ _ _ _ B i I) in H.
  - destruct (host_name_resolvers s !! r) as [hr|] eqn:Hr.
    2:{ injection H as <-. constructor. by intros r' ev' a' [= <- _ _]. }
    destruct (inv_resolved _ HInv _ _ Hr) as (I & HI & HIr).
    destruct (inv_info _ HInv _ _ HI) as (B & HB & Hi).
    destruct ev.
    + destruct a as [a|]; [|by rewrite host_name_resolver_callback_no_address in H].
      destruct (callback B (public_event (browser I) B (interface I) (protocol I)
                              AVAHI_BROWSER_NEW (set_address (Some a) I))) eqn:Hcb.
      * rewrite (host_name_resolver_callback_ok _ _ _ _ _ _ _ _ I B hr) in H by eauto.
        injection H as <-. eapply step_resolution; eauto.
      * by rewrite (host_name_resolver_callback_destroyed _ _ _ _ _ _ _ I B) in H.
    + rewrite (host_name_resolver_callback_ok _ _ _ _ _ _ _ _ I B hr) in H by done.
      injection H as <-. by eapply step_resolution.
Qed.

Lemma step_Inv s e s' : Inv s -> step s e s' -> Inv s'.
Proof.
  intros HInv [e' _|rr rb B iface proto record env Hrr HB Hadm
              |rr rb B iface proto record env i I Hrr HB Hf HI
              |r hr I B ev a Hr HI HIr HB Ha].
  - done.
  - by apply Inv_after_new.
  - destruct (find_info_Some _ _ _ _ _ _ Hf) as (Hi & _).
    apply Inv_after_server_info_free; [by apply Inv_announce_remove| | |].
    + unfold announce_remove. by destruct (host_name_resolver I).
    + done.
    + unfold announce_remove. by destruct (host_name_resolver I).
  - by apply Inv_after_resolution.
Qed.

Lemma deliver_Inv s e s' : Inv s -> deliver e s = Ok tt s' -> Inv s'.
Proof. intros HInv H. eapply step_Inv; [done|]. by apply deliver_step. Qed.

Lemma run_Inv evs s s' : Inv s -> run evs s = Ok tt s' -> Inv s'.
Proof.
  revert s. induction evs as [|e evs IH]; intros s HInv H; simpl in H.
  - by injection H as <-.
  - apply bind_Ok_inv in H as ([] & s1 & He & Hrest).
    eapply IH; [|done]. by eapply deliver_Inv.
Qed.

Lemma deliver_total s e :
  Inv s -> passive s -> well_formed_event e -> exists s', deliver e s = Ok tt s'.
Proof.
  intros HInv Hp Hwf. unfold deliver. mstep.
  destruct e as [rr iface proto ev record env|r ev a]; simpl in Hwf.
  - destruct (record_browsers s !! rr) as [rb|] eqn:Hrr; [|by eexists].
    destruct (inv_watch _ HInv _ _ Hrr) as [B HB].
    pose proof (Inv_entries_live _ _ _ HInv HB) as Hlive.
    destruct ev.
    + rewrite (record_browser_callback_new _ _ _ _ _ _ _ B) by done. eauto.
    + destruct (find_info (infos s) (info B) iface proto record) as [i|] eqn:Hf.
      2:{ rewrite (record_browser_callback_remove_absent _ _ _ _ _ _ _ B) by done. eauto. }
      destruct (find_info_Some _ _ _ _ _ _ Hf) as (Hi & I & HI & _).
      pose proof (inv_browser _ HInv _ _ HB) as HokB.
      rewrite (record_browser_callback_remove _ _ _ _ _ _ _ B i I); [eauto|done..| | |].
      * rewrite (bo_count _ _ _ HokB). destruct (info B); [by apply elem_of_nil in Hi|].
        simpl. lia.
      * intros r Hr. destruct (inv_resolver _ HInv _ _ _ HI Hr) as (hr & -> & _). eauto.
      * intros _. by eapply Hp.
  - destruct (host_name_resolvers s !! r) as [hr|] eqn:Hr; [|by eexists].
    destruct (inv_resolved _ HInv _ _ Hr) as (I & HI & HIr).
    destruct (inv_info _ HInv _ _ HI) as (B & HB & Hi).
    rewrite (host_name_resolver_callback_ok _ _ _ _ _ _ _ _ I B hr); [eauto|done..|].
    intros Hev. split; [by apply Hwf|]. by eapply Hp.
Qed.

Lemma step_passive s e s' : passive s -> step s e s' -> passive s'.
Proof.
  intros Hp [e' _|rr rb B iface proto record env Hrr HB Hadm
            |rr rb B iface proto record env i I Hrr HB Hf HI
            |r hr I B ev a Hr HI HIr HB Ha]; [done|..]; intros b' B' ev'; simpl.
  - destruct (decide (b' = rb_userdata rb)) as [->|Hne].
    + rewrite lookup_insert_eq. intros [= <-]. simpl. by eapply Hp.
    + rewrite lookup_insert_ne by done. apply Hp.
  - assert (browsers (announce_remove (rb_userdata rb) B iface proto I s) = browsers s) as ->.
    { unfold announce_remove. by destruct (host_name_resolver I). }
    destruct (decide (b' = rb_userdata rb)) as [->|Hne].
    + rewrite lookup_insert_eq. intros [= <-]. simpl. by eapply Hp.
    + rewrite lookup_insert_ne by done. apply Hp.
  - apply Hp.
Qed.

Lemma run_total evs s :
  Inv s -> passive s -> Forall well_formed_event evs ->
  exists s', run evs s = Ok tt s' /\ Inv s' /\ passive s'.
Proof.
  revert s. induction evs as [|e evs IH]; intros s HInv Hp Hwf; simpl.
  - by exists s.
  - apply Forall_cons in Hwf as [He Hevs].
    destruct (deliver_total s e HInv Hp He) as [s1 Hs1].
    pose proof (deliver_step _ _ _ HInv Hs1) as Hstep.
    destruct (IH s1) as (s' & Hrun & HInv' & Hp'); [by eapply step_Inv|by eapply step_passive|done|].
    exists s'. split; [|done]. by erewrite bind_Ok by exact Hs1.
Qed.

(** ** Construction *)

Section ConstructionFacts.

Variable avahi_is_valid_domain_name : string -> bool.
Variable avahi_normalize_name : string -> string.
Variable avahi_key_new : string -> Z -> Z -> AvahiKey.

Lemma avahi_dns_server_browser_new_ok iface proto domain type aproto cb udata s :
  (forall d, domain = Some d -> avahi_is_valid_domain_name d = true) ->
  avahi_dns_server_browser_new avahi_is_valid_domain_name avahi_normalize_name
    avahi_key_new true None iface proto domain type aproto cb udata s =
  Ok (Some (brk s)) (after_browser_new avahi_normalize_name avahi_key_new iface proto domain type aproto cb udata s).
Proof.
  intros Hvalid. unfold avahi_dns_server_browser_new, after_browser_new, stored_domain.
  assert (match domain with
          | Some d => negb (avahi_is_valid_domain_name d)
          | None => false
          end = false) as ->.
  { destruct domain as [d|]; [|done]. by rewrite (Hvalid d). }
  unfold avahi_new, init_browser, avahi_record_browser_new.
  repeat mstep. simpl. repeat mstep.
  unfold ret. f_equal. apply server_eq; simpl; try done.
  by rewrite insert_insert_eq.
Qed.

Lemma avahi_dns_server_browser_new_invalid malloc_browser_ok watch_failure
    iface proto d type aproto cb udata s :
  avahi_is_valid_domain_name d = false ->
  avahi_dns_server_browser_new avahi_is_valid_domain_name avahi_normalize_name
    avahi_key_new malloc_browser_ok watch_failure iface proto (Some d) type aproto cb udata s =
  Ok None (upd_error AVAHI_ERR_INVALID_DOMAIN_NAME s).
Proof.
  intros Hd. unfold avahi_dns_server_browser_new. rewrite Hd. simpl.
  unfold avahi_server_set_errno. by mstep.
Qed.

Lemma Inv_after_browser_new iface proto domain type aproto cb udata s :
  Inv s -> Inv (after_browser_new avahi_normalize_name avahi_key_new iface proto domain type aproto cb udata s).
Proof.
  intros HInv.
  destruct (Inv_brk_fresh s HInv) as (Hfb & Hfi & _ & _ & Hfr & Hfr').
  split; simpl.
  - intros b B. destruct (decide (b = brk s)) as [->|Hne].
    + rewrite lookup_insert_eq. intros [= <-]. split; simpl; try done.
      * constructor.
      * by intros i ?%elem_of_nil.
      * by intros i j I J ?%elem_of_nil.
      * intros rr [= <-]. rewrite lookup_insert_eq. eauto.
    + rewrite lookup_insert_ne by done. intros HB.
      apply (browser_ok_frame s); [by apply (inv_browser _ HInv)|eauto|].
      intros rr Hrr. simpl. rewrite lookup_insert_ne; [done|].
      intros <-. destruct Hrr. congruence.
  - intros i I HI. destruct (inv_info _ HInv _ _ HI) as (B & HB & Hi).
    exists B. split; [|done]. rewrite lookup_insert_ne; [done|].
    intros Heq. rewrite <- Heq in HB. congruence.
  - apply (inv_resolver _ HInv).
  - apply (inv_resolved _ HInv).
  - intros rr rb. destruct (decide (rr = S (brk s))) as [->|Hne].
    + rewrite lookup_insert_eq. intros [= <-]. simpl. rewrite lookup_insert_eq. eauto.
    + rewrite lookup_insert_ne by done. intros Hrr.
      destruct (inv_watch _ HInv _ _ Hrr) as [B HB].
      exists B. rewrite lookup_insert_ne; [done|].
      intros Heq. rewrite <- Heq in HB. congruence.
  - intros p. destruct (decide (p = brk s)) as [->|Hne]; [lia|].
    rewrite lookup_insert_ne by done. intros Hp%(inv_fresh_browsers _ HInv). lia.
  - intros p Hp%(inv_fresh_infos _ HInv). lia.
  - intros p. destruct (decide (p = S (brk s))) as [->|Hne]; [lia|].
    rewrite lookup_insert_ne by done. intros Hp%(inv_fresh_record_browsers _ HInv). lia.
  - intros p Hp%(inv_fresh_host_name_resolvers _ HInv). lia.
Qed.

Lemma passive_after_browser_new iface proto domain type aproto cb udata s :
  passive s -> (forall ev, cb ev = CbReturn) ->
  passive (after_browser_new avahi_normalize_name avahi_key_new iface proto domain type aproto cb udata s).
Proof.
  intros Hp Hcb b B ev. simpl. destruct (decide (b = brk s)) as [->|Hne].
  - rewrite lookup_insert_eq. intros [= <-]. apply Hcb.
  - rewrite lookup_insert_ne by done. apply Hp.
Qed.

End ConstructionFacts.

Lemma passive_empty_server : passive empty_server.
Proof. intros b B ev. simpl. by rewrite lookup_empty. Qed.

Lemma Inv_created cb : Inv (Scenario.created cb).
Proof. apply Inv_after_browser_new, Inv_empty_server. Qed.

Lemma passive_created : passive (Scenario.created Scenario.returning).
Proof. by apply passive_after_browser_new; [apply passive_empty_server|]. Qed.

Lemma created_is_constructed cb :
  avahi_dns_server_browser_new Scenario.valid Scenario.normalize mkKey true None 1 0 None
    AVAHI_DNS_SERVER_RESOLVE 0 cb 77 empty_server = Ok (Some 0%nat) (Scenario.created cb).
Proof. by apply avahi_dns_server_browser_new_ok. Qed.

(** ** The pairing of public events *)

(** C1, as the code has it: the pairing invariant does not hold.  In scenario
    C a SRV record is announced, the resolution of its target fails, and the
    record is withdrawn; the only public event of the run is a REMOVE, for an
    entry that was never announced by a NEW, and the address it carries was
    never written. *)
Theorem failed_resolution_then_remove_emits_REMOVE :
  trace <$> state_of (run Scenario.scenario_C (Scenario.created Scenario.returning)) =
  Some [mkPublicEvent 0%nat 1 0 AVAHI_BROWSER_REMOVE "host1.local" None 5353 77].
Proof. vm_compute. reflexivity. Qed.

(** ** Destruction from within the callback *)

(** C3, as the code has it: when the client destroys the browser from within
    the NEW callback, the clean-up that follows the callback in
    [host_name_resolver_callback] reads the released entry (at address 2 in
    scenario A). *)
Theorem found_then_destroying_callback_uses_freed_entry :
  run Scenario.scenario_A (Scenario.created Scenario.destroying) = Fault (UseAfterFree 2%nat).
Proof. vm_compute. reflexivity. Qed.

(** ** The SRV REMOVE path *)

Lemma find_info_unique s b B iface proto record i I :
  Inv s -> browsers s !! b = Some B -> i ∈ info B -> infos s !! i = Some I ->
  matches iface proto record I = true ->
  find_info (infos s) (info B) iface proto record = Some i.
Proof.
  intros HInv HB Hi HI Hm.
  pose proof (Inv_entries_live _ _ _ HInv HB) as Hlive.
  destruct (find_info_is_Some _ _ _ _ _ i I Hlive Hi HI Hm) as [j Hj].
  destruct (find_info_Some _ _ _ _ _ _ Hj) as (Hjin & J & HJ & HmJ).
  rewrite Hj. f_equal.
  apply (bo_dedup _ _ _ (inv_browser _ HInv _ _ HB) j i J I); try done.
  apply matches_key in Hm, HmJ. congruence.
Qed.

Lemma announce_remove_browsers b B iface proto I s :
  browsers (announce_remove b B iface proto I s) = browsers s.
Proof. unfold announce_remove. by destruct (host_name_resolver I). Qed.

Lemma announce_remove_infos b B iface proto I s :
  infos (announce_remove b B iface proto I s) = infos s.
Proof. unfold announce_remove. by destruct (host_name_resolver I). Qed.

Lemma announce_remove_host_name_resolvers b B iface proto I s :
  host_name_resolvers (announce_remove b B iface proto I s) = host_name_resolvers s.
Proof. unfold announce_remove. by destruct (host_name_resolver I). Qed.



Lemma Inv_pending : Inv Scenario.pending.
Proof.
  apply (run_Inv [Scenario.srv_new Scenario.host1 Scenario.all_ok]
                 (Scenario.created Scenario.returning)); [apply Inv_created|].
  vm_compute. reflexivity.
Qed.


Lemma Inv_unresolved_destroying : Inv Scenario2.unresolved_destroying.
Proof.
  apply (run_Inv [Scenario.srv_new Scenario.host1 Scenario.all_ok;
                  ResolverEvent 3%nat AVAHI_RESOLVER_TIMEOUT None]
                 (Scenario.created Scenario.destroying)); [apply Inv_created|].
  vm_compute. reflexivity.
Qed.


(** ** Deduplication *)

(** C4: whatever events were delivered, no browser holds two entries with
    the same interface, protocol and record (time-to-live apart), and a SRV
    NEW event whose key matches an entry is ignored: the state is the one
    before the event, so no entry was allocated, no resolution started, no
    counter changed and nothing announced.  A run with returning callbacks
    and well-formed events is never cut short. *)
Theorem at_most_one_entry_per_key s evs :
  Inv s ->
  (forall s', run evs s = Ok tt s' ->
     (forall b B i j I J,
        browsers s' !! b = Some B -> i ∈ info B -> j ∈ info B ->
        infos s' !! i = Some I -> infos s' !! j = Some J ->
        interface I = interface J -> protocol I = protocol J ->
        avahi_record_equal_no_ttl (srv_record I) (srv_record J) = true ->
        i = j) /\
     (forall env rr iface proto record b B i I,
        browsers s' !! b = Some B -> key_type (key record) = AVAHI_DNS_TYPE_SRV ->
        i ∈ info B -> infos s' !! i = Some I ->
        interface I = iface -> protocol I = proto ->
        avahi_record_equal_no_ttl record (srv_record I) = true ->
        record_browser_callback env rr iface proto AVAHI_BROWSER_NEW record b s' = Ok tt s')) /\
  (passive s -> Forall well_formed_event evs -> exists s', run evs s = Ok tt s').
Proof.
  intros HInv. split.
  - intros s' Hrun. pose proof (run_Inv _ _ _ HInv Hrun) as HInv'. split.
    + intros b B i j I J HB Hi Hj HI HJ Hif Hpr Heq.
      apply (bo_dedup _ _ _ (inv_browser _ HInv' _ _ HB) i j I J); try done.
      by apply info_key_equal.
    + intros env rr iface proto record b B i I HB Hsrv Hi HI Hif Hpr Heq.
      assert (Hm : matches iface proto record I = true).
      { unfold matches. by rewrite !bool_decide_eq_true_2, Heq. }
      rewrite (record_browser_callback_new _ _ _ _ _ _ _ B);
        [|done|by eapply Inv_entries_live|done].
      unfold accepted.
      by rewrite (find_info_unique _ _ _ _ _ _ _ _ HInv' HB Hi HI Hm).
  - intros Hp Hwf. destruct (run_total evs s HInv Hp Hwf) as (s' & Hrun & _). eauto.
Qed.

Lemma at_most_one_entry_per_key_witness :
  (exists s',
     run [Scenario.srv_new Scenario.host1 Scenario.all_ok;
          Scenario.srv_new Scenario.host1_again Scenario.all_ok]
         (Scenario.created Scenario.returning) = Ok tt s' /\
     (exists B, browsers s' !! 0%nat = Some B /\ info B = [2%nat] /\ n_info B = 1) /\
     record_browser_callback Scenario.all_ok 1%nat 1 0 AVAHI_BROWSER_NEW Scenario.host1_again
       0%nat s' = Ok tt s').
Proof.
  destruct (at_most_one_entry_per_key (Scenario.created Scenario.returning)
              [Scenario.srv_new Scenario.host1 Scenario.all_ok;
               Scenario.srv_new Scenario.host1_again Scenario.all_ok]
              (Inv_created Scenario.returning)) as (H & _).
  destruct (H Scenario.pending) as (_ & Hdup).
  - vm_compute. reflexivity.
  - exists Scenario.pending. split; [vm_compute; reflexivity|]. split.
    + eexists. split; [vm_compute; reflexivity|]. split; reflexivity.
    + apply (Hdup Scenario.all_ok 1%nat 1 0 Scenario.host1_again 0%nat
               (mkBrowser "local" (Some 1%nat) Scenario.returning 77 0 1 [2%nat]) 2%nat
               (mkInfo 0%nat 1 0 Scenario.host1 (Some 3%nat) None));
        try reflexivity.
      apply list_elem_of_here.
Defined.

(** ** The bound *)

(** C5: the count of live entries of a browser is the length of its list and
    never exceeds 10; at capacity a SRV NEW event leaves the state as it was
    (no entry, no resolution, no public event, no error code); and after a
    later SRV REMOVE has freed a slot the ignored candidate is still not
    tracked, no resolver runs for it and the only public event is the REMOVE
    of the entry that left. *)
Theorem live_entries_bounded s evs :
  Inv s ->
  (forall s', run evs s = Ok tt s' ->
     (forall b B, browsers s' !! b = Some B ->
        n_info B = Z.of_nat (length (info B)) /\ n_info B <= 10) /\
     (forall env rr iface proto record b B,
        browsers s' !! b = Some B -> key_type (key record) = AVAHI_DNS_TYPE_SRV ->
        n_info B = 10 ->
        record_browser_callback env rr iface proto AVAHI_BROWSER_NEW record b s' = Ok tt s' /\
        (forall env' rr' iface' proto' record' s'',
           find_info (infos s') (info B) iface proto record = None ->
           record_browser_callback env' rr' iface' proto' AVAHI_BROWSER_REMOVE record' b s'
             = Ok tt s'' ->
           exists B'', browsers s'' !! b = Some B'' /\
             get_server_info b iface proto record s'' = Ok None s'' /\
             host_name_resolvers s'' ⊆ host_name_resolvers s' /\
             forall pe, pe ∈ trace s'' -> pe ∈ trace s' \/ pe_event pe = AVAHI_BROWSER_REMOVE))) /\
  (passive s -> Forall well_formed_event evs -> exists s', run evs s = Ok tt s').
Proof.
  intros HInv. split.
  2:{ intros Hp Hwf. destruct (run_total evs s HInv Hp Hwf) as (s' & Hrun & _). eauto. }
  intros s' Hrun. pose proof (run_Inv _ _ _ HInv Hrun) as HInv'. split.
  - intros b B HB. pose proof (inv_browser _ HInv' _ _ HB) as Hok.
    split; [apply (bo_count _ _ _ Hok)|apply (bo_bound _ _ _ Hok)].
  - intros env rr iface proto record b B HB Hsrv Hfull.
    pose proof (Inv_entries_live _ _ _ HInv' HB) as Hlive.
    pose proof (inv_browser _ HInv' _ _ HB) as HokB.
    split.
    { rewrite (record_browser_callback_new _ _ _ _ _ _ _ B) by done.
      unfold accepted. rewrite Hfull. simpl.
      by destruct (find_info (infos s') (info B) iface proto record). }
    intros env' rr' iface' proto' record' s'' Hnone Hrem.
    destruct (decide (key_type (key record') = AVAHI_DNS_TYPE_SRV)) as [Hsrv'|Hsrv'].
    2:{ by rewrite record_browser_callback_not_srv in Hrem. }
    destruct (find_info (infos s') (info B) iface' proto' record') as [i|] eqn:Hf.
    2:{ rewrite (record_browser_callback_remove_absent _ _ _ _ _ _ _ B) in Hrem by done.
        injection Hrem as <-. exists B. split; [done|]. split; [|split; [done|eauto]].
        rewrite (get_server_info_find _ _ B) by done. by rewrite Hnone. }
    destruct (find_info_Some _ _ _ _ _ _ Hf) as (Hi & I & HI & _).
    assert (Hres : forall r, host_name_resolver I = Some r ->
              is_Some (host_name_resolvers s' !! r)).
    { intros r Hr. destruct (inv_resolver _ HInv' _ _ _ HI Hr) as (hr & -> & _). eauto. }
    assert (Hcases : s'' = after_server_info_free b i B I
                             (announce_remove b B iface' proto' I s')).
    { destruct (host_name_resolver I) as [r|] eqn:Hr.
      - rewrite (record_browser_callback_remove _ _ _ _ _ _ _ B i I) in Hrem;
          [|done..|lia|by rewrite Hr|by rewrite Hr].
        by injection Hrem as <-.
      - destruct (callback B (public_event b B iface' proto' AVAHI_BROWSER_REMOVE I)) eqn:Hcb.
        + rewrite (record_browser_callback_remove _ _ _ _ _ _ _ B i I) in Hrem;
            [|done..|lia|by rewrite Hr|done].
          by injection Hrem as <-.
        + by rewrite (record_browser_callback_remove_destroyed _ _ _ _ _ _ _ B i I) in Hrem. }
    subst s''. eexists. simpl. rewrite announce_remove_browsers, lookup_insert_eq.
    split; [done|]. split; [|split].
    + erewrite get_server_info_find.
      2:{ simpl. rewrite announce_remove_browsers. apply lookup_insert_eq. }
      2:{ intros j Hj. simpl in *. rewrite announce_remove_infos.
          assert (j <> i).
          { intros ->. by apply (llist_remove_gone i (info B) (bo_nodup _ _ _ HokB)). }
          rewrite lookup_delete_ne by done. by apply Hlive, (llist_remove_subseteq i). }
      f_equal. simpl. rewrite announce_remove_infos.
      destruct (find_info (delete i (infos s')) (llist_remove i (info B)) iface proto record)
        as [j|] eqn:Hj; [|done].
      destruct (find_info_Some _ _ _ _ _ _ Hj) as (Hjin & J & HJ & Hm).
      assert (j <> i) by (intros ->; by rewrite lookup_delete_eq in HJ).
      rewrite lookup_delete_ne in HJ by done.
      apply llist_remove_subseteq in Hjin.
      by rewrite (find_info_None _ _ _ _ _ Hlive Hnone j J Hjin HJ) in Hm.
    + rewrite announce_remove_host_name_resolvers.
      destruct (host_name_resolver I); [apply delete_subseteq|done].
    + intros pe. unfold announce_remove.
      destruct (host_name_resolver I); simpl; [by left|].
      rewrite elem_of_cons. intros [->|Hpe]; [by right|by left].
Qed.
Lemma live_entries_bounded_witness :
  (exists B, browsers Scenario.full !! 0%nat = Some B /\ n_info B = 10) /\
  record_browser_callback Scenario.all_ok 1%nat 1 0 AVAHI_BROWSER_NEW (Scenario.host 10) 0%nat
    Scenario.full = Ok tt Scenario.full /\
  record_browser_callback Scenario.all_ok 1%nat 1 0 AVAHI_BROWSER_REMOVE (Scenario.host 0) 0%nat
    Scenario.full = Ok tt Scenario.one_left /\
  (exists B, browsers Scenario.one_left !! 0%nat = Some B /\ n_info B = 9) /\
  get_server_info 0%nat 1 0 (Scenario.host 10) Scenario.one_left = Ok None Scenario.one_left.
Proof.
  destruct (live_entries_bounded (Scenario.created Scenario.returning) Scenario.ten_new
              (Inv_created Scenario.returning)) as (H & _).
  destruct (H Scenario.full) as (Hbound & Hcap); [vm_compute; reflexivity|].
  edestruct (Hcap Scenario.all_ok 1%nat 1 0 (Scenario.host 10) 0%nat) as (Hnew & Hlater);
    [vm_compute; reflexivity|reflexivity|reflexivity|].
  edestruct (Hlater Scenario.all_ok 1%nat 1 0 (Scenario.host 0) Scenario.one_left)
    as (B'' & HB'' & Hget & _); [vm_compute; reflexivity|vm_compute; reflexivity|].
  split; [eexists; split; [vm_compute; reflexivity|reflexivity]|].
  split; [exact Hnew|].
  split; [vm_compute; reflexivity|].
  split; [eexists; split; [vm_compute; reflexivity|reflexivity]|].
  exact Hget.
Defined.

(** ** Public NEW events *)

(** C6: a SRV NEW event announces nothing, a SRV REMOVE event announces at
    most a REMOVE, a failed resolution announces nothing, and a FOUND event
    of a running resolver announces exactly one NEW carrying the entry's
    interface and protocol, the target name and the port of its SRV record,
    and the address just resolved.  With returning callbacks every
    well-formed event is handled. *)
Theorem public_NEW_only_on_FOUND s e :
  Inv s ->
  (forall s', deliver e s = Ok tt s' ->
     match e with
     | RecordEvent rr iface proto AVAHI_BROWSER_NEW record env => trace s' = trace s
     | RecordEvent rr iface proto AVAHI_BROWSER_REMOVE record env =>
         trace s' = trace s \/
         exists pe, trace s' = pe :: trace s /\ pe_event pe = AVAHI_BROWSER_REMOVE
     | ResolverEvent r AVAHI_RESOLVER_TIMEOUT a => trace s' = trace s
     | ResolverEvent r AVAHI_RESOLVER_FOUND a =>
         match host_name_resolvers s !! r with
         | None => trace s' = trace s
         | Some hr =>
             exists I B addr,
               infos s !! hr_userdata hr = Some I /\ browsers s !! browser I = Some B /\
               a = Some addr /\
               trace s' =
                 mkPublicEvent (browser I) (interface I) (protocol I) AVAHI_BROWSER_NEW
                   (name (srv (srv_record I))) (Some addr) (port (srv (srv_record I)))
                   (userdata B) :: trace s
         end
     end) /\
  (passive s -> well_formed_event e -> exists s', deliver e s = Ok tt s').
Proof.
  intros HInv. split; [|by apply deliver_total].
  intros s' Hdel. pose proof (deliver_step _ _ _ HInv Hdel) as Hstep.
  destruct Hstep as [e' Hdead|rr rb B iface proto record env Hrr HB Hadm
                    |rr rb B iface proto record env i I Hrr HB Hf HI
                    |r hr I B ev a Hr HI HIr HB Ha].
  - destruct e' as [rr iface proto [] record env|r [] a]; try done; [by left|].
    by rewrite (Hdead r AVAHI_RESOLVER_FOUND a eq_refl).
  - done.
  - simpl. unfold announce_remove. destruct (host_name_resolver I); [by left|].
    right. by eexists.
  - destruct ev; [|done]. rewrite Hr.
    destruct (Ha eq_refl) as [addr ->]. exists I, B, addr. done.
Qed.

Lemma public_NEW_only_on_FOUND_witness :
  deliver (Scenario.srv_new Scenario.host1 Scenario.all_ok)
    (Scenario.created Scenario.returning) = Ok tt Scenario.pending /\
  trace Scenario.pending = [] /\
  deliver (ResolverEvent 3%nat AVAHI_RESOLVER_FOUND (Some Scenario.addr1)) Scenario.pending
    = Ok tt Scenario.resolved /\
  trace Scenario.resolved =
    [mkPublicEvent 0%nat 1 0 AVAHI_BROWSER_NEW "host1.local" (Some Scenario.addr1) 5353 77].
Proof.
  destruct (public_NEW_only_on_FOUND (Scenario.created Scenario.returning)
              (Scenario.srv_new Scenario.host1 Scenario.all_ok)
              (Inv_created Scenario.returning)) as (Hnew & _).
  destruct (public_NEW_only_on_FOUND Scenario.pending
              (ResolverEvent 3%nat AVAHI_RESOLVER_FOUND (Some Scenario.addr1))
              Inv_pending) as (Hfound & _).
  assert (H1 : deliver (Scenario.srv_new Scenario.host1 Scenario.all_ok)
                 (Scenario.created Scenario.returning) = Ok tt Scenario.pending)
    by (vm_compute; reflexivity).
  assert (H2 : deliver (ResolverEvent 3%nat AVAHI_RESOLVER_FOUND (Some Scenario.addr1))
                 Scenario.pending = Ok tt Scenario.resolved)
    by (vm_compute; reflexivity).
  split; [exact H1|]. split; [exact (Hnew _ H1)|]. split; [exact H2|].
  destruct (Hfound _ H2) as (I & B & addr & HI & HB & Ha & Htr).
  vm_compute in HI. injection HI as <-.
  vm_compute in HB. injection HB as <-.
  injection Ha as <-. exact Htr.
Defined.

(** ** One-shot resolution *)

Lemma step_resolution_over r i s e s' :
  resolution_over r i s -> step s e s' -> resolution_over r i s'.
Proof.
  intros (Hr & Hi & Hgone & Hnull)
    [e' _|rr rb B iface proto record env Hrr HB Hadm
    |rr rb B iface proto record env j J Hrr HB Hf HJ
    |r' hr I B ev a Hr' HI HIr HB Ha].
  - done.
  - unfold resolution_over. simpl. destruct (resolver_ok env).
    + rewrite !lookup_insert_ne by lia. repeat split; [lia|lia|done|exact Hnull].
    + rewrite !lookup_insert_ne by lia. repeat split; [lia|lia|done|exact Hnull].
  - unfold resolution_over. simpl.
    rewrite announce_remove_host_name_resolvers, announce_remove_infos.
    repeat split; [by unfold announce_remove; destruct (host_name_resolver J)
                  |by unfold announce_remove; destruct (host_name_resolver J)| |].
    + destruct (host_name_resolver J) as [r0|]; [|done].
      destruct (decide (r0 = r)) as [->|Hne]; [by rewrite lookup_delete_eq|].
      by rewrite lookup_delete_ne.
    + intros I0. destruct (decide (j = i)) as [->|Hne]; [by rewrite lookup_delete_eq|].
      rewrite lookup_delete_ne by done. apply Hnull.
  - unfold resolution_over. simpl. repeat split; [done|done| |].
    + destruct (decide (r' = r)) as [->|Hne]; [by rewrite lookup_delete_eq|].
      by rewrite lookup_delete_ne.
    + intros I0. destruct (decide (hr_userdata hr = i)) as [Heq|Hne].
      * rewrite Heq, lookup_insert_eq. by intros [= <-].
      * rewrite lookup_insert_ne by done. apply Hnull.
Qed.

Lemma run_resolution_over r i evs s s' :
  Inv s -> resolution_over r i s -> run evs s = Ok tt s' -> resolution_over r i s'.
Proof.
  revert s. induction evs as [|e evs IH]; intros s HInv Hover H; simpl in H.
  - by injection H as <-.
  - apply bind_Ok_inv in H as ([] & s1 & He & Hrest).
    pose proof (deliver_step _ _ _ HInv He) as Hstep.
    eapply IH; [by eapply step_Inv|by eapply step_resolution_over|done].
Qed.

(** C7, as the code has it: when the resolver of an entry delivers FOUND and
    the client destroys the browser from within the NEW callback, the handler
    does not get to release the handle and to clear the entry's reference:
    the destruction has released the entry, and the release of the handle
    that follows the callback in [host_name_resolver_callback] reads it. *)
Theorem found_with_destroying_callback_clears_no_reference s r hr I B a :
  Inv s -> host_name_resolvers s !! r = Some hr ->
  infos s !! hr_userdata hr = Some I -> browsers s !! browser I = Some B ->
  callback B (mkPublicEvent (browser I) (interface I) (protocol I) AVAHI_BROWSER_NEW
                (name (srv (srv_record I))) (Some a) (port (srv (srv_record I))) (userdata B))
  = CbFreeBrowser ->
  deliver (ResolverEvent r AVAHI_RESOLVER_FOUND (Some a)) s
    = Fault (UseAfterFree (hr_userdata hr)) /\
  ~ exists s1,
      deliver (ResolverEvent r AVAHI_RESOLVER_FOUND (Some a)) s = Ok tt s1 /\
      host_name_resolvers s1 !! r = None /\
      exists I1, infos s1 !! hr_userdata hr = Some I1 /\ host_name_resolver I1 = None.
Proof.
  intros HInv Hr HI HB Hcb.
  assert (Hdel : deliver (ResolverEvent r AVAHI_RESOLVER_FOUND (Some a)) s
                 = Fault (UseAfterFree (hr_userdata hr))).
  { unfold deliver. mstep. rewrite Hr.
    by apply (host_name_resolver_callback_destroyed _ _ _ _ _ _ _ I B). }
  split; [done|]. intros (s1 & Hok & _). rewrite Hdel in Hok. discriminate.
Qed.

Lemma Inv_pending_destroying : Inv Scenario2.pending_destroying.
Proof.
  apply (run_Inv [Scenario.srv_new Scenario.host1 Scenario.all_ok]
                 (Scenario.created Scenario.destroying)); [apply Inv_created|].
  vm_compute. reflexivity.
Qed.

Lemma found_with_destroying_callback_clears_no_reference_witness :
  (exists I, infos Scenario2.pending_destroying !! 2%nat = Some I /\
     host_name_resolver I = Some 3%nat) /\
  deliver (ResolverEvent 3%nat AVAHI_RESOLVER_FOUND (Some Scenario.addr1))
    Scenario2.pending_destroying = Fault (UseAfterFree 2%nat).
Proof.
  split; [eexists; split; reflexivity|].
  exact (proj1 (found_with_destroying_callback_clears_no_reference
                  Scenario2.pending_destroying 3%nat
                  (mkHostNameResolver 1 0 "host1.local" 0 2%nat)
                  (mkInfo 0%nat 1 0 Scenario.host1 (Some 3%nat) None)
                  (mkBrowser "local" (Some 1%nat) Scenario.destroying 77 0 1 [2%nat])
                  Scenario.addr1
                  Inv_pending_destroying eq_refl eq_refl eq_refl eq_refl)).
Defined.

(** ** Allocation failures *)

(** C8: on a SRV NEW event, when the allocation of the entry fails the state
    is left as it was; when only the resolver cannot be started the entry is
    inserted with an empty resolver reference and the count grows by one,
    nothing being announced and no error code set; in either case the state
    stays well formed, and with returning callbacks every later run of
    well-formed events is handled. *)
Theorem allocation_failures_are_not_fatal s b B env rr iface proto record :
  Inv s -> browsers s !! b = Some B -> key_type (key record) = AVAHI_DNS_TYPE_SRV ->
  (malloc_ok env = false ->
   record_browser_callback env rr iface proto AVAHI_BROWSER_NEW record b s = Ok tt s) /\
  (malloc_ok env = true -> resolver_ok env = false ->
   get_server_info b iface proto record s = Ok None s -> n_info B < 10 ->
   exists s' B',
     record_browser_callback env rr iface proto AVAHI_BROWSER_NEW record b s = Ok tt s' /\
     infos s' = <[brk s := mkInfo b iface proto record None None]> (infos s) /\
     browsers s' = <[b := B']> (browsers s) /\
     info B' = brk s :: info B /\ n_info B' = n_info B + 1 /\
     host_name_resolvers s' = host_name_resolvers s /\
     trace s' = trace s /\ error s' = error s) /\
  (forall s',
     record_browser_callback env rr iface proto AVAHI_BROWSER_NEW record b s = Ok tt s' ->
     Inv s' /\
     (passive s -> forall evs, Forall well_formed_event evs ->
                               exists s'', run evs s' = Ok tt s'')).
Proof.
  intros HInv HB Hsrv.
  pose proof (Inv_entries_live _ _ _ HInv HB) as Hlive.
  pose proof (inv_browser _ HInv _ _ HB) as HokB.
  pose proof (record_browser_callback_new env rr iface proto record b s B HB Hlive Hsrv) as Hnew.
  split; [|split].
  - intros Hmal. rewrite Hnew. unfold accepted. rewrite Hmal.
    destruct (find_info _ _ _ _ _); [done|]. by destruct (10 <=? n_info B).
  - intros Hmal Hres Hget Hn.
    rewrite (get_server_info_find _ _ B) in Hget by done. injection Hget as Hf.
    eexists _, _. split.
    { rewrite Hnew. unfold accepted. rewrite Hf, Hmal.
      destruct (10 <=? n_info B) eqn:Hle; [lia|done]. }
    simpl. rewrite Hres. repeat split.
    rewrite Z.mod_small; [done|].
    pose proof (bo_count _ _ _ HokB). lia.
  - intros s' Hrun. rewrite Hnew in Hrun. injection Hrun as <-.
    split.
    + destruct (accepted env s B iface proto record) eqn:Hadm; [|done].
      by apply Inv_after_new.
    + intros Hp evs Hwf.
      destruct (run_total evs (if accepted env s B iface proto record
                               then after_new env b B iface proto record s else s))
        as (s'' & Hs'' & _); [| |done|by eauto].
      * destruct (accepted env s B iface proto record) eqn:Hadm; [|done].
        by apply Inv_after_new.
      * destruct (accepted env s B iface proto record) eqn:Hadm; [|done].
        intros b' B' ev'. simpl. destruct (decide (b' = b)) as [->|Hne].
        -- rewrite lookup_insert_eq. intros [= <-]. simpl. by eapply Hp.
        -- rewrite lookup_insert_ne by done. apply Hp.
Qed.

Lemma allocation_failures_are_not_fatal_witness :
  record_browser_callback Scenario.no_memory 1%nat 1 0 AVAHI_BROWSER_NEW Scenario.host1 0%nat
    (Scenario.created Scenario.returning) = Ok tt (Scenario.created Scenario.returning) /\
  (exists s' B',
     record_browser_callback Scenario.no_resolver 1%nat 1 0 AVAHI_BROWSER_NEW Scenario.host1 0%nat
       (Scenario.created Scenario.returning) = Ok tt s' /\
     infos s' = <[2%nat := mkInfo 0%nat 1 0 Scenario.host1 None None]>
                  (infos (Scenario.created Scenario.returning)) /\
     info B' = [2%nat] /\ n_info B' = 1 /\
     host_name_resolvers s' = ∅ /\ trace s' = [] /\ error s' = AVAHI_OK /\
     exists s'', run [Scenario.srv_remove Scenario.host1] s' = Ok tt s'').
Proof.
  destruct (allocation_failures_are_not_fatal (Scenario.created Scenario.returning) 0%nat
              (mkBrowser "local" (Some 1%nat) Scenario.returning 77 0 0 [])
              Scenario.no_memory 1%nat 1 0 Scenario.host1
              (Inv_created Scenario.returning) eq_refl eq_refl) as (Hoom & _ & _).
  destruct (allocation_failures_are_not_fatal (Scenario.created Scenario.returning) 0%nat
              (mkBrowser "local" (Some 1%nat) Scenario.returning 77 0 0 [])
              Scenario.no_resolver 1%nat 1 0 Scenario.host1
              (Inv_created Scenario.returning) eq_refl eq_refl) as (_ & Hres & Hgo).
  split; [exact (Hoom eq_refl)|].
  destruct (Hres eq_refl eq_refl eq_refl) as (s' & B' & Hrun & Hi & Hb & Hl & Hn & Hr & Ht & He);
    [reflexivity|].
  destruct (Hgo s' Hrun) as (_ & Hlater).
  destruct (Hlater passive_created [Scenario.srv_remove Scenario.host1])
    as (s'' & Hs'').
  { repeat constructor. }
  exists s', B'. repeat split; try assumption. exists s''. exact Hs''.
Defined.

(** ** Construction *)

(** C9: a construction call that passes validation and whose allocations
    succeed starts the record watch on the key built from the service label
    of the kind ("_domain._udp" for Resolve, "_dns-update._udp" for Update),
    a dot and the stored domain, with class IN and type SRV; the stored
    domain is the normalised name, the normalised "local" when the caller
    gave none. *)
Theorem query_key_of_construction
    (avahi_is_valid_domain_name : string -> bool) (avahi_normalize_name : string -> string)
    (avahi_key_new : string -> Z -> Z -> AvahiKey)
    iface proto (domain : option string) type aproto cb udata s :
  (forall d, domain = Some d -> avahi_is_valid_domain_name d = true) ->
  exists b rr B s',
    avahi_dns_server_browser_new avahi_is_valid_domain_name avahi_normalize_name
      avahi_key_new true None iface proto domain type aproto cb udata s = Ok (Some b) s' /\
    browsers s' !! b = Some B /\ record_browser B = Some rr /\
    domain_name B = avahi_normalize_name (match domain with Some d => d | None => "local" end) /\
    record_browsers s' !! rr =
      Some (mkRecordBrowser iface proto
              (avahi_key_new
                 (match type with
                  | AVAHI_DNS_SERVER_RESOLVE => "_domain._udp"
                  | AVAHI_DNS_SERVER_UPDATE => "_dns-update._udp"
                  end +:+ "." +:+ domain_name B)
                 AVAHI_DNS_CLASS_IN AVAHI_DNS_TYPE_SRV)
              b).
Proof.
  intros Hvalid. eexists _, _, _, _.
  split; [by apply avahi_dns_server_browser_new_ok|].
  simpl. rewrite !lookup_insert_eq. repeat split.
Qed.

Lemma query_key_of_construction_witness :
  exists b rr B s',
    avahi_dns_server_browser_new Scenario.valid Scenario.normalize mkKey true None 1 0 None
      AVAHI_DNS_SERVER_UPDATE 0 Scenario.returning 77 empty_server = Ok (Some b) s' /\
    browsers s' !! b = Some B /\ record_browser B = Some rr /\
    domain_name B = "local" /\
    record_browsers s' !! rr =
      Some (mkRecordBrowser 1 0
              (mkKey "_dns-update._udp.local" AVAHI_DNS_CLASS_IN AVAHI_DNS_TYPE_SRV) b).
Proof.
  destruct (query_key_of_construction Scenario.valid Scenario.normalize mkKey 1 0 None
              AVAHI_DNS_SERVER_UPDATE 0 Scenario.returning 77 empty_server)
    as (b & rr & B & s' & Hnew & HB & Hrr & Hd & Hk).
  { intros d Hd. discriminate Hd. }
  exists b, rr, B, s'. repeat split; try assumption.
  rewrite Hk, Hd. reflexivity.
Defined.

(** C10: a construction call whose domain is given and is not a valid domain
    name sets the error code to [AVAHI_ERR_INVALID_DOMAIN_NAME] and returns
    NULL; whether or not the allocations would have succeeded, nothing was
    allocated, registered or started. *)
Theorem invalid_domain_allocates_nothing
    (avahi_is_valid_domain_name : string -> bool) (avahi_normalize_name : string -> string)
    (avahi_key_new : string -> Z -> Z -> AvahiKey)
    malloc_browser_ok watch_failure iface proto (d : string) type aproto cb udata s :
  avahi_is_valid_domain_name d = false ->
  exists s',
    avahi_dns_server_browser_new avahi_is_valid_domain_name avahi_normalize_name
      avahi_key_new malloc_browser_ok watch_failure iface proto (Some d) type aproto cb udata s
      = Ok None s' /\
    error s' = AVAHI_ERR_INVALID_DOMAIN_NAME /\
    dns_server_browsers s' = dns_server_browsers s /\
    browsers s' = browsers s /\ infos s' = infos s /\
    record_browsers s' = record_browsers s /\
    host_name_resolvers s' = host_name_resolvers s /\
    brk s' = brk s /\ trace s' = trace s.
Proof.
  intros Hd. eexists. split; [by apply avahi_dns_server_browser_new_invalid|].
  repeat split.
Qed.

Lemma invalid_domain_allocates_nothing_witness :
  exists s',
    avahi_dns_server_browser_new Scenario.valid Scenario.normalize mkKey true None 1 0
      (Some "..") AVAHI_DNS_SERVER_RESOLVE 0 Scenario.returning 77 empty_server = Ok None s' /\
    error s' = AVAHI_ERR_INVALID_DOMAIN_NAME /\
    browsers s' = ∅ /\ dns_server_browsers s' = [] /\ record_browsers s' = ∅ /\
    brk s' = 0%nat.
Proof.
  destruct (invalid_domain_allocates_nothing Scenario.valid Scenario.normalize mkKey true None
              1 0 ".." AVAHI_DNS_SERVER_RESOLVE 0 Scenario.returning 77 empty_server eq_refl)
    as (s' & Hnew & He & Hl & Hb & _ & Hr & _ & Hk & _).
  exists s'. repeat split; assumption.
Defined.


(** * Beyond the stated claims *)

(** ** Destruction, field by field *)

Lemma browser_eta B :
  mkBrowser (domain_name B) (record_browser B) (callback B) (userdata B) (aprotocol B)
            (n_info B) (info B) = B.
Proof. by destruct B. Qed.

Lemma free_all_infos_spec fuel b s B :
  Inv s -> browsers s !! b = Some B -> (length (info B) <= fuel)%nat ->
  exists s', free_all_infos fuel b s = Ok tt s' /\ Inv s' /\
    browsers s' = <[b := set_n_info 0 (set_info [] B)]> (browsers s) /\
    (forall i, infos s' !! i = if decide (i ∈ info B) then None else infos s !! i) /\
    (forall r, host_name_resolvers s' !! r =
               match host_name_resolvers s !! r with
               | Some hr => if decide (hr_userdata hr ∈ info B) then None else Some hr
               | None => None
               end) /\
    error s' = error s /\ dns_server_browsers s' = dns_server_browsers s /\
    record_browsers s' = record_browsers s /\ brk s' = brk s /\ trace s' = trace s.
Proof.
  revert s B. induction fuel as [|fuel IH]; intros s B HInv HB Hlen.
  - assert (Hnil : info B = []) by (destruct (info B); [done|simpl in Hlen; lia]).
    exists s. simpl. mstep. rewrite Hnil. split; [done|]. split; [done|].
    pose proof (bo_count _ _ _ (inv_browser _ HInv _ _ HB)) as Hc. rewrite Hnil in Hc.
    split.
    { rewrite insert_id; [done|]. rewrite HB. f_equal.
      rewrite <- (browser_eta B) at 1. unfold set_n_info, set_info. simpl.
      by rewrite Hc, Hnil. }
    split; [intros i; by rewrite decide_False by apply not_elem_of_nil|].
    split; [|done].
    intros r. destruct (host_name_resolvers s !! r); [|done].
    by rewrite decide_False by apply not_elem_of_nil.
  - simpl. mstep. destruct (info B) as [|i l] eqn:Hl.
    { exists s. split; [done|]. split; [done|].
      pose proof (bo_count _ _ _ (inv_browser _ HInv _ _ HB)) as Hc. rewrite Hl in Hc.
      split.
      { rewrite insert_id; [done|]. rewrite HB. f_equal.
        rewrite <- (browser_eta B) at 1. unfold set_n_info, set_info. simpl.
        by rewrite Hc, Hl. }
      split; [intros i; by rewrite decide_False by apply not_elem_of_nil|].
      split; [|done].
      intros r. destruct (host_name_resolvers s !! r); [|done].
      by rewrite decide_False by apply not_elem_of_nil. }
    assert (Hi : i ∈ info B) by (rewrite Hl; apply list_elem_of_here).
    destruct (Inv_entries_live _ _ _ HInv HB i Hi) as [I HI].
    pose proof (inv_browser _ HInv _ _ HB) as HokB.
    assert (1 <= n_info B) by (rewrite (bo_count _ _ _ HokB), Hl; simpl; lia).
    assert (Hres : forall r, host_name_resolver I = Some r ->
              is_Some (host_name_resolvers s !! r)).
    { intros r Hr. destruct (inv_resolver _ HInv _ _ _ HI Hr) as (hr & -> & _). eauto. }
    erewrite bind_Ok by (by apply (server_info_free_ok b i s I B)).
    pose proof (Inv_after_server_info_free _ _ _ _ _ HInv HB Hi HI) as HInv1.
    edestruct (IH (after_server_info_free b i B I s))
      as (s' & Hrun & HInv' & Hb' & Hi' & Hr' & He' & Hg' & Hrb' & Hk' & Ht');
      [exact HInv1| simpl; by rewrite lookup_insert_eq | |].
    { simpl. rewrite Hl, llist_remove_head. simpl in Hlen. lia. }
    exists s'. split; [done|]. split; [done|]. simpl in *.
    rewrite Hl, llist_remove_head in Hi', Hr'.
    split; [by rewrite Hb', insert_insert_eq|].
    split; [|split; [|done]].
    + intros j. rewrite Hi'. destruct (decide (j = i)) as [->|Hne].
      * rewrite lookup_delete_eq. rewrite (decide_True (P := i ∈ i :: l)) by apply list_elem_of_here.
        by destruct (decide (i ∈ l)).
      * rewrite lookup_delete_ne by done.
        destruct (decide (j ∈ l)) as [Hj|Hj].
        -- rewrite decide_True; [done|]. by apply list_elem_of_further.
        -- rewrite decide_False; [done|]. rewrite elem_of_cons. naive_solver.
    + intros r. rewrite Hr'.
      destruct (host_name_resolvers s !! r) as [hr|] eqn:Hhr.
      * destruct (decide (hr_userdata hr = i)) as [Hud|Hud].
        -- destruct (inv_resolved _ HInv _ _ Hhr) as (I' & HI' & HIr').
           rewrite Hud in HI'. assert (I' = I) as -> by congruence.
           rewrite HIr', lookup_delete_eq.
           rewrite decide_True; [done|]. rewrite Hud. apply list_elem_of_here.
        -- assert (Hkeep : match host_name_resolver I with
                           | Some r0 => delete r0 (host_name_resolvers s)
                           | None => host_name_resolvers s
                           end !! r = Some hr).
           { destruct (host_name_resolver I) as [r0|] eqn:Hr0; [|done].
             rewrite lookup_delete_ne; [done|]. intros <-.
             destruct (inv_resolver _ HInv _ _ _ HI Hr0) as (hr0 & Hhr0 & Hud0). congruence. }
           rewrite Hkeep.
           destruct (decide (hr_userdata hr ∈ l)) as [Hj|Hj].
           ++ rewrite decide_True; [done|]. by apply list_elem_of_further.
           ++ rewrite decide_False; [done|]. rewrite elem_of_cons. naive_solver.
      * assert (Hnone : match host_name_resolver I with
                        | Some r0 => delete r0 (host_name_resolvers s)
                        | None => host_name_resolvers s
                        end !! r = None).
        { destruct (host_name_resolver I) as [r0|]; [|done].
          destruct (decide (r0 = r)) as [->|Hne]; [by rewrite lookup_delete_eq|].
          by rewrite lookup_delete_ne. }
        by rewrite Hnone.
Qed.

(** ** Well-formedness across construction, destruction and events *)

Lemma Wf_empty_server : Wf empty_server.
Proof.
  split; simpl.
  - apply Inv_empty_server.
  - intros rr rb. by rewrite lookup_empty.
  - intros b B rr. by rewrite lookup_empty.
  - constructor.
  - intros b. rewrite lookup_empty. split; [by intros ?%elem_of_nil|by intros [? ?]].
Qed.

Lemma step_browsers s e s' :
  step s e s' ->
  dns_server_browsers s' = dns_server_browsers s /\
  record_browsers s' = record_browsers s /\
  forall b,
    match browsers s !! b, browsers s' !! b with
    | Some B, Some B' =>
        record_browser B' = record_browser B /\ callback B' = callback B /\
        domain_name B' = domain_name B /\ userdata B' = userdata B /\
        aprotocol B' = aprotocol B
    | None, None => True
    | _, _ => False
    end.
Proof.
  intros [e' _|rr rb B iface proto record env Hrr HB Hadm
         |rr rb B iface proto record env i I Hrr HB Hf HI
         |r hr I B ev a Hr HI HIr HB Ha]; simpl.
  - do 2 (split; [done|]). intros b. by destruct (browsers s !! b).
  - do 2 (split; [done|]). intros b. destruct (decide (b = rb_userdata rb)) as [->|Hne].
    + by rewrite HB, lookup_insert_eq.
    + rewrite lookup_insert_ne by done. by destruct (browsers s !! b).
  - unfold announce_remove. destruct (host_name_resolver I); simpl.
    + do 2 (split; [done|]). intros b. destruct (decide (b = rb_userdata rb)) as [->|Hne].
      * by rewrite HB, lookup_insert_eq.
      * rewrite lookup_insert_ne by done. by destruct (browsers s !! b).
    + do 2 (split; [done|]). intros b. destruct (decide (b = rb_userdata rb)) as [->|Hne].
      * by rewrite HB, lookup_insert_eq.
      * rewrite lookup_insert_ne by done. by destruct (browsers s !! b).
  - do 2 (split; [done|]). intros b. by destruct (browsers s !! b).
Qed.

Lemma step_Wf s e s' : Wf s -> step s e s' -> Wf s'.
Proof.
  intros [HInv Hown Hheld Hnd Hreg] Hstep.
  destruct (step_browsers _ _ _ Hstep) as (Hg & Hrb & Hb).
  split.
  - by eapply step_Inv.
  - intros rr rb. rewrite Hrb. intros Hrr.
    destruct (Hown _ _ Hrr) as (B & HB & HBr).
    specialize (Hb (rb_userdata rb)). rewrite HB in Hb.
    destruct (browsers s' !! rb_userdata rb) as [B'|]; [|done].
    exists B'. split; [done|]. destruct Hb as (-> & _). done.
  - intros b B' rr HB' HBr. rewrite Hrb.
    specialize (Hb b). rewrite HB' in Hb.
    destruct (browsers s !! b) as [B|] eqn:HB; [|done].
    apply (Hheld b B); [done|]. destruct Hb as (<- & _). done.
  - by rewrite Hg.
  - intros b. rewrite Hg, Hreg. specialize (Hb b).
    destruct (browsers s !! b), (browsers s' !! b); try done;
      split; intros [? ?]; eauto; done.
Qed.

Lemma deliver_Wf s e s' : Wf s -> deliver e s = Ok tt s' -> Wf s'.
Proof.
  intros HWf H. eapply step_Wf; [done|]. apply deliver_step; [apply HWf|done].
Qed.

Lemma llist_remove_elem_of p l q : NoDup l -> q ∈ llist_remove p l <-> q ∈ l /\ q <> p.
Proof.
  intros Hnd. split.
  - intros Hq. split; [by eapply llist_remove_subseteq|].
    intros ->. by apply (llist_remove_gone p l).
  - intros [Hq Hne]. by apply llist_remove_other.
Qed.

(** C-style destruction of a browser on a well-formed state. *)
Lemma avahi_dns_server_browser_free_spec b s B :
  Wf s -> browsers s !! b = Some B ->
  exists s', avahi_dns_server_browser_free b s = Ok tt s' /\
    browser_freed b B s s' /\ Wf s'.
Proof.
  intros [HInv Hown Hheld Hnd Hreg] HB.
  destruct (free_all_infos_spec (length (info B)) b s B HInv HB (le_n _))
    as (s1 & Hrun & HInv1 & Hb1 & Hi1 & Hr1 & He1 & Hg1 & Hrb1 & Hk1 & Ht1).
  set (B1 := set_n_info 0 (set_info [] B)) in *.
  assert (HB1 : browsers s1 !! b = Some B1) by (by rewrite Hb1, lookup_insert_eq).
  set (s2 := upd_browsers (delete b)
               (match record_browser B with
                | Some rr => upd_record_browsers (delete rr)
                               (upd_dns_server_browsers (llist_remove b) s1)
                | None => upd_dns_server_browsers (llist_remove b) s1
                end)).
  assert (Hfree : avahi_dns_server_browser_free b s = Ok tt s2).
  { unfold avahi_dns_server_browser_free. mstep.
    erewrite bind_Ok by exact Hrun. repeat mstep. unfold s2. simpl.
    destruct (record_browser B) as [rr|] eqn:Hrr.
    - destruct (Hheld b B rr HB Hrr) as (rb & Hrb & _).
      erewrite bind_Ok by (eapply avahi_record_browser_free_Some; simpl;
                           rewrite Hrb1; exact Hrb).
      erewrite avahi_free_browser_Some by mside. done.
    - mstep. erewrite avahi_free_browser_Some by mside. done. }
  assert (Hfields :
            error s2 = error s1 /\
            dns_server_browsers s2 = llist_remove b (dns_server_browsers s1) /\
            browsers s2 = delete b (browsers s1) /\ infos s2 = infos s1 /\
            host_name_resolvers s2 = host_name_resolvers s1 /\
            record_browsers s2 = match record_browser B with
                                 | Some rr => delete rr (record_browsers s1)
                                 | None => record_browsers s1
                                 end /\
            brk s2 = brk s1 /\ trace s2 = trace s1).
  { unfold s2. by destruct (record_browser B). }
  destruct Hfields as (He2 & Hg2 & Hb2 & Hi2 & Hr2 & Hrb2 & Hk2 & Ht2).
  exists s2. split; [done|].
  assert (Hfreed : browser_freed b B s s2).
  { split.
    - congruence.
    - by rewrite Hg2, Hg1.
    - rewrite Hb2, Hb1. apply delete_insert_eq.
    - intros i. by rewrite Hi2.
    - intros r. by rewrite Hr2.
    - by rewrite Hrb2, Hrb1.
    - congruence.
    - congruence. }
  split; [done|].
  assert (Hnoentry : forall i I, infos s1 !! i = Some I -> browser I <> b).
  { intros i I HI Hb.
    destruct (inv_info _ HInv1 _ _ HI) as (B0 & HB0 & Hi). rewrite Hb, HB1 in HB0.
    injection HB0 as <-. simpl in Hi. by apply elem_of_nil in Hi. }
  assert (Hother : forall b' B', b' <> b -> browsers s1 !! b' = Some B' ->
                                 browsers s !! b' = Some B').
  { intros b' B' Hne. by rewrite Hb1, lookup_insert_ne. }
  assert (Hwatch : forall b' B' rr', b' <> b -> browsers s !! b' = Some B' ->
            record_browser B' = Some rr' -> record_browser B <> Some rr').
  { intros b' B' rr' Hne HB' Hrr' Hrr.
    destruct (Hheld b' B' rr' HB' Hrr') as (rb' & Hrb' & Hud').
    destruct (Hheld b B rr' HB Hrr) as (rb & Hrb & Hud). congruence. }
  assert (Hkept : forall rr rb, record_browsers s2 !! rr = Some rb ->
            record_browsers s !! rr = Some rb /\ record_browser B <> Some rr).
  { intros rr rb. rewrite Hrb2, Hrb1. destruct (record_browser B) as [rr0|]; [|done].
    destruct (decide (rr0 = rr)) as [->|Hne]; [by rewrite lookup_delete_eq|].
    rewrite lookup_delete_ne by done. intros ?. split; [done|congruence]. }
  assert (Hkeep : forall rr rb, record_browsers s !! rr = Some rb ->
            record_browser B <> Some rr -> record_browsers s2 !! rr = Some rb).
  { intros rr rb Hrr Hne. rewrite Hrb2, Hrb1. destruct (record_browser B) as [rr0|]; [|done].
    rewrite lookup_delete_ne; [done|]. congruence. }
  split.
  - split.
    + intros b' B'. rewrite Hb2. destruct (decide (b' = b)) as [->|Hne].
      { by rewrite lookup_delete_eq. }
      rewrite lookup_delete_ne by done. intros HB'.
      destruct (inv_browser _ HInv1 _ _ HB') as [Hnd' Hlive Hcnt Hbnd Hdd Hw].
      split; try done.
      * intros i Hi. rewrite Hi2. by apply Hlive.
      * intros i j I J Hi Hj. rewrite Hi2. by apply Hdd.
      * intros rr Hrr. destruct (Hheld b' B' rr (Hother _ _ Hne HB') Hrr) as (rb & Hrb & _).
        exists rb. apply Hkeep; [done|]. by eapply Hwatch; [done|by apply Hother|].
    + intros i I. rewrite Hi2, Hb2. intros HI.
      destruct (inv_info _ HInv1 _ _ HI) as (B0 & HB0 & Hi).
      exists B0. split; [|done]. rewrite lookup_delete_ne; [done|].
      intros Heq. by apply (Hnoentry i I).
    + intros i I r. rewrite Hi2, Hr2. apply (inv_resolver _ HInv1).
    + intros r hr. rewrite Hi2, Hr2. apply (inv_resolved _ HInv1).
    + intros rr rb Hrr. destruct (Hkept _ _ Hrr) as (Hold & Hne).
      destruct (Hown _ _ Hold) as (B' & HB' & Hrr').
      rewrite Hb2, Hb1. exists B'.
      assert (rb_userdata rb <> b) by (intros Heq; rewrite Heq in HB'; congruence).
      rewrite lookup_delete_ne by done. by rewrite lookup_insert_ne by done.
    + intros p. rewrite Hb2, Hk2. destruct (decide (p = b)) as [->|Hne].
      { rewrite lookup_delete_eq. by intros [? ?]. }
      rewrite lookup_delete_ne by done. apply (inv_fresh_browsers _ HInv1).
    + intros p. rewrite Hi2, Hk2. apply (inv_fresh_infos _ HInv1).
    + intros p [rb Hrr]. rewrite Hk2, Hk1. destruct (Hkept _ _ Hrr) as (Hold & _).
      apply (inv_fresh_record_browsers _ HInv). eauto.
    + intros p. rewrite Hr2, Hk2. apply (inv_fresh_host_name_resolvers _ HInv1).
  - intros rr rb Hrr. destruct (Hkept _ _ Hrr) as (Hold & Hne).
    destruct (Hown _ _ Hold) as (B' & HB' & Hrr').
    exists B'. split; [|done]. rewrite Hb2, Hb1.
    assert (rb_userdata rb <> b) by (intros Heq; rewrite Heq in HB'; congruence).
    rewrite lookup_delete_ne by done. by rewrite lookup_insert_ne by done.
  - intros b' B' rr. rewrite Hb2. destruct (decide (b' = b)) as [->|Hne].
    { by rewrite lookup_delete_eq. }
    rewrite lookup_delete_ne by done. intros HB' Hrr.
    destruct (Hheld b' B' rr (Hother _ _ Hne HB') Hrr) as (rb & Hrb & Hud).
    exists rb. split; [|done]. apply Hkeep; [done|]. by eapply Hwatch; [done|by apply Hother|].
  - rewrite Hg2, Hg1. by apply llist_remove_NoDup.
  - intros b'. rewrite Hg2, Hg1, Hb2, Hb1, llist_remove_elem_of, Hreg by done.
    destruct (decide (b' = b)) as [->|Hne].
    + rewrite lookup_delete_eq. split; [naive_solver|by intros [? ?]].
    + rewrite lookup_delete_ne, lookup_insert_ne by done. naive_solver.
Qed.

Lemma Wf_upd_error e s : Wf s -> Wf (upd_error e s).
Proof.
  intros [[Hb ? ? ? ? ? ? ? ?] ? ? ? ?]. split; try done. split; try done.
  intros b B HB. apply (browser_ok_frame s); [by apply Hb|eauto|done].
Qed.

Lemma Wf_upd_brk_S s : Wf s -> Wf (upd_brk S s).
Proof.
  intros [[Hb ? ? ? ? Hf1 Hf2 Hf3 Hf4] ? ? ? ?]. split; try done. split; try done; simpl.
  - intros b B HB. apply (browser_ok_frame s); [by apply Hb|eauto|done].
  - intros p Hp. apply Hf1 in Hp. lia.
  - intros p Hp. apply Hf2 in Hp. lia.
  - intros p Hp. apply Hf3 in Hp. lia.
  - intros p Hp. apply Hf4 in Hp. lia.
Qed.

Section ConstructionOutcomes.

Variable avahi_is_valid_domain_name : string -> bool.
Variable avahi_normalize_name : string -> string.
Variable avahi_key_new : string -> Z -> Z -> AvahiKey.

Lemma avahi_dns_server_browser_new_oom watch_failure iface proto domain type aproto cb udata s :
  (forall d, domain = Some d -> avahi_is_valid_domain_name d = true) ->
  avahi_dns_server_browser_new avahi_is_valid_domain_name avahi_normalize_name
    avahi_key_new false watch_failure iface proto domain type aproto cb udata s =
  Ok None (upd_error AVAHI_ERR_NO_MEMORY s).
Proof.
  intros Hvalid. unfold avahi_dns_server_browser_new.
  assert (match domain with
          | Some d => negb (avahi_is_valid_domain_name d)
          | None => false
          end = false) as ->.
  { destruct domain as [d|]; [|done]. by rewrite (Hvalid d). }
  unfold avahi_new, avahi_server_set_errno. by repeat mstep.
Qed.

Lemma avahi_dns_server_browser_new_watch_failure e iface proto domain type aproto cb udata s :
  (forall d, domain = Some d -> avahi_is_valid_domain_name d = true) ->
  browsers s !! brk s = None ->
  avahi_dns_server_browser_new avahi_is_valid_domain_name avahi_normalize_name
    avahi_key_new true (Some e) iface proto domain type aproto cb udata s =
  Ok None (upd_brk S (upd_error e s)).
Proof.
  intros Hvalid Hfresh. unfold avahi_dns_server_browser_new.
  assert (match domain with
          | Some d => negb (avahi_is_valid_domain_name d)
          | None => false
          end = false) as ->.
  { destruct domain as [d|]; [|done]. by rewrite (Hvalid d). }
  unfold avahi_new, init_browser, avahi_record_browser_new.
  repeat mstep. simpl. repeat mstep.
  unfold avahi_dns_server_browser_free. repeat mstep. simpl. repeat mstep.
  simpl. repeat mstep. simpl. repeat mstep.
  unfold ret. f_equal. apply server_eq; simpl; try done.
  - by rewrite decide_True.
  - by rewrite insert_insert_eq, delete_insert_eq, delete_id.
Qed.

Lemma Wf_after_browser_new iface proto domain type aproto cb udata s :
  Wf s ->
  Wf (after_browser_new avahi_normalize_name avahi_key_new iface proto domain type aproto
        cb udata s).
Proof.
  intros [HInv Hown Hheld Hnd Hreg].
  destruct (Inv_brk_fresh s HInv) as (Hfb & _ & _ & _ & _ & Hfr').
  split; simpl.
  - by apply Inv_after_browser_new.
  - intros rr rb. destruct (decide (rr = S (brk s))) as [->|Hne].
    + rewrite lookup_insert_eq. intros [= <-]. simpl. rewrite lookup_insert_eq. eauto.
    + rewrite lookup_insert_ne by done. intros Hrr.
      destruct (Hown _ _ Hrr) as (B & HB & HBr). exists B. split; [|done].
      rewrite lookup_insert_ne; [done|]. intros Heq. rewrite <- Heq in HB. congruence.
  - intros b B rr. destruct (decide (b = brk s)) as [->|Hne].
    + rewrite lookup_insert_eq. intros [= <-] [= <-]. rewrite lookup_insert_eq. eauto.
    + rewrite lookup_insert_ne by done. intros HB HBr.
      destruct (Hheld _ _ _ HB HBr) as (rb & Hrb & Hud). exists rb. split; [|done].
      rewrite lookup_insert_ne; [done|]. intros Heq. rewrite <- Heq in Hrb. congruence.
  - constructor; [|done]. rewrite Hreg, Hfb. by intros [? ?].
  - intros b. rewrite elem_of_cons, Hreg. destruct (decide (b = brk s)) as [->|Hne].
    + rewrite lookup_insert_eq. naive_solver.
    + rewrite lookup_insert_ne by done. naive_solver.
Qed.

Lemma avahi_dns_server_browser_new_Wf malloc_browser_ok watch_failure iface proto domain type
    aproto cb udata s :
  Wf s ->
  exists o s',
    avahi_dns_server_browser_new avahi_is_valid_domain_name avahi_normalize_name
      avahi_key_new malloc_browser_ok watch_failure iface proto domain type aproto cb udata s
    = Ok o s' /\ Wf s'.
Proof.
  intros HWf.
  destruct (Inv_brk_fresh s (wf_inv _ HWf)) as (Hfb & _).
  assert (Hcases : (forall d, domain = Some d -> avahi_is_valid_domain_name d = true) \/
                   exists d, domain = Some d /\ avahi_is_valid_domain_name d = false).
  { destruct domain as [d|]; [|by left].
    destruct (avahi_is_valid_domain_name d) eqn:Hd; [left|right; eauto].
    by intros d' [= <-]. }
  destruct Hcases as [Hvalid|(d & -> & Hd)].
  - destruct malloc_browser_ok.
    + destruct watch_failure as [e|].
      * eexists _, _. split; [by apply avahi_dns_server_browser_new_watch_failure|].
        by apply Wf_upd_brk_S, Wf_upd_error.
      * eexists _, _. split; [by apply avahi_dns_server_browser_new_ok|].
        by apply Wf_after_browser_new.
    + eexists _, _. split; [by apply avahi_dns_server_browser_new_oom|].
      by apply Wf_upd_error.
  - eexists _, _. split; [by apply avahi_dns_server_browser_new_invalid|].
    by apply Wf_upd_error.
Qed.

Lemma api_call_Wf c s s' :
  Wf s ->
  api_call avahi_is_valid_domain_name avahi_normalize_name avahi_key_new c s = Ok tt s' ->
  Wf s'.
Proof.
  intros HWf H. destruct c as [m w iface proto domain type aproto cb udata|b|e]; simpl in H.
  - destruct (avahi_dns_server_browser_new_Wf m w iface proto domain type aproto cb udata s HWf)
      as (o & s1 & Hnew & HWf1).
    erewrite bind_Ok in H by exact Hnew. by injection H as <-.
  - destruct (browsers s !! b) as [B|] eqn:HB.
    + destruct (avahi_dns_server_browser_free_spec b s B HWf HB) as (s1 & Hfree & _ & HWf1).
      rewrite Hfree in H. by injection H as <-.
    + unfold avahi_dns_server_browser_free in H. by mstep_in H.
  - by eapply deliver_Wf.
Qed.

Lemma api_run_Wf cs s s' :
  Wf s ->
  api_run avahi_is_valid_domain_name avahi_normalize_name avahi_key_new cs s = Ok tt s' ->
  Wf s'.
Proof.
  revert s. induction cs as [|c cs IH]; intros s HWf H; simpl in H.
  - by injection H as <-.
  - apply bind_Ok_inv in H as ([] & s1 & Hc & Hrest).
    eapply IH; [|done]. by eapply api_call_Wf.
Qed.

End ConstructionOutcomes.

(** ** Lookup, insertion and removal of entries *)

(** X1: on a well-formed state [get_server_info] leaves the state as it is
    and returns an entry exactly when that entry is in the browser's list and
    has the interface, the protocol and, time-to-live apart, the record asked
    for; it returns NULL exactly when no entry of the list does. *)
Theorem get_server_info_returns_the_matching_entry s b B iface proto r :
  Inv s -> browsers s !! b = Some B ->
  exists o, get_server_info b iface proto r s = Ok o s /\
    forall i, o = Some i <->
      (i ∈ info B /\ exists I, infos s !! i = Some I /\ interface I = iface /\
         protocol I = proto /\ avahi_record_equal_no_ttl r (srv_record I) = true).
Proof.
  intros HInv HB. pose proof (Inv_entries_live _ _ _ HInv HB) as Hlive.
  exists (find_info (infos s) (info B) iface proto r).
  split; [by apply get_server_info_find|].
  intros i. split.
  - intros Hf. destruct (find_info_Some _ _ _ _ _ _ Hf) as (Hi & I & HI & Hm).
    split; [done|]. exists I. split; [done|].
    unfold matches in Hm. rewrite !andb_true_iff, !bool_decide_eq_true in Hm.
    destruct Hm as ((? & ?) & ?). auto.
  - intros (Hi & I & HI & Hif & Hpr & Heq).
    apply (find_info_unique s b B iface proto r i I); try done.
    unfold matches. by rewrite !bool_decide_eq_true_2, Heq.
Qed.

Lemma get_server_info_returns_the_matching_entry_witness :
  get_server_info 0%nat 1 0 Scenario.host1_again Scenario.pending
    = Ok (Some 2%nat) Scenario.pending /\
  get_server_info 0%nat 1 0 (Scenario.host 1) Scenario.pending = Ok None Scenario.pending.
Proof.
  split.
  - destruct (get_server_info_returns_the_matching_entry Scenario.pending 0%nat
                (mkBrowser "local" (Some 1%nat) Scenario.returning 77 0 1 [2%nat]) 1 0
                Scenario.host1_again Inv_pending eq_refl) as (o & Hget & Hiff).
    rewrite Hget. f_equal. apply Hiff. split; [apply list_elem_of_here|].
    exists (mkInfo 0%nat 1 0 Scenario.host1 (Some 3%nat) None). repeat split.
  - destruct (get_server_info_returns_the_matching_entry Scenario.pending 0%nat
                (mkBrowser "local" (Some 1%nat) Scenario.returning 77 0 1 [2%nat]) 1 0
                (Scenario.host 1) Inv_pending eq_refl) as (o & Hget & Hiff).
    rewrite Hget. f_equal. destruct o as [i|]; [|reflexivity].
    destruct (proj1 (Hiff i) eq_refl) as (Hi & I & HI & _ & _ & Heq).
    apply list_elem_of_singleton in Hi. subst i.
    vm_compute in HI. injection HI as <-. vm_compute in Heq. discriminate Heq.
Defined.

(** X2: a SRV REMOVE event for a record no entry of the browser matches is
    ignored: the state is left as it was and nothing is announced. *)
Theorem remove_of_untracked_record_is_ignored s b B env rr iface proto record :
  Inv s -> browsers s !! b = Some B ->
  key_type (key record) = AVAHI_DNS_TYPE_SRV ->
  (forall i I, i ∈ info B -> infos s !! i = Some I ->
     ~ (interface I = iface /\ protocol I = proto /\
        avahi_record_equal_no_ttl record (srv_record I) = true)) ->
  record_browser_callback env rr iface proto AVAHI_BROWSER_REMOVE record b s = Ok tt s.
Proof.
  intros HInv HB Hsrv Hnone.
  pose proof (Inv_entries_live _ _ _ HInv HB) as Hlive.
  apply (record_browser_callback_remove_absent _ _ _ _ _ _ _ B); try done.
  destruct (find_info (infos s) (info B) iface proto record) as [i|] eqn:Hf; [|done].
  destruct (find_info_Some _ _ _ _ _ _ Hf) as (Hi & I & HI & Hm).
  destruct (Hnone i I Hi HI).
  unfold matches in Hm. rewrite !andb_true_iff, !bool_decide_eq_true in Hm.
  destruct Hm as ((? & ?) & ?). auto.
Qed.

Lemma remove_of_untracked_record_is_ignored_witness :
  record_browser_callback Scenario.all_ok 1%nat 1 0 AVAHI_BROWSER_REMOVE (Scenario.host 1) 0%nat
    Scenario.pending = Ok tt Scenario.pending.
Proof.
  apply (remove_of_untracked_record_is_ignored Scenario.pending 0%nat
           (mkBrowser "local" (Some 1%nat) Scenario.returning 77 0 1 [2%nat]));
    [apply Inv_pending|reflexivity|reflexivity|].
  intros i I Hi HI (_ & _ & Heq).
  apply list_elem_of_singleton in Hi. subst i.
  vm_compute in HI. injection HI as <-. vm_compute in Heq. discriminate Heq.
Defined.

(** X3: after a SRV NEW event handled while the allocator has memory and the
    browser is below its bound, the record is tracked: [get_server_info]
    finds an entry for the key of the event, also when asked with the same
    record under another time-to-live. *)
Theorem new_record_is_found_afterwards s b B env rr iface proto record :
  Inv s -> browsers s !! b = Some B ->
  key_type (key record) = AVAHI_DNS_TYPE_SRV ->
  malloc_ok env = true -> n_info B < 10 ->
  exists s' i,
    record_browser_callback env rr iface proto AVAHI_BROWSER_NEW record b s = Ok tt s' /\
    forall record', avahi_record_equal_no_ttl record' record = true ->
      get_server_info b iface proto record' s' = Ok (Some i) s'.
Proof.
  intros HInv HB Hsrv Hmal Hn.
  pose proof (Inv_entries_live _ _ _ HInv HB) as Hlive.
  pose proof (record_browser_callback_new env rr iface proto record b s B HB Hlive Hsrv) as Hnew.
  assert (Heqv : forall r1 r2 r3, avahi_record_equal_no_ttl r1 r2 = true ->
                   avahi_record_equal_no_ttl r2 r3 = true ->
                   avahi_record_equal_no_ttl r1 r3 = true).
  { intros r1 r2 r3. unfold avahi_record_equal_no_ttl.
    rewrite !andb_true_iff, !bool_decide_eq_true.
    intros (-> & ->) (-> & ->). auto. }
  destruct (find_info (infos s) (info B) iface proto record) as [i|] eqn:Hf.
  - exists s, i. split.
    { rewrite Hnew. unfold accepted. by rewrite Hf. }
    intros record' Heq. rewrite (get_server_info_find _ _ B) by done. f_equal.
    destruct (find_info_Some _ _ _ _ _ _ Hf) as (Hi & I & HI & Hm).
    apply (find_info_unique s b B iface proto record' i I); try done.
    unfold matches in *. rewrite !andb_true_iff, !bool_decide_eq_true in Hm.
    destruct Hm as ((-> & ->) & Hm).
    by rewrite !bool_decide_eq_true_2, (Heqv _ _ _ Heq Hm).
  - assert (Hadm : accepted env s B iface proto record = true).
    { unfold accepted. rewrite Hf, Hmal. destruct (10 <=? n_info B) eqn:Hle; [lia|done]. }
    exists (after_new env b B iface proto record s), (brk s). split.
    { by rewrite Hnew, Hadm. }
    intros record' Heq.
    pose proof (Inv_after_new _ _ _ _ _ _ _ HInv HB Hadm) as HInv'.
    erewrite get_server_info_find;
      [|simpl; apply lookup_insert_eq|eapply Inv_entries_live; [done|simpl; apply lookup_insert_eq]].
    f_equal. simpl. rewrite lookup_insert_eq. unfold matches. simpl.
    by rewrite !bool_decide_eq_true_2, Heq.
Qed.

Lemma new_record_is_found_afterwards_witness :
  exists s' i,
    record_browser_callback Scenario.all_ok 1%nat 1 0 AVAHI_BROWSER_NEW Scenario.host1 0%nat
      (Scenario.created Scenario.returning) = Ok tt s' /\
    get_server_info 0%nat 1 0 Scenario.host1_again s' = Ok (Some i) s'.
Proof.
  destruct (new_record_is_found_afterwards (Scenario.created Scenario.returning) 0%nat
              (mkBrowser "local" (Some 1%nat) Scenario.returning 77 0 0 [])
              Scenario.all_ok 1%nat 1 0 Scenario.host1 (Inv_created Scenario.returning)
              eq_refl eq_refl eq_refl) as (s' & i & Hnew & Hget); [reflexivity|].
  exists s', i. split; [exact Hnew|]. apply Hget. reflexivity.
Defined.

(** X4: after a SRV REMOVE event, handled with a callback that returns, the
    key of the event is no longer tracked: [get_server_info] returns NULL
    for it. *)
Theorem removed_record_is_not_found_afterwards s b B env rr iface proto record :
  Inv s -> browsers s !! b = Some B ->
  key_type (key record) = AVAHI_DNS_TYPE_SRV ->
  (forall ev, callback B ev = CbReturn) ->
  exists s',
    record_browser_callback env rr iface proto AVAHI_BROWSER_REMOVE record b s = Ok tt s' /\
    get_server_info b iface proto record s' = Ok None s'.
Proof.
  intros HInv HB Hsrv Hcb.
  pose proof (Inv_entries_live _ _ _ HInv HB) as Hlive.
  pose proof (inv_browser _ HInv _ _ HB) as HokB.
  destruct (find_info (infos s) (info B) iface proto record) as [i|] eqn:Hf.
  2:{ exists s. split; [by apply (record_browser_callback_remove_absent _ _ _ _ _ _ _ B)|].
      rewrite (get_server_info_find _ _ B) by done. by rewrite Hf. }
  destruct (find_info_Some _ _ _ _ _ _ Hf) as (Hi & I & HI & Hm).
  eexists. split.
  { apply (record_browser_callback_remove _ _ _ _ _ _ _ B i I); try done.
    - rewrite (bo_count _ _ _ HokB). destruct (info B); [by apply elem_of_nil in Hi|].
      simpl. lia.
    - intros r Hr. destruct (inv_resolver _ HInv _ _ _ HI Hr) as (hr & -> & _). eauto. }
  erewrite get_server_info_find.
  2:{ simpl. rewrite announce_remove_browsers. apply lookup_insert_eq. }
  2:{ intros j Hj. simpl in *. rewrite announce_remove_infos.
      assert (j <> i).
      { intros ->. by apply (llist_remove_gone i (info B) (bo_nodup _ _ _ HokB)). }
      rewrite lookup_delete_ne by done. by apply Hlive, (llist_remove_subseteq i). }
  f_equal. simpl. rewrite announce_remove_infos.
  destruct (find_info (delete i (infos s)) (llist_remove i (info B)) iface proto record)
    as [j|] eqn:Hj; [|done].
  destruct (find_info_Some _ _ _ _ _ _ Hj) as (Hjin & J & HJ & HmJ).
  assert (Hji : j <> i) by (intros ->; by rewrite lookup_delete_eq in HJ).
  rewrite lookup_delete_ne in HJ by done.
  apply llist_remove_subseteq in Hjin.
  destruct Hji. apply (bo_dedup _ _ _ HokB j i J I); try done.
  apply matches_key in Hm, HmJ. congruence.
Qed.

Lemma removed_record_is_not_found_afterwards_witness :
  exists s',
    record_browser_callback Scenario.all_ok 1%nat 1 0 AVAHI_BROWSER_REMOVE Scenario.host1_again
      0%nat Scenario.pending = Ok tt s' /\
    get_server_info 0%nat 1 0 Scenario.host1 s' = Ok None s'.
Proof.
  destruct (removed_record_is_not_found_afterwards Scenario.pending 0%nat
              (mkBrowser "local" (Some 1%nat) Scenario.returning 77 0 1 [2%nat])
              Scenario.all_ok 1%nat 1 0 Scenario.host1_again Inv_pending eq_refl eq_refl)
    as (s' & Hrem & Hget); [reflexivity|].
  exists s'. split; [exact Hrem|].
  assert (Heq : Ok tt s' = Ok tt (upd_brk (fun n => S (S n))
                                    (Scenario.created Scenario.returning))).
  { rewrite <- Hrem. vm_compute. reflexivity. }
  injection Heq as ->. vm_compute. reflexivity.
Defined.

(** ** How the events compose *)

(** X5: a record that is announced and withdrawn before its target was
    resolved leaves no mark: after the SRV NEW event (entry and resolver
    allocated) and the SRV REMOVE event for the same key, the state is the
    one before the two events, only the next free address has moved on by
    two; in particular nothing was announced. *)
Theorem new_then_remove_before_resolution_restores_the_state
    s b B env rr iface proto record record' :
  Inv s -> browsers s !! b = Some B ->
  key_type (key record) = AVAHI_DNS_TYPE_SRV ->
  key_type (key record') = AVAHI_DNS_TYPE_SRV ->
  get_server_info b iface proto record s = Ok None s -> n_info B < 10 ->
  malloc_ok env = true -> resolver_ok env = true ->
  avahi_record_equal_no_ttl record' record = true ->
  exists s1,
    record_browser_callback env rr iface proto AVAHI_BROWSER_NEW record b s = Ok tt s1 /\
    record_browser_callback env rr iface proto AVAHI_BROWSER_REMOVE record' b s1
      = Ok tt (upd_brk (fun n => S (S n)) s).
Proof.
  intros HInv HB Hsrv Hsrv' Hget Hn Hmal Hres Heq.
  pose proof (Inv_entries_live _ _ _ HInv HB) as Hlive.
  pose proof (inv_browser _ HInv _ _ HB) as HokB.
  rewrite (get_server_info_find _ _ B) in Hget by done. injection Hget as Hf.
  assert (Hadm : accepted env s B iface proto record = true).
  { unfold accepted. rewrite Hf, Hmal. destruct (10 <=? n_info B) eqn:Hle; [lia|done]. }
  pose proof (Inv_after_new _ _ _ _ _ _ _ HInv HB Hadm) as HInv1.
  destruct (Inv_brk_fresh s HInv) as (_ & Hfi & _ & Hfr & _).
  exists (after_new env b B iface proto record s). split.
  { rewrite (record_browser_callback_new _ _ _ _ _ _ _ B) by done. by rewrite Hadm. }
  set (B1 := set_n_info ((n_info B + 1) mod 2 ^ 32) (set_info (brk s :: info B) B)).
  set (I1 := mkInfo b iface proto record (Some (S (brk s))) None).
  assert (HB1 : browsers (after_new env b B iface proto record s) !! b = Some B1).
  { simpl. apply lookup_insert_eq. }
  assert (HI1 : infos (after_new env b B iface proto record s) !! brk s = Some I1).
  { simpl. rewrite lookup_insert_eq. unfold I1. by rewrite Hres. }
  rewrite (record_browser_callback_remove _ _ _ _ _ _ _ B1 (brk s) I1); try done.
  - f_equal. apply server_eq; simpl; rewrite ?Hres; simpl; try done.
    + rewrite insert_insert_eq. apply insert_id. rewrite HB. f_equal.
      rewrite decide_True by done.
      rewrite <- (browser_eta B) at 1. unfold set_n_info, set_info. simpl. f_equal.
      pose proof (bo_count _ _ _ HokB).
      rewrite (Z.mod_small (n_info B + 1)) by lia. rewrite Z.mod_small by lia. lia.
    + by rewrite delete_insert_eq, delete_id.
    + by rewrite delete_insert_eq, delete_id.
  - by eapply Inv_entries_live.
  - simpl. rewrite lookup_insert_eq. unfold matches. simpl.
    by rewrite !bool_decide_eq_true_2, Heq.
  - unfold B1. simpl. pose proof (bo_count _ _ _ HokB). rewrite Z.mod_small by lia. lia.
  - intros r [= <-]. simpl. rewrite Hres, lookup_insert_eq. eauto.
Qed.

Lemma new_then_remove_before_resolution_restores_the_state_witness :
  exists s1,
    record_browser_callback Scenario.all_ok 1%nat 1 0 AVAHI_BROWSER_NEW Scenario.host1 0%nat
      (Scenario.created Scenario.returning) = Ok tt s1 /\
    record_browser_callback Scenario.all_ok 1%nat 1 0 AVAHI_BROWSER_REMOVE Scenario.host1_again
      0%nat s1 = Ok tt (upd_brk (fun n => S (S n)) (Scenario.created Scenario.returning)).
Proof.
  apply (new_then_remove_before_resolution_restores_the_state
           (Scenario.created Scenario.returning) 0%nat
           (mkBrowser "local" (Some 1%nat) Scenario.returning 77 0 0 []));
    try reflexivity.
  apply Inv_created.
Defined.



(** ** Several browsers *)

(** X7: an event changes only the browser it is delivered to: every other
    browser keeps its struct, its entries and their resolvers as they were. *)
Theorem events_leave_other_browsers_alone s e s' b' :
  Inv s -> deliver e s = Ok tt s' -> event_browser s e <> Some b' ->
  browsers s' !! b' = browsers s !! b' /\
  (forall i I, infos s !! i = Some I -> browser I = b' -> infos s' !! i = Some I) /\
  (forall r hr I, host_name_resolvers s !! r = Some hr ->
     infos s !! hr_userdata hr = Some I -> browser I = b' ->
     host_name_resolvers s' !! r = Some hr).
Proof.
  intros HInv Hdel Hother. pose proof (deliver_step _ _ _ HInv Hdel) as Hstep.
  destruct Hstep as [e' _|rr rb B iface proto record env Hrr HB Hadm
                    |rr rb B iface proto record env i0 I0 Hrr HB Hf HI0
                    |r0 hr0 I0 B ev a Hr0 HI0 HIr0 HB Ha]; simpl in *.
  - eauto.
  - rewrite Hrr in Hother. simpl in Hother.
    assert (Hne : b' <> rb_userdata rb) by congruence.
    destruct (Inv_brk_fresh s HInv) as (_ & Hfi & _ & Hfr & _).
    split; [by rewrite lookup_insert_ne|]. split.
    + intros i I HI _. rewrite lookup_insert_ne; [done|]. congruence.
    + intros r hr I Hr _ _. destruct (resolver_ok env); [|done].
      rewrite lookup_insert_ne; [done|]. congruence.
  - rewrite Hrr in Hother. simpl in Hother.
    assert (Hne : b' <> rb_userdata rb) by congruence.
    destruct (find_info_Some _ _ _ _ _ _ Hf) as (Hi0 & _).
    pose proof (Inv_entry_browser _ _ _ _ _ HInv HB Hi0 HI0) as Hb0.
    rewrite announce_remove_browsers, announce_remove_infos,
      announce_remove_host_name_resolvers.
    split; [by rewrite lookup_insert_ne|]. split.
    + intros i I HI Hb. rewrite lookup_delete_ne; [done|]. congruence.
    + intros r hr I Hr HI Hb. destruct (host_name_resolver I0) as [r1|] eqn:Hr1; [|done].
      rewrite lookup_delete_ne; [done|]. intros <-.
      destruct (inv_resolver _ HInv _ _ _ HI0 Hr1) as (hr1 & Hhr1 & Hud1). congruence.
  - rewrite Hr0, HI0 in Hother. simpl in Hother.
    assert (Hne : b' <> browser I0) by congruence.
    split; [done|]. split.
    + intros i I HI Hb. rewrite lookup_insert_ne; [done|]. congruence.
    + intros r hr I Hr HI Hb. rewrite lookup_delete_ne; [done|]. congruence.
Qed.

Lemma Inv_two_browsers : Inv Scenario2.two_browsers.
Proof. apply Inv_after_browser_new, Inv_created. Qed.

Lemma events_leave_other_browsers_alone_witness :
  exists s',
    deliver (Scenario.srv_new Scenario.host1 Scenario.all_ok) Scenario2.two_browsers = Ok tt s' /\
    browsers s' !! 2%nat =
      Some (mkBrowser "example.org" (Some 3%nat) Scenario.returning 78 0 0 []).
Proof.
  assert (Hdel : exists s',
             deliver (Scenario.srv_new Scenario.host1 Scenario.all_ok) Scenario2.two_browsers
             = Ok tt s').
  { eexists. vm_compute. reflexivity. }
  destruct Hdel as [s' Hdel]. exists s'. split; [exact Hdel|].
  destruct (events_leave_other_browsers_alone Scenario2.two_browsers
              (Scenario.srv_new Scenario.host1 Scenario.all_ok) s' 2%nat
              Inv_two_browsers Hdel) as (Hb & _).
  - vm_compute. discriminate.
  - rewrite Hb. vm_compute. reflexivity.
Defined.

(** ** The SRV REMOVE path under a destroying callback *)

(** X8: on a SRV REMOVE event for an entry whose resolver handle is null,
    when the client destroys the browser from within the REMOVE callback,
    the [server_info_free] that follows the callback runs on the entry the
    destruction has released. *)
Theorem remove_then_destroying_callback_uses_freed_entry
    s b B env rr iface proto record i I :
  Inv s -> browsers s !! b = Some B ->
  key_type (key record) = AVAHI_DNS_TYPE_SRV ->
  i ∈ info B -> infos s !! i = Some I ->
  interface I = iface -> protocol I = proto ->
  avahi_record_equal_no_ttl record (srv_record I) = true ->
  host_name_resolver I = None ->
  callback B (mkPublicEvent b iface proto AVAHI_BROWSER_REMOVE (name (srv (srv_record I)))
                (address I) (port (srv (srv_record I))) (userdata B)) = CbFreeBrowser ->
  record_browser_callback env rr iface proto AVAHI_BROWSER_REMOVE record b s
    = Fault (UseAfterFree i).
Proof.
  intros HInv HB Hsrv Hi HI Hif Hpr Heq Hr Hcb.
  apply (record_browser_callback_remove_destroyed _ _ _ _ _ _ _ B i I); try done.
  apply (find_info_unique s b B iface proto record i I); try done.
  unfold matches. by rewrite !bool_decide_eq_true_2, Heq.
Qed.

Lemma remove_then_destroying_callback_uses_freed_entry_witness :
  record_browser_callback Scenario.all_ok 1%nat 1 0 AVAHI_BROWSER_REMOVE Scenario.host1 0%nat
    Scenario2.unresolved_destroying = Fault (UseAfterFree 2%nat).
Proof.
  apply (remove_then_destroying_callback_uses_freed_entry Scenario2.unresolved_destroying 0%nat
           (mkBrowser "local" (Some 1%nat) Scenario.destroying 77 0 1 [2%nat])
           Scenario.all_ok 1%nat 1 0 Scenario.host1 2%nat
           (mkInfo 0%nat 1 0 Scenario.host1 None None));
    try reflexivity; [apply Inv_unresolved_destroying|apply list_elem_of_here].
Defined.

(** ** Construction and destruction *)

Section Lifecycle.

Variable avahi_is_valid_domain_name : string -> bool.
Variable avahi_normalize_name : string -> string.
Variable avahi_key_new : string -> Z -> Z -> AvahiKey.

(** X9: a construction that fails after validation, because the browser
    cannot be allocated or because the record watch cannot be started,
    returns NULL and leaves no partial browser: registry, browsers, entries
    and subscriptions are those from before, nothing is announced, and the
    error code is [AVAHI_ERR_NO_MEMORY], respectively the code the record
    watch failed with. *)
Theorem failed_construction_leaves_no_browser
    malloc_browser_ok watch_failure iface proto domain type aproto cb udata s :
  Wf s ->
  (forall d, domain = Some d -> avahi_is_valid_domain_name d = true) ->
  malloc_browser_ok = false \/ is_Some watch_failure ->
  exists s',
    avahi_dns_server_browser_new avahi_is_valid_domain_name avahi_normalize_name
      avahi_key_new malloc_browser_ok watch_failure iface proto domain type aproto cb udata s
    = Ok None s' /\
    error s' = (if malloc_browser_ok
                then match watch_failure with Some e => e | None => error s end
                else AVAHI_ERR_NO_MEMORY) /\
    dns_server_browsers s' = dns_server_browsers s /\
    browsers s' = browsers s /\ infos s' = infos s /\
    record_browsers s' = record_browsers s /\
    host_name_resolvers s' = host_name_resolvers s /\
    trace s' = trace s /\ Wf s'.
Proof.
  intros HWf Hvalid Hfail.
  destruct (Inv_brk_fresh s (wf_inv _ HWf)) as (Hfb & _).
  destruct malloc_browser_ok.
  - destruct Hfail as [|[e ->]]; [done|].
    eexists. split; [by apply avahi_dns_server_browser_new_watch_failure|].
    do 7 (split; [done|]). by apply Wf_upd_brk_S, Wf_upd_error.
  - eexists. split; [by apply avahi_dns_server_browser_new_oom|].
    do 7 (split; [done|]). by apply Wf_upd_error.
Qed.

(** X10: a browser that is constructed and destroyed at once leaves the
    server as it was, the next free address apart: the registry entry, the
    browser and its record watch are gone again. *)
Theorem construct_then_destroy_restores_the_state
    iface proto domain type aproto cb udata s :
  Inv s ->
  (forall d, domain = Some d -> avahi_is_valid_domain_name d = true) ->
  exists b s1,
    avahi_dns_server_browser_new avahi_is_valid_domain_name avahi_normalize_name
      avahi_key_new true None iface proto domain type aproto cb udata s = Ok (Some b) s1 /\
    avahi_dns_server_browser_free b s1 = Ok tt (upd_brk (fun n => S (S n)) s).
Proof.
  intros HInv Hvalid.
  destruct (Inv_brk_fresh s HInv) as (Hfb & _ & _ & _ & _ & Hfr).
  eexists _, _. split; [by apply avahi_dns_server_browser_new_ok|].
  unfold avahi_dns_server_browser_free, after_browser_new.
  repeat mstep. simpl. repeat mstep. simpl. repeat mstep.
  erewrite avahi_free_browser_Some by mside.
  f_equal. apply server_eq; simpl; try done.
  - by rewrite decide_True.
  - by rewrite delete_insert_eq, delete_id.
  - by rewrite delete_insert_eq, delete_id.
Qed.

End Lifecycle.

(** X11: on a well-formed state the destruction of a live browser runs to
    its end and releases all the browser owns: the browser, its registry
    entry, every entry of its list, the resolvers of these entries and its
    record watch.  It invokes no callback and sets no error code, and it
    leaves the other browsers and their entries as they were. *)
Theorem destruction_releases_all_the_browser_owns s b B :
  Wf s -> browsers s !! b = Some B ->
  exists s',
    avahi_dns_server_browser_free b s = Ok tt s' /\
    browsers s' !! b = None /\ (b ∉ dns_server_browsers s') /\
    (forall i I, infos s !! i = Some I -> browser I = b -> infos s' !! i = None) /\
    (forall r hr I, host_name_resolvers s !! r = Some hr ->
       infos s !! hr_userdata hr = Some I -> browser I = b ->
       host_name_resolvers s' !! r = None) /\
    (forall rr, record_browser B = Some rr -> record_browsers s' !! rr = None) /\
    trace s' = trace s /\ error s' = error s /\
    (forall b', b' <> b -> browsers s' !! b' = browsers s !! b') /\
    (forall i I, infos s !! i = Some I -> browser I <> b -> infos s' !! i = Some I) /\
    Wf s'.
Proof.
  intros HWf HB.
  destruct (avahi_dns_server_browser_free_spec b s B HWf HB)
    as (s' & Hfree & [He Hg Hb Hi Hr Hrb Hk Ht] & HWf').
  pose proof (wf_inv _ HWf) as HInv.
  assert (Hmine : forall i I, infos s !! i = Some I -> browser I = b -> i ∈ info B).
  { intros i I HI Hbi. destruct (inv_info _ HInv _ _ HI) as (B0 & HB0 & Hin).
    rewrite Hbi, HB in HB0. by injection HB0 as <-. }
  exists s'. split; [done|].
  split; [by rewrite Hb, lookup_delete_eq|].
  split.
  { rewrite Hg. apply llist_remove_gone, (wf_registry_nodup _ HWf). }
  split.
  { intros i I HI Hbi. rewrite Hi. by rewrite decide_True by by eapply Hmine. }
  split.
  { intros r hr I Hhr HI Hbi. rewrite Hr, Hhr.
    by rewrite decide_True by by eapply Hmine. }
  split.
  { intros rr Hrr. rewrite Hrb, Hrr. apply lookup_delete_eq. }
  do 2 (split; [done|]).
  split; [intros b' Hne; by rewrite Hb, lookup_delete_ne|].
  split; [|done].
  intros i I HI Hbi. rewrite Hi, HI. rewrite decide_False; [done|].
  intros Hin. apply Hbi. by eapply Inv_entry_browser.
Qed.

Lemma run_Wf evs s s' : Wf s -> run evs s = Ok tt s' -> Wf s'.
Proof.
  revert s. induction evs as [|e evs IH]; intros s HWf H; simpl in H.
  - by injection H as <-.
  - apply bind_Ok_inv in H as ([] & s1 & He & Hrest).
    eapply IH; [|done]. by eapply deliver_Wf.
Qed.

Lemma Wf_created cb : Wf (Scenario.created cb).
Proof. apply Wf_after_browser_new, Wf_empty_server. Qed.

Lemma Wf_busy : Wf Scenario2.busy.
Proof.
  apply (run_Wf [Scenario.srv_new Scenario.host1 Scenario.all_ok;
                 Scenario.srv_new (Scenario.host 1) Scenario.all_ok;
                 ResolverEvent 3%nat AVAHI_RESOLVER_FOUND (Some Scenario.addr1);
                 Scenario.srv_new (Scenario.host 2) Scenario.no_resolver;
                 Scenario.srv_remove (Scenario.host 2)]
                (Scenario.created Scenario.returning)); [apply Wf_created|].
  vm_compute. reflexivity.
Qed.

Lemma failed_construction_leaves_no_browser_witness :
  exists s',
    avahi_dns_server_browser_new Scenario.valid Scenario.normalize mkKey true
      (Some (AVAHI_ERR_OTHER 5)) 1 0 (Some "example.org") AVAHI_DNS_SERVER_UPDATE 0
      Scenario.returning 78 (Scenario.created Scenario.returning) = Ok None s' /\
    error s' = AVAHI_ERR_OTHER 5 /\
    dns_server_browsers s' = [0%nat] /\
    browsers s' = browsers (Scenario.created Scenario.returning) /\
    record_browsers s' = record_browsers (Scenario.created Scenario.returning).
Proof.
  destruct (failed_construction_leaves_no_browser Scenario.valid Scenario.normalize mkKey true
              (Some (AVAHI_ERR_OTHER 5)) 1 0 (Some "example.org") AVAHI_DNS_SERVER_UPDATE 0
              Scenario.returning 78 (Scenario.created Scenario.returning)
              (Wf_created Scenario.returning))
    as (s' & Hnew & He & Hg & Hb & _ & Hrb & _).
  - intros d [= <-]. reflexivity.
  - right. eexists. reflexivity.
  - exists s'. repeat split; assumption.
Defined.

Lemma construct_then_destroy_restores_the_state_witness :
  exists b s1,
    avahi_dns_server_browser_new Scenario.valid Scenario.normalize mkKey true None 1 0
      (Some "example.org") AVAHI_DNS_SERVER_UPDATE 0 Scenario.returning 78
      (Scenario.created Scenario.returning) = Ok (Some b) s1 /\
    avahi_dns_server_browser_free b s1
      = Ok tt (upd_brk (fun n => S (S n)) (Scenario.created Scenario.returning)).
Proof.
  apply (construct_then_destroy_restores_the_state Scenario.valid Scenario.normalize mkKey 1 0
           (Some "example.org") AVAHI_DNS_SERVER_UPDATE 0 Scenario.returning 78
           (Scenario.created Scenario.returning) (Inv_created Scenario.returning)).
  intros d [= <-]. reflexivity.
Defined.

Lemma busy_browser :
  browsers Scenario2.busy !! 0%nat =
  Some (mkBrowser "local" (Some 1%nat) Scenario.returning 77 0 2 [4%nat; 2%nat]).
Proof. vm_compute. reflexivity. Qed.

Lemma destruction_releases_all_the_browser_owns_witness :
  exists s',
    avahi_dns_server_browser_free 0%nat Scenario2.busy = Ok tt s' /\
    browsers s' !! 0%nat = None /\
    infos s' !! 2%nat = None /\ infos s' !! 4%nat = None /\
    host_name_resolvers s' !! 5%nat = None /\ record_browsers s' !! 1%nat = None /\
    trace s' = trace Scenario2.busy.
Proof.
  destruct (destruction_releases_all_the_browser_owns Scenario2.busy 0%nat
              (mkBrowser "local" (Some 1%nat) Scenario.returning 77 0 2 [4%nat; 2%nat])
              Wf_busy busy_browser)
    as (s' & Hfree & Hb & Hg & Hi & Hr & Hrb & Ht & _).
  exists s'. split; [exact Hfree|]. split; [exact Hb|].
  split.
  { apply (Hi 2%nat (mkInfo 0%nat 1 0 Scenario.host1 None (Some Scenario.addr1)));
      [vm_compute; reflexivity|reflexivity]. }
  split.
  { apply (Hi 4%nat (mkInfo 0%nat 1 0 (Scenario.host 1) (Some 5%nat) None));
      [vm_compute; reflexivity|reflexivity]. }
  split.
  { apply (Hr 5%nat (mkHostNameResolver 1 0 "host.local" 0 4%nat)
              (mkInfo 0%nat 1 0 (Scenario.host 1) (Some 5%nat) None));
      [vm_compute; reflexivity|vm_compute; reflexivity|reflexivity]. }
  split; [apply (Hrb 1%nat); reflexivity|exact Ht].
Defined.

(** X12: destroying the last live browser leaves nothing behind: no browser,
    no entry, no resolver, no record watch and an empty registry. *)
Theorem destroying_the_last_browser_leaves_nothing s b B :
  Wf s -> browsers s !! b = Some B ->
  (forall b', is_Some (browsers s !! b') -> b' = b) ->
  exists s',
    avahi_dns_server_browser_free b s = Ok tt s' /\
    browsers s' = ∅ /\ infos s' = ∅ /\ host_name_resolvers s' = ∅ /\
    record_browsers s' = ∅ /\ dns_server_browsers s' = [].
Proof.
  intros HWf HB Honly.
  destruct (avahi_dns_server_browser_free_spec b s B HWf HB)
    as (s' & Hfree & [He Hg Hb Hi Hr Hrb Hk Ht] & HWf').
  pose proof (wf_inv _ HWf') as HInv'.
  assert (Hnone : forall b', browsers s' !! b' = None).
  { intros b'. rewrite Hb. destruct (decide (b' = b)) as [->|Hne].
    - apply lookup_delete_eq.
    - rewrite lookup_delete_ne by done. apply eq_None_not_Some. intros H. by apply Hne, Honly. }
  assert (Hnoinfo : forall i, infos s' !! i = None).
  { intros i. destruct (infos s' !! i) as [I|] eqn:HI; [|done].
    destruct (inv_info _ HInv' _ _ HI) as (B0 & HB0 & _). by rewrite Hnone in HB0. }
  exists s'. split; [done|].
  split; [apply map_eq; intros b'; by rewrite Hnone, lookup_empty|].
  split; [apply map_eq; intros i; by rewrite Hnoinfo, lookup_empty|].
  split.
  { apply map_eq. intros r. rewrite lookup_empty.
    destruct (host_name_resolvers s' !! r) as [hr|] eqn:Hhr; [|done].
    destruct (inv_resolved _ HInv' _ _ Hhr) as (I & HI & _). by rewrite Hnoinfo in HI. }
  split.
  { apply map_eq. intros rr. rewrite lookup_empty.
    destruct (record_browsers s' !! rr) as [rb|] eqn:Hrr; [|done].
    destruct (inv_watch _ HInv' _ _ Hrr) as [B0 HB0]. by rewrite Hnone in HB0. }
  apply elem_of_nil_inv. intros b' Hin.
  apply (wf_registry _ HWf') in Hin as [B0 HB0]. by rewrite Hnone in HB0.
Qed.

Lemma busy_has_one_browser b' : is_Some (browsers Scenario2.busy !! b') -> b' = 0%nat.
Proof.
  assert (Hb : browsers Scenario2.busy =
               {[0%nat := mkBrowser "local" (Some 1%nat) Scenario.returning 77 0 2
                            [4%nat; 2%nat]]}) by (vm_compute; reflexivity).
  rewrite Hb. intros [B HB]. apply lookup_singleton_Some in HB as [<- _]. reflexivity.
Qed.

Lemma destroying_the_last_browser_leaves_nothing_witness :
  exists s',
    avahi_dns_server_browser_free 0%nat Scenario2.busy = Ok tt s' /\
    browsers s' = ∅ /\ infos s' = ∅ /\ host_name_resolvers s' = ∅ /\
    record_browsers s' = ∅ /\ dns_server_browsers s' = [].
Proof.
  apply (destroying_the_last_browser_leaves_nothing Scenario2.busy 0%nat
           (mkBrowser "local" (Some 1%nat) Scenario.returning 77 0 2 [4%nat; 2%nat])
           Wf_busy busy_browser busy_has_one_browser).
Defined.

(** ** After the destruction *)

Lemma step_trace_brk s e s' :
  step s e s' ->
  (brk s <= brk s')%nat /\
  (trace s' = trace s \/
   exists pe, trace s' = pe :: trace s /\ is_Some (browsers s !! pe_browser pe)).
Proof.
  intros [e' _|rr rb B iface proto record env Hrr HB Hadm
         |rr rb B iface proto record env i I Hrr HB Hf HI
         |r hr I B ev a Hr HI HIr HB Ha]; simpl.
  - split; [lia|by left].
  - split; [destruct (resolver_ok env); lia|by left].
  - unfold announce_remove. destruct (host_name_resolver I); simpl.
    + split; [lia|by left].
    + split; [lia|]. right. eexists. split; [done|]. simpl. eauto.
  - split; [lia|]. destruct ev; [|by left].
    right. eexists. split; [done|]. simpl. eauto.
Qed.

Section AfterDestruction.

Variable avahi_is_valid_domain_name : string -> bool.
Variable avahi_normalize_name : string -> string.
Variable avahi_key_new : string -> Z -> Z -> AvahiKey.

Lemma avahi_dns_server_browser_new_outcome
    malloc_browser_ok watch_failure iface proto domain type aproto cb udata s o s' :
  Inv s ->
  avahi_dns_server_browser_new avahi_is_valid_domain_name avahi_normalize_name
    avahi_key_new malloc_browser_ok watch_failure iface proto domain type aproto cb udata s
  = Ok o s' ->
  (brk s <= brk s')%nat /\ trace s' = trace s /\
  forall b, (b < brk s)%nat -> browsers s' !! b = browsers s !! b.
Proof.
  intros HInv H.
  destruct (Inv_brk_fresh s HInv) as (Hfb & _).
  assert (Hcases : (forall d, domain = Some d -> avahi_is_valid_domain_name d = true) \/
                   exists d, domain = Some d /\ avahi_is_valid_domain_name d = false).
  { destruct domain as [d|]; [|by left].
    destruct (avahi_is_valid_domain_name d) eqn:Hd; [left|right; eauto].
    by intros d' [= <-]. }
  destruct Hcases as [Hvalid|(d & -> & Hd)].
  - destruct malloc_browser_ok.
    + destruct watch_failure as [e|].
      * rewrite avahi_dns_server_browser_new_watch_failure in H by done.
        injection H as <- <-. simpl. split; [lia|done].
      * rewrite avahi_dns_server_browser_new_ok in H by done.
        injection H as <- <-. simpl. split; [lia|]. split; [done|].
        intros b Hb. rewrite lookup_insert_ne; [done|lia].
    + rewrite avahi_dns_server_browser_new_oom in H by done.
      injection H as <- <-. simpl. split; [lia|done].
  - rewrite avahi_dns_server_browser_new_invalid in H by done.
    injection H as <- <-. simpl. split; [lia|done].
Qed.

Lemma api_call_gone b c s s' :
  Wf s -> (b < brk s)%nat -> browsers s !! b = None ->
  api_call avahi_is_valid_domain_name avahi_normalize_name avahi_key_new c s = Ok tt s' ->
  (b < brk s')%nat /\ browsers s' !! b = None /\
  (trace s' = trace s \/ exists pe, trace s' = pe :: trace s /\ pe_browser pe <> b).
Proof.
  intros HWf Hlt Hdead H. pose proof (wf_inv _ HWf) as HInv.
  destruct c as [m w iface proto domain type aproto cb udata|b0|e]; simpl in H.
  - apply bind_Ok_inv in H as (o & s1 & Hnew & Hret). injection Hret as <-.
    destruct (avahi_dns_server_browser_new_outcome _ _ _ _ _ _ _ _ _ _ _ _ HInv Hnew)
      as (Hk & Ht & Hb).
    split; [lia|]. split; [by rewrite Hb|by left].
  - destruct (browsers s !! b0) as [B0|] eqn:HB0.
    + destruct (avahi_dns_server_browser_free_spec b0 s B0 HWf HB0)
        as (s1 & Hfree & [He Hg Hb Hi Hr Hrb Hk Ht] & _).
      rewrite Hfree in H. injection H as <-.
      split; [by rewrite Hk|]. split; [|by left].
      rewrite Hb. destruct (decide (b = b0)) as [->|Hne]; [apply lookup_delete_eq|].
      by rewrite lookup_delete_ne.
    + unfold avahi_dns_server_browser_free in H. by mstep_in H.
  - pose proof (deliver_step _ _ _ HInv H) as Hstep.
    destruct (step_trace_brk _ _ _ Hstep) as (Hk & Ht).
    destruct (step_browsers _ _ _ Hstep) as (_ & _ & Hb).
    split; [lia|]. split.
    + specialize (Hb b). rewrite Hdead in Hb. by destruct (browsers s' !! b).
    + destruct Ht as [Ht|(pe & Ht & Hlive)]; [by left|].
      right. exists pe. split; [done|]. intros Heq. rewrite Heq, Hdead in Hlive.
      by destruct Hlive.
Qed.

Lemma api_run_gone b cs s s' :
  Wf s -> (b < brk s)%nat -> browsers s !! b = None ->
  api_run avahi_is_valid_domain_name avahi_normalize_name avahi_key_new cs s = Ok tt s' ->
  browsers s' !! b = None /\
  exists added, trace s' = added ++ trace s /\ forall pe, pe ∈ added -> pe_browser pe <> b.
Proof.
  revert s. induction cs as [|c cs IH]; intros s HWf Hlt Hdead H; simpl in H.
  - injection H as <-. split; [done|]. exists []. split; [done|]. by intros pe ?%elem_of_nil.
  - apply bind_Ok_inv in H as ([] & s1 & Hc & Hrest).
    destruct (api_call_gone _ _ _ _ HWf Hlt Hdead Hc) as (Hlt1 & Hdead1 & Ht1).
    destruct (IH s1 (api_call_Wf _ _ _ _ _ _ HWf Hc) Hlt1 Hdead1 Hrest)
      as (Hdead' & added & Ht' & Hadded).
    split; [done|].
    destruct Ht1 as [Ht1|(pe & Ht1 & Hpe)].
    + exists added. by rewrite Ht', Ht1.
    + exists (added ++ [pe]). rewrite Ht', Ht1, <- app_assoc. split; [done|].
      intros pe'. rewrite elem_of_app, list_elem_of_singleton. intros [?| ->]; auto.
Qed.

(** X13: once a browser is destroyed, whatever the clients and the
    subsystems do next (constructions, destructions of other browsers, events,
    also events for the handles the browser held), the browser stays released
    and no public callback is invoked for it any more. *)
Theorem destroyed_browser_stays_silent s b B s' cs s'' :
  Wf s -> browsers s !! b = Some B ->
  avahi_dns_server_browser_free b s = Ok tt s' ->
  api_run avahi_is_valid_domain_name avahi_normalize_name avahi_key_new cs s' = Ok tt s'' ->
  browsers s'' !! b = None /\
  exists added, trace s'' = added ++ trace s /\ forall pe, pe ∈ added -> pe_browser pe <> b.
Proof.
  intros HWf HB Hfree Hrun.
  destruct (avahi_dns_server_browser_free_spec b s B HWf HB)
    as (s1 & Hfree1 & [He Hg Hb Hi Hr Hrb Hk Ht] & HWf1).
  assert (s1 = s') as -> by congruence.
  rewrite <- Ht. apply (api_run_gone b cs s'); try done.
  - rewrite Hk. apply (inv_fresh_browsers _ (wf_inv _ HWf)). eauto.
  - rewrite Hb. apply lookup_delete_eq.
Qed.

(** X14: every state reached from the fresh server by constructions,
    destructions and events is well formed: the registry lists the live
    browsers, each once; every allocated entry is in the list of the live
    browser it points to; every running resolver is the one its entry
    refers to; every record watch is the one a live browser holds; and each
    browser's counter is the length of its duplicate-free list. *)
Theorem reachable_states_are_well_formed cs s :
  api_run avahi_is_valid_domain_name avahi_normalize_name avahi_key_new cs empty_server
    = Ok tt s ->
  NoDup (dns_server_browsers s) /\
  (forall b, b ∈ dns_server_browsers s <-> is_Some (browsers s !! b)) /\
  (forall b B, browsers s !! b = Some B ->
     NoDup (info B) /\ n_info B = Z.of_nat (length (info B))) /\
  (forall i I, infos s !! i = Some I ->
     exists B, browsers s !! browser I = Some B /\ i ∈ info B) /\
  (forall r hr, host_name_resolvers s !! r = Some hr ->
     exists I, infos s !! hr_userdata hr = Some I /\ host_name_resolver I = Some r) /\
  (forall rr rb, record_browsers s !! rr = Some rb ->
     exists B, browsers s !! rb_userdata rb = Some B /\ record_browser B = Some rr).
Proof.
  intros Hrun.
  pose proof (api_run_Wf _ _ _ _ _ _ Wf_empty_server Hrun) as [HInv Hown Hheld Hnd Hreg].
  split; [done|]. split; [done|]. split.
  { intros b B HB. pose proof (inv_browser _ HInv _ _ HB) as Hok.
    split; [apply (bo_nodup _ _ _ Hok)|apply (bo_count _ _ _ Hok)]. }
  split; [apply (inv_info _ HInv)|]. split; [apply (inv_resolved _ HInv)|done].
Qed.

End AfterDestruction.

Lemma destroyed_browser_stays_silent_witness :
  browsers Scenario2.after_afterwards !! 0%nat = None /\
  exists added,
    trace Scenario2.after_afterwards = added ++ trace Scenario2.busy /\
    forall pe, pe ∈ added -> pe_browser pe <> 0%nat.
Proof.
  apply (destroyed_browser_stays_silent Scenario.valid Scenario.normalize mkKey
           Scenario2.busy 0%nat
           (mkBrowser "local" (Some 1%nat) Scenario.returning 77 0 2 [4%nat; 2%nat])
           Scenario2.destroyed Scenario2.afterwards Scenario2.after_afterwards
           Wf_busy busy_browser).
  - vm_compute. reflexivity.
  - vm_compute. reflexivity.
Defined.

Lemma reachable_states_are_well_formed_witness :
  dns_server_browsers Scenario2.after_two_lives = [4%nat] /\
  NoDup (dns_server_browsers Scenario2.after_two_lives) /\
  (forall b, b ∈ dns_server_browsers Scenario2.after_two_lives <->
             is_Some (browsers Scenario2.after_two_lives !! b)) /\
  (forall i I, infos Scenario2.after_two_lives !! i = Some I ->
     exists B, browsers Scenario2.after_two_lives !! browser I = Some B /\ i ∈ info B).
Proof.
  destruct (reachable_states_are_well_formed Scenario.valid Scenario.normalize mkKey
              Scenario2.two_lives Scenario2.after_two_lives)
    as (Hnd & Hreg & _ & Hinfo & _).
  - vm_compute. reflexivity.
  - split; [vm_compute; reflexivity|]. split; [exact Hnd|]. split; [exact Hreg|exact Hinfo].
Defined.

(** ** The admission of a record *)

(** X15: a SRV NEW event for a record that is not tracked yet, below the
    bound and with both allocations succeeding, adds exactly one entry and
    one resolver: the entry holds the browser, the interface, the protocol
    and the record of the event, no address yet, and the handle of the
    resolver; the resolver was started on the interface and protocol of the
    event for the target name of the SRV record, with the address protocol
    the browser was constructed with, and with the entry as user data.  The
    entry goes to the head of the browser's list, the counter grows by one,
    and nothing is announced. *)
Theorem new_record_starts_the_resolution_of_its_target s b B env rr iface proto record :
  Inv s -> browsers s !! b = Some B ->
  key_type (key record) = AVAHI_DNS_TYPE_SRV ->
  get_server_info b iface proto record s = Ok None s -> n_info B < 10 ->
  malloc_ok env = true -> resolver_ok env = true ->
  exists s' i r B',
    record_browser_callback env rr iface proto AVAHI_BROWSER_NEW record b s = Ok tt s' /\
    infos s !! i = None /\ host_name_resolvers s !! r = None /\
    infos s' = <[i := mkInfo b iface proto record (Some r) None]> (infos s) /\
    host_name_resolvers s' =
      <[r := mkHostNameResolver iface proto (name (srv record)) (aprotocol B) i]>
        (host_name_resolvers s) /\
    browsers s' = <[b := B']> (browsers s) /\
    info B' = i :: info B /\ n_info B' = n_info B + 1 /\
    domain_name B' = domain_name B /\ record_browser B' = record_browser B /\
    callback B' = callback B /\ userdata B' = userdata B /\ aprotocol B' = aprotocol B /\
    record_browsers s' = record_browsers s /\
    dns_server_browsers s' = dns_server_browsers s /\
    trace s' = trace s /\ error s' = error s.
Proof.
  intros HInv HB Hsrv Hget Hn Hmal Hres.
  pose proof (Inv_entries_live _ _ _ HInv HB) as Hlive.
  pose proof (inv_browser _ HInv _ _ HB) as HokB.
  rewrite (get_server_info_find _ _ B) in Hget by done. injection Hget as Hf.
  destruct (Inv_brk_fresh s HInv) as (_ & Hfi & _ & Hfr & _).
  exists (after_new env b B iface proto record s), (brk s), (S (brk s)).
  eexists. split.
  { rewrite (record_browser_callback_new _ _ _ _ _ _ _ B) by done.
    unfold accepted. rewrite Hf, Hmal. destruct (10 <=? n_info B) eqn:Hle; [lia|done]. }
  simpl. rewrite Hres. do 5 (split; [done|]). simpl.
  split; [done|]. split; [|done].
  pose proof (bo_count _ _ _ HokB). rewrite Z.mod_small by lia. done.
Qed.

Lemma new_record_starts_the_resolution_of_its_target_witness :
  exists s',
    record_browser_callback Scenario.all_ok 1%nat 1 0 AVAHI_BROWSER_NEW Scenario.host1 0%nat
      (Scenario.created Scenario.returning) = Ok tt s' /\
    infos s' = {[2%nat := mkInfo 0%nat 1 0 Scenario.host1 (Some 3%nat) None]} /\
    host_name_resolvers s' = {[3%nat := mkHostNameResolver 1 0 "host1.local" 0 2%nat]} /\
    trace s' = [].
Proof.
  destruct (new_record_starts_the_resolution_of_its_target
              (Scenario.created Scenario.returning) 0%nat
              (mkBrowser "local" (Some 1%nat) Scenario.returning 77 0 0 [])
              Scenario.all_ok 1%nat 1 0 Scenario.host1 (Inv_created Scenario.returning)
              eq_refl eq_refl eq_refl)
    as (s' & i & r & B' & Hnew & Hi & Hr & Hinfos & Hres & _ & _ & _ & _ & _ & _ & _ & _ & _
        & _ & Ht & _); try reflexivity.
  exists s'. split; [exact Hnew|].
  assert (Heq : Ok tt s' = Ok tt Scenario.pending).
  { rewrite <- Hnew. vm_compute. reflexivity. }
  injection Heq as ->.
  split; [vm_compute; reflexivity|]. split; [vm_compute; reflexivity|exact Ht].
Defined.

(** ** The test program of the glib adapter *)

Lemma wakeups_spec n i :
  0 <= i -> i + Z.of_nat n < 2 ^ 31 ->
  fst (GlibWatchTest.wakeups n i) = i + Z.of_nat n /\
  (GlibWatchTest.MainLoopQuit ∈ snd (GlibWatchTest.wakeups n i) <->
   (0 < Z.of_nat n /\ 10 < i + Z.of_nat n)) /\
  length (filter (fun a => a = GlibWatchTest.SetWakeup 1000 0)
                 (snd (GlibWatchTest.wakeups n i))) = n.
Proof.
  revert i. induction n as [|n IH]; intros i Hi Hn.
  - simpl. split; [lia|]. split; [|done]. split; [by intros ?%elem_of_nil|lia].
  - assert (Hsucc : GlibWatchTest.int_succ i = i + 1).
    { unfold GlibWatchTest.int_succ. rewrite Z.mod_small by lia. lia. }
    simpl. unfold GlibWatchTest.wakeup. rewrite Hsucc.
    destruct (GlibWatchTest.wakeups n (i + 1)) as [i2 out2] eqn:Hrec.
    destruct (IH (i + 1)) as (Hfst & Hquit & Hset); [lia|lia|].
    rewrite Hrec in Hfst, Hquit, Hset. simpl in *.
    split; [lia|]. split.
    + rewrite elem_of_cons, elem_of_app, elem_of_app, list_elem_of_singleton, Hquit.
      destruct (10 <? i + 1) eqn:Hlt.
      * rewrite list_elem_of_singleton. split; [lia|]. intros _. right. left. by left.
      * split.
        -- intros [?|[[?%elem_of_nil|?]|?]]; try done. lia.
        -- intros [_ H10]. right. right. split; lia.
    + rewrite filter_cons_False by done. rewrite filter_app, filter_app, !length_app, Hset.
      destruct (10 <? i + 1); simpl; rewrite ?filter_cons_False, ?filter_cons_True by done;
        simpl; lia.
Qed.

(** X16: counting from the start of the program, the wakeup handler asks
    the main loop to quit in its 11th call and in none before, and every
    call re-arms the timer one second ahead. *)
Theorem wakeup_quits_from_the_11th_call_on n :
  Z.of_nat n < 2 ^ 31 ->
  fst (GlibWatchTest.wakeups n 0) = Z.of_nat n /\
  (GlibWatchTest.MainLoopQuit ∈ snd (GlibWatchTest.wakeups n 0) <-> (11 <= n)%nat) /\
  length (filter (fun a => a = GlibWatchTest.SetWakeup 1000 0)
                 (snd (GlibWatchTest.wakeups n 0))) = n.
Proof.
  intros Hn. destruct (wakeups_spec n 0) as (Hfst & Hquit & Hset); [lia|lia|].
  split; [lia|]. split; [|done]. rewrite Hquit. lia.
Qed.

Lemma wakeup_quits_from_the_11th_call_on_witness :
  (GlibWatchTest.MainLoopQuit ∉ snd (GlibWatchTest.wakeups 10 0)) /\
  GlibWatchTest.MainLoopQuit ∈ snd (GlibWatchTest.wakeups 11 0).
Proof.
  split.
  - intros Hin.
    apply (proj1 (proj1 (proj2 (wakeup_quits_from_the_11th_call_on 10 eq_refl)))) in Hin. lia.
  - apply (proj2 (proj1 (proj2 (wakeup_quits_from_the_11th_call_on 11 eq_refl)))). lia.
Defined.

(** X17: the watch callback does nothing unless the descriptor is readable;
    then it reads one byte, first of all; when the read fails or meets the
    end of the file it reports that (with the error number after a failure,
    as an end of file otherwise), frees the watch last, and prints no byte;
    otherwise it prints exactly the byte if it is printable ASCII (32 to 126)
    and exactly a dot in its place if not, and does not free the watch. *)
Theorem callback_prints_only_printable_bytes
    AVAHI_WATCH_IN read_result c error_number w fd event :
  let out := GlibWatchTest.callback AVAHI_WATCH_IN read_result c error_number w fd event in
  (forall c', GlibWatchTest.PrintRead c' ∈ out ->
     32 <= c' < 127 /\ (c' = c \/ (c' = 46 /\ ~ 32 <= c < 127))) /\
  (GlibWatchTest.WatchFree w ∈ out <->
   Z.land event AVAHI_WATCH_IN <> 0 /\ read_result <= 0) /\
  (GlibWatchTest.Read fd ∈ out <-> Z.land event AVAHI_WATCH_IN <> 0) /\
  (read_result <= 0 -> forall c', GlibWatchTest.PrintRead c' ∉ out) /\
  (forall c', GlibWatchTest.PrintRead c' ∈ out <->
     Z.land event AVAHI_WATCH_IN <> 0 /\ 0 < read_result /\
     ((32 <= c < 127 /\ c' = c) \/ (~ 32 <= c < 127 /\ c' = 46))) /\
  (forall e, GlibWatchTest.PrintReadFailed e ∈ out <->
     Z.land event AVAHI_WATCH_IN <> 0 /\
     ((read_result < 0 /\ e = Some error_number) \/ (read_result = 0 /\ e = None))) /\
  (Z.land event AVAHI_WATCH_IN = 0 -> out = []) /\
  (Z.land event AVAHI_WATCH_IN <> 0 ->
   head out = Some (GlibWatchTest.Read fd) /\
   length out = if read_result <=? 0 then 3%nat else 2%nat) /\
  (Z.land event AVAHI_WATCH_IN <> 0 -> read_result <= 0 ->
   last out = Some (GlibWatchTest.WatchFree w)).
Proof.
  unfold GlibWatchTest.callback.
  destruct (Z.land event AVAHI_WATCH_IN =? 0) eqn:Hin.
  - simpl. split; [by intros c' ?%elem_of_nil|].
    split; [split; [by intros ?%elem_of_nil|lia]|].
    split; [split; [by intros ?%elem_of_nil|lia]|].
    split; [by intros _ c' ?%elem_of_nil|].
    split; [intros c'; split; [by intros ?%elem_of_nil|lia]|].
    split; [intros e; split; [by intros ?%elem_of_nil|lia]|].
    split; [done|]. split; lia.
  - destruct (read_result <=? 0) eqn:Hr; simpl.
    + split.
      { intros c'. rewrite !elem_of_cons. intros [?|[?|[?|?%elem_of_nil]]]; done. }
      split.
      { split; [lia|]. intros _. do 2 apply list_elem_of_further. apply list_elem_of_here. }
      split; [split; [lia|intros _; apply list_elem_of_here]|].
      split.
      { intros _ c'. rewrite !elem_of_cons. intros [?|[?|[?|?%elem_of_nil]]]; done. }
      split.
      { intros c'. split; [|lia].
        rewrite !elem_of_cons. intros [?|[?|[?|?%elem_of_nil]]]; done. }
      split.
      { intros e. rewrite !elem_of_cons. split.
        - intros [?|[Heq|[?|?%elem_of_nil]]]; try done. injection Heq as ->.
          split; [lia|]. destruct (read_result <? 0) eqn:Hneg; [left|right]; split; (lia || done).
        - intros (_ & [(Hneg & ->)|(Hz & ->)]); right; left; f_equal.
          + by destruct (read_result <? 0) eqn:Hneg'; [|lia].
          + by destruct (read_result <? 0) eqn:Hneg'; [lia|]. }
      split; [lia|]. split; [done|]. done.
    + split.
      { intros c'. rewrite !elem_of_cons. intros [?|[Heq|?%elem_of_nil]]; try done.
        injection Heq as ->.
        destruct (32 <=? c) eqn:H1, (c <? 127) eqn:H2; simpl; lia. }
      split.
      { split; [|lia]. rewrite !elem_of_cons. intros [?|[?|?%elem_of_nil]]; done. }
      split; [split; [lia|intros _; apply list_elem_of_here]|].
      split; [lia|].
      split.
      { intros c'. rewrite !elem_of_cons. split.
        - intros [?|[Heq|?%elem_of_nil]]; try done. injection Heq as ->.
          split; [lia|]. split; [lia|].
          destruct (32 <=? c) eqn:H1, (c <? 127) eqn:H2; simpl; [left|right|right|right];
            split; (lia || done).
        - intros (_ & _ & [(Hp & ->)|(Hp & ->)]); right; left; f_equal.
          + destruct (32 <=? c) eqn:H1, (c <? 127) eqn:H2; simpl; (lia || done).
          + destruct (32 <=? c) eqn:H1, (c <? 127) eqn:H2; simpl; (lia || done). }
      split.
      { intros e. rewrite !elem_of_cons. split; [|lia].
        intros [?|[?|?%elem_of_nil]]; done. }
      split; [lia|]. split; [done|lia].
Qed.

Lemma callback_prints_only_printable_bytes_witness :
  GlibWatchTest.PrintRead 46 ∈ GlibWatchTest.callback 1 1 7 0 0%nat 0 1 /\
  GlibWatchTest.PrintRead 65 ∈ GlibWatchTest.callback 1 1 65 0 0%nat 0 1 /\
  (GlibWatchTest.PrintRead 7 ∉ GlibWatchTest.callback 1 1 7 0 0%nat 0 1) /\
  GlibWatchTest.PrintReadFailed None ∈ GlibWatchTest.callback 1 0 7 0 0%nat 0 1 /\
  GlibWatchTest.PrintReadFailed (Some 11) ∈ GlibWatchTest.callback 1 (-1) 7 11 0%nat 0 1 /\
  (GlibWatchTest.WatchFree 0%nat ∉ GlibWatchTest.callback 1 1 7 0 0%nat 0 1) /\
  GlibWatchTest.WatchFree 0%nat ∈ GlibWatchTest.callback 1 0 7 0 0%nat 0 1 /\
  GlibWatchTest.callback 1 1 7 0 0%nat 0 2 = [].
Proof.
  pose proof (callback_prints_only_printable_bytes 1 1 7 0 0%nat 0 1)
    as (_ & Hfree & _ & _ & Hprint & _).
  pose proof (callback_prints_only_printable_bytes 1 1 65 0 0%nat 0 1)
    as (_ & _ & _ & _ & Hprint' & _).
  pose proof (callback_prints_only_printable_bytes 1 0 7 0 0%nat 0 1)
    as (_ & Hfree0 & _ & _ & _ & Hfailed0 & _).
  pose proof (callback_prints_only_printable_bytes 1 (-1) 7 11 0%nat 0 1)
    as (_ & _ & _ & _ & _ & Hfailed & _).
  pose proof (callback_prints_only_printable_bytes 1 1 7 0 0%nat 0 2)
    as (_ & _ & _ & _ & _ & _ & Hnone & _).
  split; [apply Hprint; split; [discriminate|]; split; [lia|right; split; [lia|reflexivity]]|].
  split; [apply Hprint'; split; [discriminate|]; split; [lia|left; split; [lia|reflexivity]]|].
  split.
  { intros Hin. apply Hprint in Hin as (_ & _ & [(Hp & _)|(_ & Heq)]); [lia|discriminate]. }
  split; [apply Hfailed0; split; [discriminate|right; split; reflexivity]|].
  split; [apply Hfailed; split; [discriminate|left; split; [lia|reflexivity]]|].
  split; [intros Hin; apply Hfree in Hin as [_ Hr]; lia|].
  split; [apply Hfree0; split; [discriminate|lia]|].
  apply Hnone. reflexivity.
Defined.

(** ** One-shot resolution, also across the calls of the client *)

Section OneShot.

Variable avahi_is_valid_domain_name : string -> bool.
Variable avahi_normalize_name : string -> string.
Variable avahi_key_new : string -> Z -> Z -> AvahiKey.

Lemma avahi_dns_server_browser_new_keeps_entries
    malloc_browser_ok watch_failure iface proto domain type aproto cb udata s o s' :
  Inv s ->
  avahi_dns_server_browser_new avahi_is_valid_domain_name avahi_normalize_name
    avahi_key_new malloc_browser_ok watch_failure iface proto domain type aproto cb udata s
  = Ok o s' ->
  (brk s <= brk s')%nat /\ infos s' = infos s /\
  host_name_resolvers s' = host_name_resolvers s.
Proof.
  intros HInv H.
  destruct (Inv_brk_fresh s HInv) as (Hfb & _).
  assert (Hcases : (forall d, domain = Some d -> avahi_is_valid_domain_name d = true) \/
                   exists d, domain = Some d /\ avahi_is_valid_domain_name d = false).
  { destruct domain as [d|]; [|by left].
    destruct (avahi_is_valid_domain_name d) eqn:Hd; [left|right; eauto].
    by intros d' [= <-]. }
  destruct Hcases as [Hvalid|(d & -> & Hd)].
  - destruct malloc_browser_ok.
    + destruct watch_failure as [e|].
      * rewrite avahi_dns_server_browser_new_watch_failure in H by done.
        injection H as <- <-. simpl. split; [lia|done].
      * rewrite avahi_dns_server_browser_new_ok in H by done.
        injection H as <- <-. simpl. split; [lia|done].
    + rewrite avahi_dns_server_browser_new_oom in H by done.
      injection H as <- <-. simpl. split; [lia|done].
  - rewrite avahi_dns_server_browser_new_invalid in H by done.
    injection H as <- <-. simpl. split; [lia|done].
Qed.

Lemma api_call_resolution_over r i c s s' :
  Wf s -> resolution_over r i s ->
  api_call avahi_is_valid_domain_name avahi_normalize_name avahi_key_new c s = Ok tt s' ->
  resolution_over r i s'.
Proof.
  intros HWf Hover H. pose proof (wf_inv _ HWf) as HInv.
  pose proof Hover as (Hr & Hi & Hgone & Hnull).
  destruct c as [m w iface proto domain type aproto cb udata|b0|e]; simpl in H.
  - apply bind_Ok_inv in H as (o & s1 & Hnew & Hret). injection Hret as <-.
    destruct (avahi_dns_server_browser_new_keeps_entries _ _ _ _ _ _ _ _ _ _ _ _ HInv Hnew)
      as (Hk & Hinf & Hres).
    unfold resolution_over. rewrite Hinf, Hres. split; [lia|]. split; [lia|done].
  - destruct (browsers s !! b0) as [B0|] eqn:HB0.
    + destruct (avahi_dns_server_browser_free_spec b0 s B0 HWf HB0)
        as (s1 & Hfree & [He Hg Hb Hinf Hres Hrb Hk Ht] & _).
      rewrite Hfree in H. injection H as <-.
      unfold resolution_over. rewrite Hk, Hres, Hgone.
      split; [done|]. split; [done|]. split; [done|].
      intros I0. rewrite Hinf. destruct (decide (i ∈ info B0)); [done|apply Hnull].
    + unfold avahi_dns_server_browser_free in H. by mstep_in H.
  - eapply step_resolution_over; [done|]. by eapply deliver_step.
Qed.

Lemma api_run_resolution_over r i cs s s' :
  Wf s -> resolution_over r i s ->
  api_run avahi_is_valid_domain_name avahi_normalize_name avahi_key_new cs s = Ok tt s' ->
  resolution_over r i s'.
Proof.
  revert s. induction cs as [|c cs IH]; intros s HWf Hover H; simpl in H.
  - by injection H as <-.
  - apply bind_Ok_inv in H as ([] & s1 & Hc & Hrest).
    eapply IH; [by eapply api_call_Wf|by eapply api_call_resolution_over|done].
Qed.

(** X18: when the resolver of an entry delivers TIMEOUT, or FOUND with an
    address and the public NEW callback returns (does not destroy the
    browser), the handler releases the handle and clears the entry's
    reference; no later event gives that entry a resolver again, and from a
    well-formed state no later construction or destruction of a browser
    does either. *)
Theorem resolver_is_one_shot s r hr I B ev a :
  Inv s -> host_name_resolvers s !! r = Some hr ->
  infos s !! hr_userdata hr = Some I -> browsers s !! browser I = Some B ->
  (ev = AVAHI_RESOLVER_FOUND ->
   is_Some a /\
   callback B (mkPublicEvent (browser I) (interface I) (protocol I) AVAHI_BROWSER_NEW
                 (name (srv (srv_record I))) a (port (srv (srv_record I))) (userdata B))
   = CbReturn) ->
  exists s1,
    deliver (ResolverEvent r ev a) s = Ok tt s1 /\
    host_name_resolvers s1 !! r = None /\
    (exists I1, infos s1 !! hr_userdata hr = Some I1 /\ host_name_resolver I1 = None) /\
    (forall evs s2, run evs s1 = Ok tt s2 ->
       host_name_resolvers s2 !! r = None /\
       forall I2, infos s2 !! hr_userdata hr = Some I2 -> host_name_resolver I2 = None) /\
    (Wf s ->
     forall cs s2,
       api_run avahi_is_valid_domain_name avahi_normalize_name avahi_key_new cs s1
         = Ok tt s2 ->
       host_name_resolvers s2 !! r = None /\
       forall I2, infos s2 !! hr_userdata hr = Some I2 -> host_name_resolver I2 = None).
Proof.
  intros HInv Hr HI HB Hev.
  destruct (inv_resolved _ HInv _ _ Hr) as (I' & HI' & HIr).
  assert (I' = I) as -> by congruence.
  exists (after_resolution r (hr_userdata hr) I B ev a s).
  assert (Hdel : deliver (ResolverEvent r ev a) s =
                 Ok tt (after_resolution r (hr_userdata hr) I B ev a s)).
  { unfold deliver. mstep. rewrite Hr.
    by apply (host_name_resolver_callback_ok _ _ _ _ _ _ _ _ I B hr). }
  split; [done|]. simpl. rewrite lookup_delete_eq, lookup_insert_eq.
  split; [done|]. split; [by eexists|].
  assert (Hover : resolution_over r (hr_userdata hr)
                    (after_resolution r (hr_userdata hr) I B ev a s)).
  { unfold resolution_over. simpl. rewrite lookup_delete_eq, lookup_insert_eq.
    repeat split; [| |by intros I0 [= <-]].
    - apply (inv_fresh_host_name_resolvers _ HInv). eauto.
    - apply (inv_fresh_infos _ HInv). eauto. }
  split.
  - intros evs s2 Hrun.
    destruct (run_resolution_over _ _ _ _ _ (deliver_Inv _ _ _ HInv Hdel) Hover Hrun)
      as (_ & _ & Hgone & Hnull).
    done.
  - intros HWf cs s2 Hrun.
    destruct (api_run_resolution_over _ _ _ _ _ (deliver_Wf _ _ _ HWf Hdel) Hover Hrun)
      as (_ & _ & Hgone & Hnull).
    done.
Qed.

End OneShot.

Lemma Wf_pending : Wf Scenario.pending.
Proof.
  apply (run_Wf [Scenario.srv_new Scenario.host1 Scenario.all_ok]
                (Scenario.created Scenario.returning)); [apply Wf_created|].
  vm_compute. reflexivity.
Qed.

Lemma resolver_is_one_shot_witness :
  deliver (ResolverEvent 3%nat AVAHI_RESOLVER_FOUND (Some Scenario.addr1)) Scenario.pending
    = Ok tt Scenario.resolved /\
  host_name_resolvers Scenario.resolved !! 3%nat = None /\
  (exists I1, infos Scenario.resolved !! 2%nat = Some I1 /\ host_name_resolver I1 = None) /\
  (forall evs s2, run evs Scenario.resolved = Ok tt s2 ->
     forall I2, infos s2 !! 2%nat = Some I2 -> host_name_resolver I2 = None) /\
  forall cs s2,
    api_run Scenario.valid Scenario.normalize mkKey cs Scenario.resolved = Ok tt s2 ->
    forall I2, infos s2 !! 2%nat = Some I2 -> host_name_resolver I2 = None.
Proof.
  destruct (resolver_is_one_shot Scenario.valid Scenario.normalize mkKey
              Scenario.pending 3%nat
              (mkHostNameResolver 1 0 "host1.local" 0 2%nat)
              (mkInfo 0%nat 1 0 Scenario.host1 (Some 3%nat) None)
              (mkBrowser "local" (Some 1%nat) Scenario.returning 77 0 1 [2%nat])
              AVAHI_RESOLVER_FOUND (Some Scenario.addr1)
              Inv_pending eq_refl eq_refl eq_refl)
    as (s1 & Hdel & Hgone & Hnull & Hlater & Hapi).
  { intros _. split; [eexists; reflexivity|reflexivity]. }
  assert (Heq : Ok tt s1 = Ok tt Scenario.resolved).
  { rewrite <- Hdel. vm_compute. reflexivity. }
  injection Heq as ->.
  split; [exact Hdel|]. split; [exact Hgone|]. split; [exact Hnull|].
  split.
  - intros evs s2 Hrun. exact (proj2 (Hlater evs s2 Hrun)).
  - intros cs s2 Hrun. exact (proj2 (Hapi Wf_pending cs s2 Hrun)).
Defined.
